(** * nvme_manage: the controller registry, the synchronous admin-command
      pattern and the namespace operations of
      examples/nvme/nvme_manage/nvme_manage.c

    The program is embedded as state-passing functions over a [world] that
    holds the program's globals ([devs], [num_devs]) together with the
    environment it talks to: standard input and output, the allocator, the
    NVMe driver and the file system.  Every source function keeps its name. *)

From Stdlib Require Import ZArith List String Ascii Bool Lia Permutation Sorted.
Import ListNotations.
Local Open Scope string_scope.
Local Open Scope list_scope.
Local Open Scope Z_scope.

(** ** Machine integers *)

Module CInt.

(** Value of [v] converted to an unsigned integer of [bits] bits. *)
Definition to_unsigned (bits v : Z) : Z := v mod 2 ^ bits.

(** Value of [v] converted to a two's-complement integer of [bits] bits. *)
Definition to_signed (bits v : Z) : Z :=
  (v + 2 ^ (bits - 1)) mod 2 ^ bits - 2 ^ (bits - 1).

Definition INT_MIN : Z := - 2 ^ 31.
Definition INT_MAX : Z := 2 ^ 31 - 1.

Definition to_int : Z -> Z := to_signed 32.
Definition to_uint8 : Z -> Z := to_unsigned 8.
Definition to_uint32 : Z -> Z := to_unsigned 32.
Definition to_uint64 : Z -> Z := to_unsigned 64.

(** A bit-field of [bits] bits keeps the low bits of what is assigned. *)
Definition bitfield (bits v : Z) : Z := to_unsigned bits v.

Lemma to_int_id (v : Z) : INT_MIN <= v <= INT_MAX -> to_int v = v.
Proof.
  unfold to_int, to_signed, INT_MIN, INT_MAX. intros H.
  change (2 ^ (32 - 1)) with 2147483648 in *.
  change (2 ^ 31) with 2147483648 in *.
  change (2 ^ 32) with 4294967296.
  rewrite Z.mod_small by lia. lia.
Qed.

Lemma to_int_range (v : Z) : INT_MIN <= to_int v <= INT_MAX.
Proof.
  unfold to_int, to_signed, INT_MIN, INT_MAX.
  change (2 ^ (32 - 1)) with 2147483648.
  change (2 ^ 31) with 2147483648.
  change (2 ^ 32) with 4294967296.
  pose proof (Z.mod_pos_bound (v + 2147483648) 4294967296 ltac:(lia)). lia.
Qed.

End CInt.
Import CInt.

(** ** Data model *)

Definition MAX_DEVS : Z := 64.
Definition SPDK_NVME_SC_SUCCESS : Z := 0.
Definition SPDK_NVME_OPC_IDENTIFY : Z := 6.
Definition SPDK_NVME_GLOBAL_NS_TAG : Z := 4294967295.
Definition SPDK_NVME_IDENTIFY_ALLOCATED_NS_LIST : Z := 16.
Definition SPDK_NVME_FMT_NVM_PROTECTION_DISABLE : Z := 0.
Definition SPDK_NVME_NS_CTRLR_ATTACH : Z := 0.
Definition SPDK_NVME_NS_CTRLR_DETACH : Z := 1.
Definition CONTROLLER_DISPLAY_ALL : Z := 0.
Definition CONTROLLER_DISPLAY_SIMPLISTIC : Z := 1.

(** [struct spdk_pci_addr]: domain, bus, device, function. *)
Record spdk_pci_addr : Type := {
  domain : Z;
  bus : Z;
  pci_dev : Z;
  func : Z
}.

(** The fields of [struct spdk_nvme_ctrlr_data] that the program reads. *)
Record spdk_nvme_ctrlr_data : Type := {
  mn : string;
  sn : string;
  cntlid : Z;
  nn : Z;
  oacs_format : bool;
  oacs_firmware : bool;
  oacs_ns_manage : bool;
  fna_format_all_ns : bool;
  fna_crypto_erase_supported : bool
}.

(** One entry of the LBA format table, [lbaf[i]]. *)
Record lbaf_entry : Type := {
  lbaf_ms : Z;
  lbaf_lbads : Z
}.

(** The fields of [struct spdk_nvme_ns_data] that the program reads or
    writes; [lbaf] is the 16-entry table. *)
Record spdk_nvme_ns_data : Type := {
  nsze : Z;
  ncap : Z;
  nuse : Z;
  nlbaf : Z;
  flbas_format : Z;
  fpi_supported : bool;
  fpi_percentage_remaining : Z;
  lbaf : list lbaf_entry;
  dpc_pit1 : bool;
  dpc_pit2 : bool;
  dpc_pit3 : bool;
  dpc_md_start : bool;
  dpc_md_end : bool;
  dps_pit : Z;
  dps_md_start : Z;
  nmic_can_share : Z
}.

(** What [spdk_zmalloc (sizeof (struct spdk_nvme_ns_data))] hands out. *)
Definition ns_data_zero : spdk_nvme_ns_data := {|
  nsze := 0; ncap := 0; nuse := 0; nlbaf := 0; flbas_format := 0;
  fpi_supported := false; fpi_percentage_remaining := 0;
  lbaf := repeat {| lbaf_ms := 0; lbaf_lbads := 0 |} 16;
  dpc_pit1 := false; dpc_pit2 := false; dpc_pit3 := false;
  dpc_md_start := false; dpc_md_end := false;
  dps_pit := 0; dps_md_start := 0; nmic_can_share := 0
|}.

(** A namespace object of the driver, seen through [spdk_nvme_ns_get_id]
    and [spdk_nvme_ns_get_data]. *)
Record spdk_nvme_ns : Type := {
  ns_get_id : Z;
  ns_get_data : spdk_nvme_ns_data
}.

(** A controller object of the driver, seen through its accessors and
    through what the device answers to the two identify commands the
    program sends.  [ctrlr_id] stands for the object's address. *)
Record spdk_nvme_ctrlr : Type := {
  ctrlr_id : Z;
  ctrlr_get_data : spdk_nvme_ctrlr_data;
  ctrlr_get_num_ns : Z;
  ctrlr_get_ns : Z -> option spdk_nvme_ns;
  identify_common_ns : spdk_nvme_ns_data;
  identify_allocated_ns : list Z
}.

(** [struct dev]: one slot of the registry.  Pointer fields are [None]
    when they are [NULL]. *)
Record dev : Type := {
  pci_addr : spdk_pci_addr;
  ctrlr : option spdk_nvme_ctrlr;
  cdata : option spdk_nvme_ctrlr_data;
  common_ns_data : option spdk_nvme_ns_data;
  outstanding_admin_cmds : Z
}.

(** A slot of the static array before anything is stored in it. *)
Definition dev_zero : dev := {|
  pci_addr := {| domain := 0; bus := 0; pci_dev := 0; func := 0 |};
  ctrlr := None; cdata := None; common_ns_data := None;
  outstanding_admin_cmds := 0
|}.

(** [struct spdk_nvme_cmd], the three fields the program sets. *)
Record spdk_nvme_cmd : Type := {
  opc : Z;
  cdw10 : Z;
  nsid : Z
}.

(** [struct spdk_nvme_cpl], reduced to [status.sc]. *)
Record spdk_nvme_cpl : Type := {
  status_sc : Z
}.

(** [struct spdk_nvme_format]; every field is a bit-field. *)
Record spdk_nvme_format : Type := {
  fmt_lbaf : Z;
  fmt_ms : Z;
  fmt_pi : Z;
  fmt_pil : Z;
  fmt_ses : Z
}.

(** [struct spdk_nvme_probe_info], reduced to the PCI address. *)
Record spdk_nvme_probe_info : Type := {
  probe_pci_addr : spdk_pci_addr
}.

(** ** The environment *)

Inductive stream : Type := Stdout | Stderr.

Inductive arg : Type :=
| AInt (v : Z)
| AStr (s : string).

(** One call of [printf], [fprintf] or [perror]: the stream, the format as
    it is spelled in the source (escape sequences left as written) and the
    values of the arguments. *)
Inductive output_event : Type :=
| Print (s : stream) (fmt : string) (args : list arg).

(** What the program hands to the driver, in order. *)
Inductive driver_call : Type :=
| CallAdminRaw (c : Z) (cmd : spdk_nvme_cmd)
| CallCreateNs (c : Z) (ndata : spdk_nvme_ns_data)
| CallDeleteNs (c : Z) (ns_id : Z)
| CallAttachNs (c : Z) (ns_id : Z) (ctrlr_list : list Z)
| CallDetachNs (c : Z) (ns_id : Z) (ctrlr_list : list Z)
| CallFormat (c : Z) (ns_id : Z) (f : spdk_nvme_format)
| CallUpdateFirmware (c : Z) (size : Z) (slot : Z)
| CallDetach (c : Z).

(** The driver's answer to one [spdk_nvme_ctrlr_cmd_admin_raw]: the return
    code and, when the command is queued ([raw_rc = 0]), after how many
    further polls it completes and with which status code. *)
Record raw_answer : Type := {
  raw_rc : Z;
  raw_delay : nat;
  raw_sc : Z
}.

(** The two completion callbacks of the program. *)
Inductive admin_cb : Type :=
| cb_identify_common_ns
| cb_identify_allocated_ns.

(** An admin command queued in the driver: the controller, the callback
    and its argument (a pointer into [devs]), and its fate. *)
Record admin_req : Type := {
  req_ctrlr : spdk_nvme_ctrlr;
  req_cb : admin_cb;
  req_arg : Z;
  req_delay : nat;
  req_sc : Z
}.

(** A file as [fstat] and [read] show it. *)
Record file : Type := {
  fstat_rc : Z;
  st_size : Z;
  read_rc : Z -> Z
}.

(** The program's globals and everything around it.  The scripts answer
    the successive calls of [spdk_zmalloc] ([true]: memory is returned),
    of [spdk_nvme_ctrlr_cmd_admin_raw] and of the synchronous driver
    commands (their return values); an exhausted script answers with
    success, that is [true], a command that completes at once with status
    0, and 0. *)
Record world : Type := {
  devs : list dev;
  num_devs : Z;
  ns_list : option (list Z);
  stdin : string;
  output : list output_event;
  zmalloc_script : list bool;
  admin_raw_script : list raw_answer;
  command_script : list Z;
  pending : list admin_req;
  issued : list driver_call;
  fs : string -> option file;
  bus_scan : list (spdk_nvme_probe_info * spdk_nvme_ctrlr);
  rte_eal_init_rc : Z;
  spdk_nvme_probe_rc : Z
}.

Definition set_devs (f : list dev -> list dev) (w : world) : world :=
  {| devs := f (devs w); num_devs := num_devs w; ns_list := ns_list w;
     stdin := stdin w; output := output w;
     zmalloc_script := zmalloc_script w;
     admin_raw_script := admin_raw_script w;
     command_script := command_script w; pending := pending w;
     issued := issued w; fs := fs w; bus_scan := bus_scan w;
     rte_eal_init_rc := rte_eal_init_rc w;
     spdk_nvme_probe_rc := spdk_nvme_probe_rc w |}.

Definition set_num_devs (n : Z) (w : world) : world :=
  {| devs := devs w; num_devs := n; ns_list := ns_list w;
     stdin := stdin w; output := output w;
     zmalloc_script := zmalloc_script w;
     admin_raw_script := admin_raw_script w;
     command_script := command_script w; pending := pending w;
     issued := issued w; fs := fs w; bus_scan := bus_scan w;
     rte_eal_init_rc := rte_eal_init_rc w;
     spdk_nvme_probe_rc := spdk_nvme_probe_rc w |}.

Definition set_ns_list (l : option (list Z)) (w : world) : world :=
  {| devs := devs w; num_devs := num_devs w; ns_list := l;
     stdin := stdin w; output := output w;
     zmalloc_script := zmalloc_script w;
     admin_raw_script := admin_raw_script w;
     command_script := command_script w; pending := pending w;
     issued := issued w; fs := fs w; bus_scan := bus_scan w;
     rte_eal_init_rc := rte_eal_init_rc w;
     spdk_nvme_probe_rc := spdk_nvme_probe_rc w |}.

Definition set_stdin (s : string) (w : world) : world :=
  {| devs := devs w; num_devs := num_devs w; ns_list := ns_list w;
     stdin := s; output := output w;
     zmalloc_script := zmalloc_script w;
     admin_raw_script := admin_raw_script w;
     command_script := command_script w; pending := pending w;
     issued := issued w; fs := fs w; bus_scan := bus_scan w;
     rte_eal_init_rc := rte_eal_init_rc w;
     spdk_nvme_probe_rc := spdk_nvme_probe_rc w |}.

Definition add_output (e : output_event) (w : world) : world :=
  {| devs := devs w; num_devs := num_devs w; ns_list := ns_list w;
     stdin := stdin w; output := output w ++ [e];
     zmalloc_script := zmalloc_script w;
     admin_raw_script := admin_raw_script w;
     command_script := command_script w; pending := pending w;
     issued := issued w; fs := fs w; bus_scan := bus_scan w;
     rte_eal_init_rc := rte_eal_init_rc w;
     spdk_nvme_probe_rc := spdk_nvme_probe_rc w |}.

Definition set_zmalloc_script (l : list bool) (w : world) : world :=
  {| devs := devs w; num_devs := num_devs w; ns_list := ns_list w;
     stdin := stdin w; output := output w;
     zmalloc_script := l;
     admin_raw_script := admin_raw_script w;
     command_script := command_script w; pending := pending w;
     issued := issued w; fs := fs w; bus_scan := bus_scan w;
     rte_eal_init_rc := rte_eal_init_rc w;
     spdk_nvme_probe_rc := spdk_nvme_probe_rc w |}.

Definition set_admin_raw_script (l : list raw_answer) (w : world) : world :=
  {| devs := devs w; num_devs := num_devs w; ns_list := ns_list w;
     stdin := stdin w; output := output w;
     zmalloc_script := zmalloc_script w;
     admin_raw_script := l;
     command_script := command_script w; pending := pending w;
     issued := issued w; fs := fs w; bus_scan := bus_scan w;
     rte_eal_init_rc := rte_eal_init_rc w;
     spdk_nvme_probe_rc := spdk_nvme_probe_rc w |}.

Definition set_command_script (l : list Z) (w : world) : world :=
  {| devs := devs w; num_devs := num_devs w; ns_list := ns_list w;
     stdin := stdin w; output := output w;
     zmalloc_script := zmalloc_script w;
     admin_raw_script := admin_raw_script w;
     command_script := l; pending := pending w;
     issued := issued w; fs := fs w; bus_scan := bus_scan w;
     rte_eal_init_rc := rte_eal_init_rc w;
     spdk_nvme_probe_rc := spdk_nvme_probe_rc w |}.

Definition set_pending (l : list admin_req) (w : world) : world :=
  {| devs := devs w; num_devs := num_devs w; ns_list := ns_list w;
     stdin := stdin w; output := output w;
     zmalloc_script := zmalloc_script w;
     admin_raw_script := admin_raw_script w;
     command_script := command_script w; pending := l;
     issued := issued w; fs := fs w; bus_scan := bus_scan w;
     rte_eal_init_rc := rte_eal_init_rc w;
     spdk_nvme_probe_rc := spdk_nvme_probe_rc w |}.

Definition add_issued (c : driver_call) (w : world) : world :=
  {| devs := devs w; num_devs := num_devs w; ns_list := ns_list w;
     stdin := stdin w; output := output w;
     zmalloc_script := zmalloc_script w;
     admin_raw_script := admin_raw_script w;
     command_script := command_script w; pending := pending w;
     issued := issued w ++ [c]; fs := fs w; bus_scan := bus_scan w;
     rte_eal_init_rc := rte_eal_init_rc w;
     spdk_nvme_probe_rc := spdk_nvme_probe_rc w |}.

(** ** Outcomes and the program monad *)

(** Behaviour the C standard leaves undefined. *)
Inductive fault : Type :=
| OutOfBounds (index : Z)
| NullPointer
| Uninitialized.

(** How a piece of the program can end: it returns a value, it calls
    [exit], it runs into undefined behaviour, it is caught in a loop that
    no input can end, or the model's fuel for a poll loop or for the menu
    loop is used up. *)
Inductive outcome (A : Type) : Type :=
| Ret (a : A) (w : world)
| Exit (code : Z) (w : world)
| Undefined (f : fault) (w : world)
| Hang (w : world)
| OutOfFuel.

Arguments Ret {A} a w.
Arguments Exit {A} code w.
Arguments Undefined {A} f w.
Arguments Hang {A} w.
Arguments OutOfFuel {A}.

Definition M (A : Type) : Type := world -> outcome A.

Definition ret {A : Type} (a : A) : M A := fun w => Ret a w.

Definition bind {A B : Type} (m : M A) (k : A -> M B) : M B :=
  fun w =>
    match m w with
    | Ret a w' => k a w'
    | Exit c w' => Exit c w'
    | Undefined f w' => Undefined f w'
    | Hang w' => Hang w'
    | OutOfFuel => OutOfFuel
    end.

Declare Scope prog_scope.
Delimit Scope prog_scope with prog.
Bind Scope prog_scope with M.

Notation "x <- c1 ;; c2" := (bind c1 (fun x => c2))
  (at level 61, c1 at next level, right associativity) : prog_scope.
Notation "c1 ;; c2" := (bind c1 (fun _ => c2))
  (at level 61, right associativity) : prog_scope.

Local Open Scope prog_scope.

Definition exit {A : Type} (code : Z) : M A := fun w => Exit code w.
Definition undefined {A : Type} (f : fault) : M A := fun w => Undefined f w.
Definition gets {A : Type} (f : world -> A) : M A := fun w => Ret (f w) w.
Definition modify (f : world -> world) : M unit := fun w => Ret tt (f w).

Definition fprintf (s : stream) (fmt : string) (args : list arg) : M unit :=
  modify (add_output (Print s fmt args)).
Definition printf (fmt : string) (args : list arg) : M unit :=
  fprintf Stdout fmt args.
(** [perror]: the message, without the text of [errno] that follows it. *)
Definition perror (msg : string) : M unit :=
  fprintf Stderr msg [].

(** ** Standard input

    [stdin] is the text still to be read; the empty string is end of file.
    The functions below are the C library's, as far as the program uses
    them: [getchar] loops, [fgets] and the [scanf] conversions [%d], [%u],
    [%i] and [%c]. *)

Module Stdio.

Definition newline : ascii := ascii_of_nat 10.
Definition NUL : ascii := ascii_of_nat 0.

Definition isspace (c : ascii) : bool :=
  let n := Z.of_nat (nat_of_ascii c) in
  (n =? 32) || ((9 <=? n) && (n <=? 13)).

Fixpoint skip_space (s : string) : string :=
  match s with
  | EmptyString => EmptyString
  | String c r => if isspace c then skip_space r else s
  end.

(** The text after the first newline, [None] when end of file comes
    first. *)
Fixpoint drop_line (s : string) : option string :=
  match s with
  | EmptyString => None
  | String c r => if Ascii.eqb c newline then Some r else drop_line r
  end.

(** The text up to the first NUL: what C sees in a [char] array. *)
Fixpoint c_string (s : string) : string :=
  match s with
  | EmptyString => EmptyString
  | String c r => if Ascii.eqb c NUL then EmptyString else String c (c_string r)
  end.

Fixpoint drop_last (s : string) : string :=
  match s with
  | EmptyString => EmptyString
  | String c EmptyString => EmptyString
  | String c r => String c (drop_last r)
  end.

Definition digit_value (c : ascii) : option Z :=
  let n := Z.of_nat (nat_of_ascii c) in
  if (48 <=? n) && (n <=? 57) then Some (n - 48)
  else if (97 <=? n) && (n <=? 102) then Some (n - 87)
  else if (65 <=? n) && (n <=? 70) then Some (n - 55)
  else None.

(** Reads digits of the base as long as there are some; [acc] is [None]
    until the first digit. *)
Fixpoint take_digits (base : Z) (s : string) (acc : option Z)
  : option Z * string :=
  match s with
  | EmptyString => (acc, s)
  | String c r =>
      match digit_value c with
      | Some d =>
          if d <? base
          then take_digits base r
                 (Some (base * match acc with Some a => a | None => 0 end + d))
          else (acc, s)
      | None => (acc, s)
      end
  end.

(** What one [scanf] call with a single conversion reports: one item
    assigned (returns 1), a matching failure (returns 0), or an input
    failure at end of file (returns [EOF]); in the last two cases the
    variable is left as it was. *)
Inductive scanned : Type :=
| Assigned (v : Z)
| MatchFailure
| InputFailure.

Definition decimal (s : string) : Z * string := (10, s).

(** Base of a [%i] item: a [0x] prefix before a hexadecimal digit means
    16, another leading [0] means 8. *)
Definition any_base (s : string) : Z * string :=
  match s with
  | String c0 (String c1 (String c2 r)) =>
      if Ascii.eqb c0 "0"
      then if (Ascii.eqb c1 "x" || Ascii.eqb c1 "X")
              && match digit_value c2 with Some _ => true | None => false end
           then (16, String c2 r)
           else (8, s)
      else (10, s)
  | String c0 _ => if Ascii.eqb c0 "0" then (8, s) else (10, s)
  | EmptyString => (10, s)
  end.

(** An integer conversion: white space is skipped, then an optional
    sign and the digits are read; the value is converted to the type of
    the variable by [conv], which wraps a number too large for it (C
    leaves that case undefined).  A sign that no digit follows is consumed
    and is a matching failure. *)
Definition scan_integer (base_of : string -> Z * string) (conv : Z -> Z)
           (s : string) : scanned * string :=
  match skip_space s with
  | EmptyString => (InputFailure, EmptyString)
  | String c r =>
      let '(neg, s2) :=
        if Ascii.eqb c "-" then (true, r)
        else if Ascii.eqb c "+" then (false, r)
        else (false, String c r) in
      let '(base, s3) := base_of s2 in
      match take_digits base s3 None with
      | (Some v, s4) => (Assigned (conv (if neg then - v else v)), s4)
      | (None, _) => (MatchFailure, s2)
      end
  end.

(** [%c]: the next character, white space included. *)
Definition scan_char (s : string) : scanned * string :=
  match s with
  | EmptyString => (InputFailure, EmptyString)
  | String c r => (Assigned (Z.of_nat (nat_of_ascii c)), r)
  end.

(** At most [n] characters, stopping after a newline. *)
Fixpoint read_line (n : nat) (s : string) : string * string :=
  match n with
  | O => (EmptyString, s)
  | S n' =>
      match s with
      | EmptyString => (EmptyString, EmptyString)
      | String c r =>
          if Ascii.eqb c newline then (String c EmptyString, r)
          else let (l, r') := read_line n' r in (String c l, r')
      end
  end.

Definition scan (f : string -> scanned * string) : M scanned :=
  fun w => let (r, s) := f (stdin w) in Ret r (set_stdin s w).

(** [scanf("%d", &x)] with [int x]. *)
Definition scanf_d : M scanned := scan (scan_integer decimal to_int).
(** [scanf("%u", &x)] with [uint32_t x]. *)
Definition scanf_u : M scanned := scan (scan_integer decimal to_uint32).
(** [scanf("%" SCNi64, &x)] with [uint64_t x]. *)
Definition scanf_i64 : M scanned := scan (scan_integer any_base to_uint64).
(** [scanf("%c", &x)]. *)
Definition scanf_c : M scanned := scan scan_char.

(** [fgets(buf, size, stdin)]: [None] is [NULL]. *)
Definition fgets (size : nat) : M (option string) :=
  fun w =>
    match stdin w with
    | EmptyString => Ret None w
    | s => let (l, r) := read_line (size - 1) s in
           Ret (Some l) (set_stdin r w)
    end.

(** [while (getchar() != '\n');] never ends once the input has. *)
Definition discard_line : M unit :=
  fun w =>
    match drop_line (stdin w) with
    | Some r => Ret tt (set_stdin r w)
    | None => Hang (set_stdin EmptyString w)
    end.

(** [while ((ch = getchar()) != '\n' && ch != EOF);] *)
Definition discard_line_or_eof : M unit :=
  fun w =>
    match drop_line (stdin w) with
    | Some r => Ret tt (set_stdin r w)
    | None => Ret tt (set_stdin EmptyString w)
    end.

End Stdio.
Import Stdio.

(** ** Memory: the [devs] array and pointers into it

    A [struct dev *] is the index of a slot.  Reading or writing through a
    pointer that is outside the array is undefined behaviour. *)

Fixpoint list_update {A : Type} (l : list A) (n : nat) (x : A) : list A :=
  match l, n with
  | [], _ => []
  | _ :: t, O => x :: t
  | h :: t, S n' => h :: list_update t n' x
  end.

Definition slot (p : Z) (w : world) : option dev :=
  if p <? 0 then None else nth_error (devs w) (Z.to_nat p).

(** [p->field] *)
Definition load {A : Type} (p : Z) (field : dev -> A) : M A :=
  fun w =>
    match slot p w with
    | Some d => Ret (field d) w
    | None => Undefined (OutOfBounds p) w
    end.

(** [p->field = ...], as a change [f] of the slot. *)
Definition store (p : Z) (f : dev -> dev) : M unit :=
  fun w =>
    match slot p w with
    | Some d => Ret tt (set_devs (fun l => list_update l (Z.to_nat p) (f d)) w)
    | None => Undefined (OutOfBounds p) w
    end.

Definition set_pci_addr (a : spdk_pci_addr) (d : dev) : dev :=
  {| pci_addr := a; ctrlr := ctrlr d; cdata := cdata d;
     common_ns_data := common_ns_data d;
     outstanding_admin_cmds := outstanding_admin_cmds d |}.

Definition set_ctrlr (c : option spdk_nvme_ctrlr) (d : dev) : dev :=
  {| pci_addr := pci_addr d; ctrlr := c; cdata := cdata d;
     common_ns_data := common_ns_data d;
     outstanding_admin_cmds := outstanding_admin_cmds d |}.

Definition set_cdata (c : option spdk_nvme_ctrlr_data) (d : dev) : dev :=
  {| pci_addr := pci_addr d; ctrlr := ctrlr d; cdata := c;
     common_ns_data := common_ns_data d;
     outstanding_admin_cmds := outstanding_admin_cmds d |}.

Definition set_common_ns_data (n : option spdk_nvme_ns_data) (d : dev) : dev :=
  {| pci_addr := pci_addr d; ctrlr := ctrlr d; cdata := cdata d;
     common_ns_data := n;
     outstanding_admin_cmds := outstanding_admin_cmds d |}.

Definition set_outstanding_admin_cmds (n : Z) (d : dev) : dev :=
  {| pci_addr := pci_addr d; ctrlr := ctrlr d; cdata := cdata d;
     common_ns_data := common_ns_data d;
     outstanding_admin_cmds := n |}.

(** [p->outstanding_admin_cmds++] and [--] on an [int]. *)
Definition incr_outstanding (d : dev) : dev :=
  set_outstanding_admin_cmds (to_int (outstanding_admin_cmds d + 1)) d.
Definition decr_outstanding (d : dev) : dev :=
  set_outstanding_admin_cmds (to_int (outstanding_admin_cmds d - 1)) d.

(** Following a pointer that may be [NULL]. *)
Definition deref {A : Type} (o : option A) : M A :=
  match o with
  | Some a => ret a
  | None => undefined NullPointer
  end.

(** A local variable that [scanf] may have left unset is read. *)
Definition initialized (o : option Z) : M Z :=
  match o with
  | Some v => ret v
  | None => undefined Uninitialized
  end.

(** [for (i = lo; i < lo + count; i++) body(i)] *)
Fixpoint for_loop (lo : Z) (count : nat) (body : Z -> M unit) : M unit :=
  match count with
  | O => ret tt
  | S n => body lo ;; for_loop (lo + 1) n body
  end.

(** [foreach_dev(iter) body(iter)] *)
Definition foreach_dev (body : Z -> M unit) : M unit :=
  n <- gets num_devs ;;
  for_loop 0 (Z.to_nat n) body.

(** ** The allocator and the driver *)

(** [spdk_zmalloc]: [true] when memory is returned, [false] for [NULL]. *)
Definition spdk_zmalloc : M bool :=
  fun w =>
    match zmalloc_script w with
    | [] => Ret true w
    | b :: l => Ret b (set_zmalloc_script l w)
    end.

(** [spdk_nvme_ctrlr_cmd_admin_raw]: the command is handed to the driver,
    which queues it when it returns 0. *)
Definition spdk_nvme_ctrlr_cmd_admin_raw (c : spdk_nvme_ctrlr)
           (cmd : spdk_nvme_cmd) (cb : admin_cb) (cb_arg : Z) : M Z :=
  modify (add_issued (CallAdminRaw (ctrlr_id c) cmd)) ;;
  a <- (fun w =>
          match admin_raw_script w with
          | [] => Ret {| raw_rc := 0; raw_delay := O; raw_sc := 0 |} w
          | a :: l => Ret a (set_admin_raw_script l w)
          end) ;;
  if raw_rc a =? 0
  then
    q <- gets pending ;;
    modify (set_pending
              (q ++ [{| req_ctrlr := c; req_cb := cb; req_arg := cb_arg;
                        req_delay := raw_delay a; req_sc := raw_sc a |}])) ;;
    ret 0
  else ret (raw_rc a).

(** A synchronous driver command: logged, answered from the script. *)
Definition driver_command (call : driver_call) : M Z :=
  modify (add_issued call) ;;
  fun w =>
    match command_script w with
    | [] => Ret 0 w
    | r :: l => Ret r (set_command_script l w)
    end.

Definition spdk_nvme_ctrlr_create_ns (c : spdk_nvme_ctrlr)
           (ndata : spdk_nvme_ns_data) : M Z :=
  driver_command (CallCreateNs (ctrlr_id c) ndata).
Definition spdk_nvme_ctrlr_delete_ns (c : spdk_nvme_ctrlr) (ns_id : Z) : M Z :=
  driver_command (CallDeleteNs (ctrlr_id c) ns_id).
Definition spdk_nvme_ctrlr_attach_ns (c : spdk_nvme_ctrlr) (ns_id : Z)
           (l : list Z) : M Z :=
  driver_command (CallAttachNs (ctrlr_id c) ns_id l).
Definition spdk_nvme_ctrlr_detach_ns (c : spdk_nvme_ctrlr) (ns_id : Z)
           (l : list Z) : M Z :=
  driver_command (CallDetachNs (ctrlr_id c) ns_id l).
Definition spdk_nvme_ctrlr_format (c : spdk_nvme_ctrlr) (ns_id : Z)
           (f : spdk_nvme_format) : M Z :=
  driver_command (CallFormat (ctrlr_id c) ns_id f).
Definition spdk_nvme_ctrlr_update_firmware (c : spdk_nvme_ctrlr)
           (size slot : Z) : M Z :=
  driver_command (CallUpdateFirmware (ctrlr_id c) size slot).
Definition spdk_nvme_detach (c : spdk_nvme_ctrlr) : M unit :=
  modify (add_issued (CallDetach (ctrlr_id c))).

(** Modelled from the spec: [spdk_pci_addr_compare] of the SPDK library,
    which is not part of this file.  Addresses are ordered by domain, then
    bus, then device, then function, each as an unsigned integer; the
    result is negative, zero or positive. *)
Definition spdk_pci_addr_compare (a1 a2 : spdk_pci_addr) : Z :=
  if domain a2 <? domain a1 then 1
  else if domain a1 <? domain a2 then -1
  else if bus a2 <? bus a1 then 1
  else if bus a1 <? bus a2 then -1
  else if pci_dev a2 <? pci_dev a1 then 1
  else if pci_dev a1 <? pci_dev a2 then -1
  else if func a2 <? func a1 then 1
  else if func a1 <? func a2 then -1
  else 0.

(** ** The program *)

Section Program.

(** [spdk_pci_addr_parse] belongs to the SPDK library and is not part of
    this file: [None] stands for a negative return value. *)
Variable spdk_pci_addr_parse : string -> option spdk_pci_addr.

Definition cmp_devs (a b : dev) : Z :=
  spdk_pci_addr_compare (pci_addr a) (pci_addr b).

Definition probe_cb : bool := true.

Definition identify_common_ns_cb (cb_arg : Z) (cpl : spdk_nvme_cpl) : M unit :=
  (if negb (status_sc cpl =? SPDK_NVME_SC_SUCCESS)
   then
     (* Identify Namespace for NSID = FFFFFFFFh is optional, so failure is
        not fatal: the buffer is freed and the pointer cleared. *)
     store cb_arg (set_common_ns_data None)
   else ret tt) ;;
  store cb_arg decr_outstanding.

Definition identify_allocated_ns_cb (cb_arg : Z) (cpl : spdk_nvme_cpl)
  : M unit :=
  store cb_arg decr_outstanding.

(** *** The driver's completion processing *)

(** The 1024-entry [struct spdk_nvme_ns_list] holding [l]. *)
Definition ns_list_of (l : list Z) : list Z :=
  firstn 1024 (l ++ repeat 0 1024).

(** A successful command has filled its data buffer, if the program still
    holds it, when its callback runs. *)
Definition deliver (r : admin_req) : M unit :=
  if req_sc r =? SPDK_NVME_SC_SUCCESS
  then
    match req_cb r with
    | cb_identify_common_ns =>
        store (req_arg r)
          (fun d => set_common_ns_data
                      (option_map (fun _ => identify_common_ns (req_ctrlr r))
                                  (common_ns_data d)) d)
    | cb_identify_allocated_ns =>
        modify (fun w =>
                  set_ns_list
                    (option_map
                       (fun _ => ns_list_of (identify_allocated_ns (req_ctrlr r)))
                       (ns_list w)) w)
    end
  else ret tt.

Definition run_callback (r : admin_req) : M unit :=
  let cpl := {| status_sc := req_sc r |} in
  match req_cb r with
  | cb_identify_common_ns => identify_common_ns_cb (req_arg r) cpl
  | cb_identify_allocated_ns => identify_allocated_ns_cb (req_arg r) cpl
  end.

(** One pass over the queue: the commands of controller [cid] that are due
    complete, the others come one poll closer; the result is what stays
    queued. *)
Fixpoint complete_ready (cid : Z) (q : list admin_req) : M (list admin_req) :=
  match q with
  | [] => ret []
  | r :: q' =>
      if ctrlr_id (req_ctrlr r) =? cid
      then
        match req_delay r with
        | O => deliver r ;; run_callback r ;; complete_ready cid q'
        | S n =>
            rest <- complete_ready cid q' ;;
            ret ({| req_ctrlr := req_ctrlr r; req_cb := req_cb r;
                    req_arg := req_arg r; req_delay := n;
                    req_sc := req_sc r |} :: rest)
        end
      else
        rest <- complete_ready cid q' ;;
        ret (r :: rest)
  end.

Definition spdk_nvme_ctrlr_process_admin_completions (c : spdk_nvme_ctrlr)
  : M unit :=
  q <- gets pending ;;
  rest <- complete_ready (ctrlr_id c) q ;;
  modify (set_pending rest).

(** [while (dev->outstanding_admin_cmds) body;] *)
Fixpoint while_outstanding (fuel : nat) (p : Z) (body : M unit) : M unit :=
  match fuel with
  | O => fun _ => OutOfFuel
  | S f =>
      n <- load p outstanding_admin_cmds ;;
      if n =? 0 then ret tt
      else body ;; while_outstanding f p body
  end.

(** *** Discovery *)

Definition attach_cb (fuel : nat) (probe_info : spdk_nvme_probe_info)
           (c : spdk_nvme_ctrlr) : M unit :=
  (* add to dev list: dev = &devs[num_devs++] *)
  p <- gets num_devs ;;
  modify (set_num_devs (to_int (p + 1))) ;;
  store p (set_pci_addr (probe_pci_addr probe_info)) ;;
  store p (set_ctrlr (Some c)) ;;
  (* Retrieve controller data *)
  c' <- load p ctrlr ;;
  c' <- deref c' ;;
  store p (set_cdata (Some (ctrlr_get_data c'))) ;;
  buf <- spdk_zmalloc ;;
  store p (set_common_ns_data (if buf then Some ns_data_zero else None)) ;;
  if negb buf
  then fprintf Stderr "common_ns_data allocation failure\n" []
  else
    (* Identify Namespace with NSID set to FFFFFFFFh *)
    let cmd := {| opc := SPDK_NVME_OPC_IDENTIFY; cdw10 := 0;
                  nsid := SPDK_NVME_GLOBAL_NS_TAG |} in
    store p incr_outstanding ;;
    rc <- spdk_nvme_ctrlr_cmd_admin_raw c cmd cb_identify_common_ns p ;;
    (if negb (rc =? 0)
     then
       store p decr_outstanding ;;
       store p (set_common_ns_data None)
     else ret tt) ;;
    while_outstanding fuel p (spdk_nvme_ctrlr_process_admin_completions c).

(** Modelled from the spec: [spdk_nvme_probe] of the SPDK library, which
    is not part of this file.  It enumerates the controllers on the bus
    and, for each one the accept predicate accepts, calls the attach
    callback synchronously; its return value is the environment's. *)
Fixpoint probe_devices (fuel : nat)
         (l : list (spdk_nvme_probe_info * spdk_nvme_ctrlr)) : M unit :=
  match l with
  | [] => ret tt
  | (info, c) :: l' =>
      (if probe_cb then attach_cb fuel info c else ret tt) ;;
      probe_devices fuel l'
  end.

Definition spdk_nvme_probe (fuel : nat) : M Z :=
  l <- gets bus_scan ;;
  probe_devices fuel l ;;
  gets spdk_nvme_probe_rc.

(** The C library's [qsort] on the first [num_devs] slots of [devs]; the
    order it gives to elements that compare equal is not specified, here
    they keep their order (an insertion sort). *)
Fixpoint qsort_insert {A : Type} (cmp : A -> A -> Z) (x : A) (l : list A)
  : list A :=
  match l with
  | [] => [x]
  | h :: t => if cmp x h <=? 0 then x :: h :: t else h :: qsort_insert cmp x t
  end.

Definition qsort {A : Type} (cmp : A -> A -> Z) (l : list A) : list A :=
  fold_right (qsort_insert cmp) [] l.

(** [qsort(devs, num_devs, sizeof(devs[0]), cmp_devs)] *)
Definition qsort_devs : M unit :=
  fun w =>
    let n := num_devs w in
    if (n <? 0) || (Z.of_nat (List.length (devs w)) <? n)
    then Undefined (OutOfBounds n) w
    else Ret tt (set_devs
                   (fun l => qsort cmp_devs (firstn (Z.to_nat n) l)
                             ++ skipn (Z.to_nat n) l) w).

(** *** Listing *)

Definition usage : M unit :=
  printf "NVMe Management Options" [] ;;
  printf "\n" [] ;;
  printf "\t[1: list controllers]\n" [] ;;
  printf "\t[2: create namespace]\n" [] ;;
  printf "\t[3: delete namespace]\n" [] ;;
  printf "\t[4: attach namespace to controller]\n" [] ;;
  printf "\t[5: detach namespace from controller]\n" [] ;;
  printf "\t[6: format namespace or controller]\n" [] ;;
  printf "\t[7: firmware update]\n" [] ;;
  printf "\t[8: quit]\n" [].

(** [if (c) m;] *)
Definition when (c : bool) (m : M unit) : M unit :=
  if c then m else ret tt.

(** [nsdata->lbaf[i]]: the table has 16 entries. *)
Definition lbaf_at (nsdata : spdk_nvme_ns_data) (i : Z) : M lbaf_entry :=
  if i <? 0 then undefined (OutOfBounds i)
  else match nth_error (lbaf nsdata) (Z.to_nat i) with
       | Some e => ret e
       | None => undefined (OutOfBounds i)
       end.

Definition display_namespace_dpc (nsdata : spdk_nvme_ns_data) : M unit :=
  if dpc_pit1 nsdata || dpc_pit2 nsdata || dpc_pit3 nsdata
  then
    when (dpc_pit1 nsdata) (printf "PIT1 " []) ;;
    when (dpc_pit2 nsdata) (printf "PIT2 " []) ;;
    when (dpc_pit3 nsdata) (printf "PIT3 " []) ;;
    if dpc_md_start nsdata && dpc_md_end nsdata
    then printf "Location: Head or Tail\n" []
    else if dpc_md_start nsdata then printf "Location: Head\n" []
    else if dpc_md_end nsdata then printf "Location: Tail\n" []
    else printf "Not Supported\n" []
  else printf "Not Supported\n" [].

Definition supported (b : bool) : arg :=
  AStr (if b then "Supported" else "Not Supported").

Definition display_namespace (ns : spdk_nvme_ns) : M unit :=
  let nsdata := ns_get_data ns in
  let ll (v : Z) := to_signed 64 v in
  printf "Namespace ID:%d\n" [AInt (ns_get_id ns)] ;;
  printf "Size (in LBAs):              %lld (%lldM)\n"
    [AInt (ll (nsze nsdata)); AInt (ll (nsze nsdata) ÷ 1024 ÷ 1024)] ;;
  printf "Capacity (in LBAs):          %lld (%lldM)\n"
    [AInt (ll (ncap nsdata)); AInt (ll (ncap nsdata) ÷ 1024 ÷ 1024)] ;;
  printf "Utilization (in LBAs):       %lld (%lldM)\n"
    [AInt (ll (nuse nsdata)); AInt (ll (nuse nsdata) ÷ 1024 ÷ 1024)] ;;
  printf "Format Progress Indicator:   %s\n"
    [supported (fpi_supported nsdata)] ;;
  when (fpi_supported nsdata
        && negb (fpi_percentage_remaining nsdata =? 0))
    (printf "Formatted Percentage:	%d%%\n"
       [AInt (100 - fpi_percentage_remaining nsdata)]) ;;
  printf "Number of LBA Formats:       %d\n" [AInt (nlbaf nsdata + 1)] ;;
  printf "Current LBA Format:          LBA Format #%02d\n"
    [AInt (flbas_format nsdata)] ;;
  for_loop 0 (Z.to_nat (nlbaf nsdata + 1))
    (fun i =>
       e <- lbaf_at nsdata i ;;
       printf "LBA Format #%02d: Data Size: %5d  Metadata Size: %5d\n"
         [AInt i; AInt (Z.shiftl 1 (lbaf_lbads e)); AInt (lbaf_ms e)]) ;;
  printf "Data Protection Capabilities:" [] ;;
  display_namespace_dpc nsdata ;;
  (if SPDK_NVME_FMT_NVM_PROTECTION_DISABLE =? dps_pit nsdata
   then printf "Data Protection Setting:     N/A\n" []
   else printf "Data Protection Setting:     PIT%d Location: %s\n"
          [AInt (dps_pit nsdata);
           AStr (if dps_md_start nsdata =? 0 then "Tail" else "Head")]) ;;
  printf "Multipath IO and Sharing:    %s\n"
    [supported (negb (nmic_can_share nsdata =? 0))] ;;
  printf "\n" [].

Definition display_controller (p : Z) (model : Z) : M unit :=
  c <- load p ctrlr ;;
  c <- deref c ;;
  let cdata := ctrlr_get_data c in
  a <- load p pci_addr ;;
  let bdf := [AInt (domain a); AInt (bus a); AInt (pci_dev a); AInt (func a)] in
  if model =? CONTROLLER_DISPLAY_SIMPLISTIC
  then
    printf "%04x:%02x:%02x.%02x " bdf ;;
    printf "%-40.40s %-20.20s " [AStr (mn cdata); AStr (sn cdata)] ;;
    printf "%5d " [AInt (cntlid cdata)] ;;
    printf "\n" []
  else
    printf "=====================================================\n" [] ;;
    printf "NVMe Controller:	%04x:%02x:%02x.%02x\n" bdf ;;
    printf "============================\n" [] ;;
    printf "Controller Capabilities/Features\n" [] ;;
    printf "Controller ID:		%d\n" [AInt (cntlid cdata)] ;;
    printf "Serial Number:		%s\n" [AStr (sn cdata)] ;;
    printf "\n" [] ;;
    printf "Admin Command Set Attributes\n" [] ;;
    printf "============================\n" [] ;;
    printf "Namespace Manage And Attach:		%s\n"
      [supported (oacs_ns_manage cdata)] ;;
    printf "Namespace Format:			%s\n" [supported (oacs_format cdata)] ;;
    printf "\n" [] ;;
    printf "NVM Command Set Attributes\n" [] ;;
    printf "============================\n" [] ;;
    (if fna_format_all_ns cdata
     then printf "Namespace format operation applies to all namespaces\n" []
     else printf "Namespace format operation applies to per namespace\n" []) ;;
    printf "\n" [] ;;
    printf "Namespace Attributes\n" [] ;;
    printf "============================\n" [] ;;
    for_loop 1 (Z.to_nat (ctrlr_get_num_ns c))
      (fun i =>
         ns <- deref (ctrlr_get_ns c i) ;;
         display_namespace ns).

Definition display_controller_list : M unit :=
  foreach_dev (fun iter => display_controller iter CONTROLLER_DISPLAY_ALL).

(** *** Selecting a controller *)

(** The search loop of [get_controller]: the first slot at or after [iter]
    whose address compares equal, among [count] slots. *)
Fixpoint find_dev (a : spdk_pci_addr) (iter : Z) (count : nat)
  : M (option Z) :=
  match count with
  | O => ret None
  | S n =>
      b <- load iter pci_addr ;;
      if spdk_pci_addr_compare a b =? 0 then ret (Some iter)
      else find_dev a (iter + 1) n
  end.

Definition get_controller : M (option Z) :=
  foreach_dev (fun iter =>
                 display_controller iter CONTROLLER_DISPLAY_SIMPLISTIC) ;;
  printf "Please Input PCI Address(domain:bus:dev.func): \n" [] ;;
  discard_line_or_eof ;;
  p <- fgets 64 ;;
  match p with
  | None => ret None
  | Some address =>
      let p := skip_space (c_string address) in
      match spdk_pci_addr_parse p with
      | None => ret None
      | Some a =>
          n <- gets num_devs ;;
          find_dev a 0 (Z.to_nat n)
      end
  end.

(** [if (!scanf(...))]: true exactly on a matching failure, for [EOF] is
    not zero. *)
Definition scanf_failed (r : scanned) : bool :=
  match r with
  | MatchFailure => true
  | _ => false
  end.

(** The variable after the call; [None] is a local that was never set. *)
Definition after_scanf (before : option Z) (r : scanned) : option Z :=
  match r with
  | Assigned v => Some v
  | _ => before
  end.

Definition get_lba_format (ns_data : spdk_nvme_ns_data) : M Z :=
  printf "\nSupported LBA formats:\n" [] ;;
  for_loop 0 (Z.to_nat (nlbaf ns_data + 1))
    (fun i =>
       e <- lbaf_at ns_data i ;;
       printf "%2d: %d data bytes" [AInt i; AInt (Z.shiftl 1 (lbaf_lbads e))] ;;
       when (negb (lbaf_ms e =? 0))
         (printf " + %d metadata bytes" [AInt (lbaf_ms e)]) ;;
       printf "\n" []) ;;
  printf "Please input LBA format index (0 - %d):\n" [AInt (nlbaf ns_data)] ;;
  r <- scanf_d ;;
  match r with
  | Assigned lbaf => if nlbaf ns_data <? lbaf then ret (-1) else ret lbaf
  | _ => ret (-1)
  end.

(** *** Namespace operations *)

Fixpoint print_ns_list (l : list Z) : M unit :=
  match l with
  | [] => ret tt
  | x :: l' =>
      if x =? 0 then ret tt
      else printf "%u\n" [AInt x] ;; print_ns_list l'
  end.

Definition get_allocated_nsid (fuel : nat) (p : Z) : M Z :=
  buf <- spdk_zmalloc ;;
  if negb buf
  then printf "Allocation error\n" [] ;; ret 0
  else
    modify (set_ns_list (Some (ns_list_of []))) ;;
    let cmd := {| opc := SPDK_NVME_OPC_IDENTIFY;
                  cdw10 := SPDK_NVME_IDENTIFY_ALLOCATED_NS_LIST;
                  nsid := 0 |} in
    store p incr_outstanding ;;
    c <- load p ctrlr ;;
    c <- deref c ;;
    rc <- spdk_nvme_ctrlr_cmd_admin_raw c cmd cb_identify_allocated_ns p ;;
    if negb (rc =? 0)
    then
      printf "Identify command failed\n" [] ;;
      modify (set_ns_list None) ;;
      ret 0
    else
      while_outstanding fuel p
        (c <- load p ctrlr ;;
         c <- deref c ;;
         spdk_nvme_ctrlr_process_admin_completions c) ;;
      printf "Allocated Namespace IDs:\n" [] ;;
      l <- gets ns_list ;;
      l <- deref l ;;
      print_ns_list l ;;
      modify (set_ns_list None) ;;
      printf "Please Input Namespace ID: \n" [] ;;
      r <- scanf_u ;;
      if scanf_failed r
      then printf "Invalid Namespace ID\n" [] ;; ret 0
      else initialized (after_scanf None r).

Definition ns_attach (device : Z) (attachment_op ctrlr_id ns_id : Z)
  : M unit :=
  buf <- spdk_zmalloc ;;
  if negb buf
  then printf "Allocation error (controller list)\n" [] ;; exit 1
  else
    (* ctrlr_count = 1; ctrlr_list[0] = ctrlr_id, a 16-bit entry *)
    let ctrlr_list := [to_unsigned 16 ctrlr_id] in
    ret_ <-
      (if attachment_op =? SPDK_NVME_NS_CTRLR_ATTACH
       then
         c <- load device ctrlr ;;
         c <- deref c ;;
         spdk_nvme_ctrlr_attach_ns c (to_uint32 ns_id) ctrlr_list
       else if attachment_op =? SPDK_NVME_NS_CTRLR_DETACH
       then
         c <- load device ctrlr ;;
         c <- deref c ;;
         spdk_nvme_ctrlr_detach_ns c (to_uint32 ns_id) ctrlr_list
       else ret 0) ;;
    when (negb (ret_ =? 0)) (fprintf Stdout "ns attach: Failed\n" []).

(** The parameters [ns_dps_type], [ns_dps_location] and [ns_nmic] are
    [uint8_t]; [flbas.format], [dps.pit], [dps.md_start] and
    [nmic.can_share] are bit-fields of 4, 3, 1 and 1 bits. *)
Definition ns_manage_add (device : Z) (ns_size ns_capacity ns_lbasize
                          ns_dps_type ns_dps_location ns_nmic : Z) : M unit :=
  let ns_dps_type := to_uint8 ns_dps_type in
  let ns_dps_location := to_uint8 ns_dps_location in
  let ns_nmic := to_uint8 ns_nmic in
  buf <- spdk_zmalloc ;;
  if negb buf
  then printf "Allocation error (namespace data)\n" [] ;; exit 1
  else
    let protect :=
      negb (SPDK_NVME_FMT_NVM_PROTECTION_DISABLE =? ns_dps_type) in
    let ndata := {|
      nsze := ns_size; ncap := ns_capacity; nuse := 0; nlbaf := 0;
      flbas_format := bitfield 4 ns_lbasize;
      fpi_supported := false; fpi_percentage_remaining := 0;
      lbaf := lbaf ns_data_zero;
      dpc_pit1 := false; dpc_pit2 := false; dpc_pit3 := false;
      dpc_md_start := false; dpc_md_end := false;
      dps_pit := if protect then bitfield 3 ns_dps_type else 0;
      dps_md_start := if protect then bitfield 1 ns_dps_location else 0;
      nmic_can_share := bitfield 1 ns_nmic |} in
    c <- load device ctrlr ;;
    c <- deref c ;;
    nsid <- spdk_nvme_ctrlr_create_ns c ndata ;;
    if nsid =? 0
    then fprintf Stdout "ns manage: Failed\n" []
    else printf "Created namespace ID %u\n" [AInt nsid].

Definition ns_manage_delete (device : Z) (ns_id : Z) : M unit :=
  c <- load device ctrlr ;;
  c <- deref c ;;
  ret_ <- spdk_nvme_ctrlr_delete_ns c (to_uint32 ns_id) ;;
  when (negb (ret_ =? 0)) (fprintf Stdout "ns manage: Failed\n" []).

(** [lbaf], [ms], [pi], [pil] and [ses] of [struct spdk_nvme_format] are
    bit-fields of 4, 1, 3, 1 and 3 bits. *)
Definition nvme_manage_format (device : Z) (ns_id ses pi pil ms lbaf : Z)
  : M unit :=
  let format := {| fmt_lbaf := bitfield 4 lbaf; fmt_ms := bitfield 1 ms;
                   fmt_pi := bitfield 3 pi; fmt_pil := bitfield 1 pil;
                   fmt_ses := bitfield 3 ses |} in
  c <- load device ctrlr ;;
  c <- deref c ;;
  ret_ <- spdk_nvme_ctrlr_format c (to_uint32 ns_id) format ;;
  when (negb (ret_ =? 0)) (fprintf Stdout "nvme format: Failed\n" []).

Definition attach_and_detach_ns (fuel : nat) (attachment_op : Z) : M unit :=
  ctrlr_ <- get_controller ;;
  match ctrlr_ with
  | None => printf "Invalid controller PCI Address.\n" []
  | Some p =>
      cd <- load p cdata ;;
      cd <- deref cd ;;
      if negb (oacs_ns_manage cd)
      then printf "Controller does not support ns management\n" []
      else
        nsid <- get_allocated_nsid fuel p ;;
        if nsid =? 0
        then printf "Invalid Namespace ID\n" []
        else
          cd <- load p cdata ;;
          cd <- deref cd ;;
          ns_attach p attachment_op (cntlid cd) (to_int nsid)
  end.

Definition add_ns : M unit :=
  ctrlr_ <- get_controller ;;
  match ctrlr_ with
  | None => printf "Invalid controller PCI Address.\n" []
  | Some p =>
      cd <- load p cdata ;;
      cd <- deref cd ;;
      if negb (oacs_ns_manage cd)
      then printf "Controller does not support ns management\n" []
      else
        common <- load p common_ns_data ;;
        match common with
        | None =>
            printf "Controller did not return common namespace capabilities\n" []
        | Some ns_data =>
            ns_lbasize <- get_lba_format ns_data ;;
            if ns_lbasize <? 0
            then printf "Invalid LBA format number\n" []
            else
              printf "Please Input Namespace Size (in LBAs): \n" [] ;;
              r <- scanf_i64 ;;
              if scanf_failed r
              then printf "Invalid Namespace Size\n" [] ;; discard_line
              else
              ns_size <- initialized (after_scanf (Some 0) r) ;;
              printf "Please Input Namespace Capacity (in LBAs): \n" [] ;;
              r <- scanf_i64 ;;
              if scanf_failed r
              then printf "Invalid Namespace Capacity\n" [] ;; discard_line
              else
              ns_capacity <- initialized (after_scanf (Some 0) r) ;;
              printf "Please Input Data Protection Type (0 - 3): \n" [] ;;
              r <- scanf_d ;;
              if scanf_failed r
              then printf "Invalid Data Protection Type\n" [] ;; discard_line
              else
              ns_dps_type <- initialized (after_scanf (Some 0) r) ;;
              loc <-
                (if negb (SPDK_NVME_FMT_NVM_PROTECTION_DISABLE =? ns_dps_type)
                 then
                   printf "Please Input Data Protection Location (1: Head; 0: Tail): \n" [] ;;
                   r <- scanf_d ;;
                   if scanf_failed r
                   then
                     printf "Invalid Data Protection Location\n" [] ;;
                     discard_line ;;
                     ret None
                   else
                     v <- initialized (after_scanf (Some 0) r) ;;
                     ret (Some v)
                 else ret (Some 0)) ;;
              match loc with
              | None => ret tt
              | Some ns_dps_location =>
                  printf "Please Input Multi-path IO and Sharing Capabilities (1: Share; 0: Private): \n" [] ;;
                  r <- scanf_d ;;
                  if scanf_failed r
                  then
                    printf "Invalid Multi-path IO and Sharing Capabilities\n" [] ;;
                    discard_line
                  else
                    ns_nmic <- initialized (after_scanf (Some 0) r) ;;
                    ns_manage_add p ns_size ns_capacity ns_lbasize
                      ns_dps_type ns_dps_location ns_nmic
              end
        end
  end.

Definition delete_ns : M unit :=
  ctrlr_ <- get_controller ;;
  match ctrlr_ with
  | None => printf "Invalid controller PCI Address.\n" []
  | Some p =>
      cd <- load p cdata ;;
      cd <- deref cd ;;
      if negb (oacs_ns_manage cd)
      then printf "Controller does not support ns management\n" []
      else
        printf "Please Input Namespace ID: \n" [] ;;
        r <- scanf_d ;;
        if scanf_failed r
        then printf "Invalid Namespace ID\n" [] ;; discard_line
        else
          ns_id <- initialized (after_scanf None r) ;;
          ns_manage_delete p ns_id
  end.

(** *** Format *)

(** What [format_nvm] has settled when it reaches the protection
    settings: the controller, the namespace id and its data, the secure
    erase setting (a local that [scanf] may have left unset) and the LBA
    format. *)
Record format_choice : Type := {
  fc_dev : Z;
  fc_ns_id : Z;
  fc_nsdata : spdk_nvme_ns_data;
  fc_ses : option Z;
  fc_lbaf : Z
}.

(** [format_nvm] up to the LBA format (the controller, the namespace, the
    secure erase setting, the LBA format); [None] when the operation has
    returned. *)
Definition format_nvm_choose : M (option format_choice) :=
  ctrlr_ <- get_controller ;;
  match ctrlr_ with
  | None => printf "Invalid controller PCI BDF.\n" [] ;; ret None
  | Some p =>
      cd <- load p cdata ;;
      cdata <- deref cd ;;
      if negb (oacs_format cdata)
      then printf "Controller does not support Format NVM command\n" [] ;;
           ret None
      else
        sel <-
          (if fna_format_all_ns cdata
           then
             c <- load p ctrlr ;;
             c <- deref c ;;
             ret (Some (to_int SPDK_NVME_GLOBAL_NS_TAG, ctrlr_get_ns c 1))
           else
             printf "Please Input Namespace ID (1 - %d): \n" [AInt (nn cdata)] ;;
             r <- scanf_d ;;
             if scanf_failed r
             then printf "Invalid Namespace ID\n" [] ;; discard_line ;; ret None
             else
               ns_id <- initialized (after_scanf None r) ;;
               c <- load p ctrlr ;;
               c <- deref c ;;
               ret (Some (ns_id, ctrlr_get_ns c (to_uint32 ns_id)))) ;;
        match sel with
        | None => ret None
        | Some (ns_id, None) =>
            printf "Namespace ID %d not found\n" [AInt ns_id] ;;
            discard_line ;;
            ret None
        | Some (ns_id, Some ns) =>
            let nsdata := ns_get_data ns in
            printf "Please Input Secure Erase Setting: \n" [] ;;
            printf "	0: No secure erase operation requested\n" [] ;;
            printf "	1: User data erase\n" [] ;;
            when (fna_crypto_erase_supported cdata)
              (printf "	2: Cryptographic erase\n" []) ;;
            r <- scanf_d ;;
            if scanf_failed r
            then printf "Invalid Secure Erase Setting\n" [] ;;
                 discard_line ;; ret None
            else
              let ses := after_scanf None r in
              lbaf <- get_lba_format nsdata ;;
              if lbaf <? 0
              then printf "Invalid LBA format number\n" [] ;; ret None
              else ret (Some {| fc_dev := p; fc_ns_id := ns_id;
                                fc_nsdata := nsdata; fc_ses := ses;
                                fc_lbaf := lbaf |})
        end
  end.

(** [format_nvm], the [if (nsdata->lbaf[lbaf].ms) ... else ...] statement:
    the values of [pi], [pil] and [ms] after it, [None] when the operation
    has returned. *)
Definition format_nvm_protection (nsdata : spdk_nvme_ns_data) (lbaf : Z)
  : M (option (option Z * option Z * option Z)) :=
  e <- lbaf_at nsdata lbaf ;;
  if negb (lbaf_ms e =? 0)
  then
    printf "Please Input Protection Information: \n" [] ;;
    printf "	0: Protection information is not enabled\n" [] ;;
    printf "	1: Protection information is enabled, Type 1\n" [] ;;
    printf "	2: Protection information is enabled, Type 2\n" [] ;;
    printf "	3: Protection information is enabled, Type 3\n" [] ;;
    r <- scanf_d ;;
    if scanf_failed r
    then printf "Invalid protection information\n" [] ;;
         discard_line ;; ret None
    else
      let pi := after_scanf None r in
      pi_ <- initialized pi ;;
      pil <-
        (if negb (pi_ =? 0)
         then
           printf "Please Input Protection Information Location: \n" [] ;;
           printf "	0: Protection information transferred as the last eight bytes of metadata\n" [] ;;
           printf "	1: Protection information transferred as the first eight bytes of metadata\n" [] ;;
           r <- scanf_d ;;
           if scanf_failed r
           then printf "Invalid protection information location\n" [] ;;
                discard_line ;; ret None
           else ret (Some (after_scanf None r))
         else ret (Some (Some 0))) ;;
      match pil with
      | None => ret None
      | Some pil =>
          printf "Please Input Metadata Setting: \n" [] ;;
          printf "	0: Metadata is transferred as part of a separate buffer\n" [] ;;
          printf "	1: Metadata is transferred as part of an extended data LBA\n" [] ;;
          r <- scanf_d ;;
          if scanf_failed r
          then printf "Invalid metadata setting\n" [] ;;
               discard_line ;; ret None
          else ret (Some (pi, pil, after_scanf None r))
      end
  else
    (* ms = 0; pi = 0; pil = 0; *)
    ret (Some (Some 0, Some 0, Some 0)).

(** [format_nvm] from the warning on. *)
Definition format_nvm_confirm (device ns_id : Z) (ses pi pil ms : option Z)
           (lbaf : Z) : M unit :=
  printf "Warning: use this utility at your own risk.\nThis command will format your namespace and all data will be lost.\nThis command may take several minutes to complete,\nso do not interrupt the utility until it completes.\nPress 'Y' to continue with the format operation.\n" [] ;;
  discard_line ;;
  r <- scanf_c ;;
  if scanf_failed r
  then printf "Invalid option\n" [] ;; discard_line
  else
    option_ <- initialized (after_scanf None r) ;;
    if (option_ =? 121) || (option_ =? 89)
    then
      ses <- initialized ses ;;
      pi <- initialized pi ;;
      pil <- initialized pil ;;
      ms <- initialized ms ;;
      nvme_manage_format device ns_id ses pi pil ms lbaf
    else printf "NVMe format abort\n" [].

Definition format_nvm : M unit :=
  choice <- format_nvm_choose ;;
  match choice with
  | None => ret tt
  | Some ch =>
      prot <- format_nvm_protection (fc_nsdata ch) (fc_lbaf ch) ;;
      match prot with
      | None => ret tt
      | Some (pi, pil, ms) =>
          format_nvm_confirm (fc_dev ch) (fc_ns_id ch) (fc_ses ch)
            pi pil ms (fc_lbaf ch)
      end
  end.

(** *** Firmware update *)

(** [update_firmware_image] up to [fstat]: the controller and the opened
    image; [None] when the operation has returned. *)
Definition update_firmware_image_open : M (option (Z * file)) :=
  ctrlr_ <- get_controller ;;
  match ctrlr_ with
  | None => printf "Invalid controller PCI BDF.\n" [] ;; ret None
  | Some p =>
      cd <- load p cdata ;;
      cdata <- deref cd ;;
      if negb (oacs_firmware cdata)
      then printf "Controller does not support firmware download and commit command\n" [] ;;
           ret None
      else
        printf "Please Input The Path Of Firmware Image\n" [] ;;
        l <- fgets 256 ;;
        match l with
        | None => printf "Invalid path setting\n" [] ;; discard_line ;; ret None
        | Some path =>
            let path := c_string path in
            (* path[strlen(path) - 1] = '\0' *)
            if Nat.eqb (String.length path) 0
            then undefined (OutOfBounds (-1))
            else
              let path := drop_last path in
              fd <- gets (fun w => fs w path) ;;
              match fd with
              | None => perror "Open file failed" ;; ret None
              | Some f =>
                  if fstat_rc f <? 0
                  then printf "Fstat failed\n" [] ;; ret None
                  else ret (Some (p, f))
              end
        end
  end.

Definition update_firmware_image : M unit :=
  opened <- update_firmware_image_open ;;
  match opened with
  | None => ret tt
  | Some (p, f) =>
      if negb (Z.rem (st_size f) 4 =? 0)
      then printf "Firmware image size is not multiple of 4\n" []
      else
        let size := to_uint32 (st_size f) in
        buf <- spdk_zmalloc ;;
        if negb buf
        then printf "Allocation error\n" []
        else
          if negb (read_rc f size =? size)
          then printf "Read firmware image failed\n" []
          else
            printf "Please Input Slot(0 - 7): \n" [] ;;
            r <- scanf_d ;;
            if scanf_failed r
            then printf "Invalid Slot\n" [] ;; discard_line
            else
              slot <- initialized (after_scanf None r) ;;
              c <- load p ctrlr ;;
              c <- deref c ;;
              rc <- spdk_nvme_ctrlr_update_firmware c size slot ;;
              if negb (rc =? 0)
              then printf "spdk_nvme_ctrlr_update_firmware failed\n" []
              else printf "spdk_nvme_ctrlr_update_firmware success\n" []
  end.

(** *** The menu *)

(** The [switch] of [main]: the value of [exit_flag] after it. *)
Definition dispatch (fuel : nat) (cmd : Z) : M bool :=
  if cmd =? 1 then display_controller_list ;; ret false
  else if cmd =? 2 then add_ns ;; ret false
  else if cmd =? 3 then delete_ns ;; ret false
  else if cmd =? 4
  then attach_and_detach_ns fuel SPDK_NVME_NS_CTRLR_ATTACH ;; ret false
  else if cmd =? 5
  then attach_and_detach_ns fuel SPDK_NVME_NS_CTRLR_DETACH ;; ret false
  else if cmd =? 6 then format_nvm ;; ret false
  else if cmd =? 7 then update_firmware_image ;; ret false
  else if cmd =? 8 then ret true
  else printf "Invalid Command\n" [] ;; ret false.

(** The [while (1)] of [main]: [Some v] when [main] returns [v] from
    inside the loop, [None] when the loop is left by [break]. *)
Fixpoint command_loop (fuel : nat) (iterations : nat) : M (option Z) :=
  match iterations with
  | O => fun _ => OutOfFuel
  | S n =>
      r <- scanf_d ;;
      if scanf_failed r
      then printf "Invalid Command\n" [] ;; discard_line ;; ret (Some 0)
      else
        cmd <- initialized (after_scanf None r) ;;
        exit_flag <- dispatch fuel cmd ;;
        if exit_flag then ret None
        else
          discard_line ;;
          printf "press Enter to display cmd menu ...\n" [] ;;
          discard_line ;;
          usage ;;
          command_loop fuel n
  end.

(** [rte_eal_init] of DPDK: its return value is the environment's. *)
Definition rte_eal_init : M Z := gets rte_eal_init_rc.

(** [main]: the value is the process's exit status when [main] returns;
    [fuel] bounds every poll loop and the number of menu commands. *)
Definition main (fuel : nat) : M Z :=
  rc <- rte_eal_init ;;
  if rc <? 0
  then fprintf Stderr "could not initialize dpdk\n" [] ;; exit 1
  else
    prc <- spdk_nvme_probe fuel ;;
    if negb (prc =? 0)
    then fprintf Stderr "spdk_nvme_probe() failed\n" [] ;; ret 1
    else
      qsort_devs ;;
      usage ;;
      left <- command_loop fuel fuel ;;
      match left with
      | Some v => ret v
      | None =>
          printf "Cleaning up...\n" [] ;;
          foreach_dev (fun i =>
                         c <- load i ctrlr ;;
                         c <- deref c ;;
                         spdk_nvme_detach c) ;;
          ret rc
      end.

End Program.

(** The static storage of the program before [main] runs, in a given
    environment. *)
Definition initial_world (input : string) (zmalloc_answers : list bool)
           (raw_answers : list raw_answer) (command_answers : list Z)
           (files : string -> option file)
           (controllers : list (spdk_nvme_probe_info * spdk_nvme_ctrlr))
           (eal_rc probe_rc : Z) : world :=
  {| devs := repeat dev_zero (Z.to_nat MAX_DEVS); num_devs := 0;
     ns_list := None; stdin := input; output := [];
     zmalloc_script := zmalloc_answers;
     admin_raw_script := raw_answers;
     command_script := command_answers;
     pending := []; issued := []; fs := files;
     bus_scan := controllers;
     rte_eal_init_rc := eal_rc; spdk_nvme_probe_rc := probe_rc |}.

(** * Reasoning about programs *)

(** The world an outcome ends in, when there is one. *)
Definition world_of {A : Type} (o : outcome A) : option world :=
  match o with
  | Ret _ w | Exit _ w | Undefined _ w | Hang w => Some w
  | OutOfFuel => None
  end.

Lemma bind_ret_inv {A B : Type} (m : M A) (k : A -> M B) (w : world)
      (a : A) (w1 : world) :
  m w = Ret a w1 -> bind m k w = k a w1.
Proof. intros H. unfold bind. rewrite H. reflexivity. Qed.

Lemma bind_ret {A B : Type} (a : A) (k : A -> M B) (w : world) :
  bind (ret a) k w = k a w.
Proof. reflexivity. Qed.

Lemma bind_assoc {A B C : Type} (m : M A) (k : A -> M B) (h : B -> M C)
      (w : world) :
  bind (bind m k) h w = bind m (fun a => bind (k a) h) w.
Proof. unfold bind. destruct (m w); reflexivity. Qed.

Lemma bind_gets {A B : Type} (f : world -> A) (k : A -> M B) (w : world) :
  bind (gets f) k w = k (f w) w.
Proof. reflexivity. Qed.

Lemma bind_modify {B : Type} (f : world -> world) (k : unit -> M B)
      (w : world) :
  bind (modify f) k w = k tt (f w).
Proof. reflexivity. Qed.

Lemma bind_fprintf {B : Type} (s : stream) (fmt : string) (args : list arg)
      (k : unit -> M B) (w : world) :
  bind (fprintf s fmt args) k w = k tt (add_output (Print s fmt args) w).
Proof. reflexivity. Qed.

Lemma bind_printf {B : Type} (fmt : string) (args : list arg)
      (k : unit -> M B) (w : world) :
  bind (printf fmt args) k w = k tt (add_output (Print Stdout fmt args) w).
Proof. reflexivity. Qed.

Lemma bind_world_inv {A B : Type} (m : M A) (k : A -> M B) (w w' : world) :
  world_of (bind m k w) = Some w' ->
  (exists a w1, m w = Ret a w1 /\ world_of (k a w1) = Some w')
  \/ (world_of (m w) = Some w' /\ forall a w1, m w <> Ret a w1).
Proof.
  unfold bind. destruct (m w) as [a w1|c w1|f w1|w1|] eqn:E; simpl; intros H.
  - left. eauto.
  - right. split; [exact H | discriminate].
  - right. split; [exact H | discriminate].
  - right. split; [exact H | discriminate].
  - discriminate.
Qed.

(** ** What a piece of the program hands to the driver

    [issues P m]: whatever way [m] ends, the driver calls it has made are
    appended to the log and all satisfy [P]. *)

Definition issues {A : Type} (P : driver_call -> Prop) (m : M A) : Prop :=
  forall w w', world_of (m w) = Some w' ->
               exists l, issued w' = issued w ++ l /\ Forall P l.

(** [m] makes no driver call at all. *)
Definition silent {A : Type} (m : M A) : Prop := issues (fun _ => False) m.

Lemma silent_issued {A : Type} (m : M A) (w w' : world) :
  silent m -> world_of (m w) = Some w' -> issued w' = issued w.
Proof.
  intros S H. destruct (S w w' H) as [l [E F]].
  destruct l as [|x l].
  - rewrite app_nil_r in E. exact E.
  - inversion F; contradiction.
Qed.

Lemma issues_weaken {A : Type} (P Q : driver_call -> Prop) (m : M A) :
  (forall c, P c -> Q c) -> issues P m -> issues Q m.
Proof.
  intros PQ H w w' E. destruct (H w w' E) as [l [E1 F]].
  exists l. split; [exact E1|].
  eapply Forall_impl; [|exact F]. exact PQ.
Qed.

Lemma silent_issues {A : Type} (P : driver_call -> Prop) (m : M A) :
  silent m -> issues P m.
Proof. apply issues_weaken. contradiction. Qed.

Lemma issues_same {A : Type} (P : driver_call -> Prop) (m : M A) :
  (forall w w', world_of (m w) = Some w' -> issued w' = issued w) ->
  issues P m.
Proof.
  intros H w w' E. exists []. rewrite app_nil_r. split; [auto | constructor].
Qed.

Lemma issues_ret {A : Type} (P : driver_call -> Prop) (a : A) :
  issues P (ret a).
Proof. apply issues_same. intros w w' E. inversion E. reflexivity. Qed.

Lemma issues_bind {A B : Type} (P : driver_call -> Prop)
      (m : M A) (k : A -> M B) :
  issues P m -> (forall a, issues P (k a)) -> issues P (bind m k).
Proof.
  intros Hm Hk w w' E.
  destruct (bind_world_inv m k w w' E) as [[a [w1 [E1 E2]]]|[E1 _]].
  - destruct (Hm w w1) as [l1 [I1 F1]]; [rewrite E1; reflexivity|].
    destruct (Hk a w1 w' E2) as [l2 [I2 F2]].
    exists (l1 ++ l2). split.
    + rewrite I2, I1, app_assoc. reflexivity.
    + apply Forall_app. split; assumption.
  - exact (Hm w w' E1).
Qed.

Lemma issues_bind_ret {A B : Type} (P : driver_call -> Prop)
      (a : A) (k : A -> M B) :
  issues P (k a) -> issues P (bind (ret a) k).
Proof. intros H w w' E. exact (H w w' E). Qed.

Lemma issues_modify (P : driver_call -> Prop) (f : world -> world) :
  (forall w, issued (f w) = issued w) -> issues P (modify f).
Proof.
  intros H. apply issues_same. intros w w' E. inversion E. apply H.
Qed.

Lemma issues_gets {A : Type} (P : driver_call -> Prop) (f : world -> A) :
  issues P (gets f).
Proof. apply issues_same. intros w w' E. inversion E. reflexivity. Qed.

Lemma issues_exit {A : Type} (P : driver_call -> Prop) (c : Z) :
  issues P (@exit A c).
Proof. apply issues_same. intros w w' E. inversion E. reflexivity. Qed.

Lemma issues_undefined {A : Type} (P : driver_call -> Prop) (f : fault) :
  issues P (@undefined A f).
Proof. apply issues_same. intros w w' E. inversion E. reflexivity. Qed.

Lemma issues_fprintf (P : driver_call -> Prop) (s : stream) (fmt : string)
      (args : list arg) :
  issues P (fprintf s fmt args).
Proof. apply issues_modify. reflexivity. Qed.

Lemma issues_printf (P : driver_call -> Prop) (fmt : string)
      (args : list arg) :
  issues P (printf fmt args).
Proof. apply issues_fprintf. Qed.

Lemma issues_perror (P : driver_call -> Prop) (msg : string) :
  issues P (perror msg).
Proof. apply issues_fprintf. Qed.

Lemma issues_load {A : Type} (P : driver_call -> Prop) (p : Z)
      (field : dev -> A) :
  issues P (load p field).
Proof.
  apply issues_same. intros w w'. unfold load.
  destruct (slot p w); simpl; intros E; inversion E; reflexivity.
Qed.

Lemma issues_store (P : driver_call -> Prop) (p : Z) (f : dev -> dev) :
  issues P (store p f).
Proof.
  apply issues_same. intros w w'. unfold store.
  destruct (slot p w); simpl; intros E; inversion E; reflexivity.
Qed.

Lemma issues_deref {A : Type} (P : driver_call -> Prop) (o : option A) :
  issues P (deref o).
Proof. destruct o; [apply issues_ret | apply issues_undefined]. Qed.

Lemma issues_initialized (P : driver_call -> Prop) (o : option Z) :
  issues P (initialized o).
Proof. destruct o; [apply issues_ret | apply issues_undefined]. Qed.

Lemma issues_scan (P : driver_call -> Prop)
      (f : string -> scanned * string) :
  issues P (scan f).
Proof.
  apply issues_same. intros w w'. unfold scan.
  destruct (f (stdin w)); simpl; intros E; inversion E; reflexivity.
Qed.

Lemma issues_fgets (P : driver_call -> Prop) (n : nat) :
  issues P (fgets n).
Proof.
  apply issues_same. intros w w'. unfold fgets.
  destruct (stdin w); [|destruct (read_line _ _)];
    simpl; intros E; inversion E; reflexivity.
Qed.

Lemma issues_discard_line (P : driver_call -> Prop) :
  issues P discard_line.
Proof.
  apply issues_same. intros w w'. unfold discard_line.
  destruct (drop_line _); simpl; intros E; inversion E; reflexivity.
Qed.

Lemma issues_discard_line_or_eof (P : driver_call -> Prop) :
  issues P discard_line_or_eof.
Proof.
  apply issues_same. intros w w'. unfold discard_line_or_eof.
  destruct (drop_line _); simpl; intros E; inversion E; reflexivity.
Qed.

Lemma issues_spdk_zmalloc (P : driver_call -> Prop) :
  issues P spdk_zmalloc.
Proof.
  apply issues_same. intros w w'. unfold spdk_zmalloc.
  destruct (zmalloc_script w); simpl; intros E; inversion E; reflexivity.
Qed.

Lemma issues_for_loop (P : driver_call -> Prop) (body : Z -> M unit)
      (count : nat) :
  (forall i, issues P (body i)) -> forall lo, issues P (for_loop lo count body).
Proof.
  intros Hb. induction count as [|n IH]; intros lo; simpl.
  - apply issues_ret.
  - apply issues_bind; [apply Hb | intros _; apply IH].
Qed.

Lemma issues_foreach_dev (P : driver_call -> Prop) (body : Z -> M unit) :
  (forall i, issues P (body i)) -> issues P (foreach_dev body).
Proof.
  intros Hb. unfold foreach_dev.
  apply issues_bind; [apply issues_gets | intros n].
  apply issues_for_loop. exact Hb.
Qed.

(** Takes a program apart along its binds and branches and closes the
    leaves with the lemmas on the primitives. *)
Ltac issues_prim :=
  first
    [ apply issues_ret | apply issues_printf | apply issues_fprintf
    | apply issues_perror | apply issues_load | apply issues_store
    | apply issues_deref | apply issues_initialized | apply issues_scan
    | apply issues_fgets | apply issues_discard_line
    | apply issues_discard_line_or_eof | apply issues_spdk_zmalloc
    | apply issues_gets | apply issues_exit | apply issues_undefined
    | (apply issues_modify; reflexivity) ].

Ltac issues_walk solve_leaf :=
  repeat
    match goal with
    | |- silent _ => unfold silent
    | |- issues _ (bind (ret _) _) => apply issues_bind_ret
    | |- issues _ (bind (initialized (Some _)) _) => apply issues_bind_ret
    | |- issues _ (bind _ _) => apply issues_bind; [ | intro ]
    | |- issues _ (if ?b then _ else _) => destruct b
    | |- issues _ (match ?x with _ => _ end) => destruct x
    | |- issues _ (for_loop _ _ _) => apply issues_for_loop; intro
    | |- issues _ (foreach_dev _) => apply issues_foreach_dev; intro
    | |- issues _ (when _ _) => unfold when
    | |- issues _ _ => first [ issues_prim | solve_leaf ]
    | |- issues _ _ => progress cbv zeta
    end.

Section ProgramCalls.

Variable parse : string -> option spdk_pci_addr.

Lemma silent_usage : silent usage.
Proof. unfold silent, usage. issues_walk fail. Qed.

Lemma silent_lbaf_at (nsdata : spdk_nvme_ns_data) (i : Z) :
  silent (lbaf_at nsdata i).
Proof. unfold silent, lbaf_at. issues_walk fail. Qed.

Lemma silent_display_namespace_dpc (nsdata : spdk_nvme_ns_data) :
  silent (display_namespace_dpc nsdata).
Proof. unfold silent, display_namespace_dpc. issues_walk fail. Qed.

Lemma silent_display_namespace (ns : spdk_nvme_ns) :
  silent (display_namespace ns).
Proof.
  unfold silent, display_namespace.
  issues_walk ltac:(first [apply silent_lbaf_at
                          | apply silent_display_namespace_dpc]).
Qed.

Lemma silent_display_controller (p model : Z) :
  silent (display_controller p model).
Proof.
  unfold silent, display_controller.
  issues_walk ltac:(apply silent_display_namespace).
Qed.

Lemma silent_display_controller_list : silent display_controller_list.
Proof.
  unfold silent, display_controller_list.
  issues_walk ltac:(apply silent_display_controller).
Qed.

Lemma silent_find_dev (a : spdk_pci_addr) (count : nat) :
  forall iter, silent (find_dev a iter count).
Proof.
  unfold silent. induction count as [|n IH]; intros iter; simpl.
  - apply issues_ret.
  - issues_walk ltac:(apply IH).
Qed.

Lemma silent_get_controller : silent (get_controller parse).
Proof.
  unfold silent, get_controller.
  issues_walk ltac:(first [apply silent_display_controller
                          | apply silent_find_dev]).
Qed.

Lemma silent_get_lba_format (ns_data : spdk_nvme_ns_data) :
  silent (get_lba_format ns_data).
Proof.
  unfold silent, get_lba_format.
  issues_walk ltac:(apply silent_lbaf_at).
Qed.

Lemma get_controller_issued (w w' : world) (r : option Z) :
  get_controller parse w = Ret r w' -> issued w' = issued w.
Proof.
  intros H. apply (silent_issued (get_controller parse)).
  - apply silent_get_controller.
  - rewrite H. reflexivity.
Qed.

End ProgramCalls.

(** * The capability gates *)

Section Gates.

Variable parse : string -> option spdk_pci_addr.

(** C10: once the operator has selected a controller, create, delete,
    attach and detach are refused with a report when its identify data
    shows no namespace management, format when it shows no Format NVM
    support, firmware update when it shows no firmware download and
    commit support; the operation returns to the menu, and from its start
    no command has been handed to the driver. *)
Theorem capability_gates (fuel : nat) (attachment_op : Z) (w w1 : world)
        (p : Z) (d : dev) (cd : spdk_nvme_ctrlr_data) :
  get_controller parse w = Ret (Some p) w1 ->
  slot p w1 = Some d ->
  cdata d = Some cd ->
  issued w1 = issued w
  /\ (oacs_ns_manage cd = false ->
      let refused :=
        Ret tt (add_output
                  (Print Stdout "Controller does not support ns management\n" [])
                  w1) in
      add_ns parse w = refused
      /\ delete_ns parse w = refused
      /\ attach_and_detach_ns parse fuel attachment_op w = refused)
  /\ (oacs_format cd = false ->
      format_nvm parse w =
      Ret tt (add_output
                (Print Stdout "Controller does not support Format NVM command\n" [])
                w1))
  /\ (oacs_firmware cd = false ->
      update_firmware_image parse w =
      Ret tt (add_output
                (Print Stdout "Controller does not support firmware download and commit command\n" [])
                w1)).
Proof.
  intros Hsel Hslot Hcd.
  assert (Hload : load p cdata w1 = Ret (Some cd) w1).
  { unfold load. rewrite Hslot, Hcd. reflexivity. }
  split; [exact (get_controller_issued parse w w1 (Some p) Hsel)|].
  split; [|split].
  - intros Hbit refused. subst refused.
    unfold add_ns, delete_ns, attach_and_detach_ns.
    rewrite !(bind_ret_inv _ _ _ _ _ Hsel).
    rewrite !(bind_ret_inv _ _ _ _ _ Hload).
    simpl deref. rewrite !bind_ret, Hbit. simpl. auto.
  - intros Hbit. unfold format_nvm, format_nvm_choose.
    unfold bind at 1. unfold bind at 1. rewrite Hsel.
    unfold bind at 1. rewrite Hload. simpl deref. rewrite bind_ret, Hbit.
    reflexivity.
  - intros Hbit. unfold update_firmware_image, update_firmware_image_open.
    unfold bind at 1. unfold bind at 1. rewrite Hsel.
    unfold bind at 1. rewrite Hload. simpl deref. rewrite bind_ret, Hbit.
    reflexivity.
Qed.

End Gates.

(** * Slots of the registry *)

Lemma nth_error_list_update_eq {A : Type} (l : list A) (n : nat) (x d : A) :
  nth_error l n = Some d -> nth_error (list_update l n x) n = Some x.
Proof.
  revert n. induction l as [|h t IH]; intros [|n] H; simpl in *;
    try discriminate; auto.
Qed.

Lemma nth_error_list_update_ne {A : Type} (l : list A) (n m : nat) (x : A) :
  n <> m -> nth_error (list_update l n x) m = nth_error l m.
Proof.
  revert n m. induction l as [|h t IH]; intros [|n] [|m] H; simpl;
    try reflexivity; try congruence.
  apply IH. congruence.
Qed.

Lemma length_list_update {A : Type} (l : list A) (n : nat) (x : A) :
  List.length (list_update l n x) = List.length l.
Proof.
  revert n. induction l as [|h t IH]; intros [|n]; simpl; auto.
Qed.

Lemma load_ret {A : Type} (p : Z) (field : dev -> A) (w : world) (d : dev) :
  slot p w = Some d -> load p field w = Ret (field d) w.
Proof. intros H. unfold load. rewrite H. reflexivity. Qed.

Lemma store_ret (p : Z) (f : dev -> dev) (w : world) (d : dev) :
  slot p w = Some d ->
  store p f w =
  Ret tt (set_devs (fun l => list_update l (Z.to_nat p) (f d)) w).
Proof. intros H. unfold store. rewrite H. reflexivity. Qed.

Lemma slot_store_eq (p : Z) (x d : dev) (w : world) :
  slot p w = Some d ->
  slot p (set_devs (fun l => list_update l (Z.to_nat p) x) w) = Some x.
Proof.
  unfold slot. simpl. destruct (p <? 0); [discriminate|].
  apply nth_error_list_update_eq.
Qed.

Lemma slot_store_ne (p q : Z) (x : dev) (w : world) :
  0 <= p -> 0 <= q -> p <> q ->
  slot q (set_devs (fun l => list_update l (Z.to_nat p) x) w) = slot q w.
Proof.
  intros Hp Hq H. unfold slot. simpl. destruct (q <? 0); [reflexivity|].
  apply nth_error_list_update_ne. lia.
Qed.

Lemma slot_nonneg (p : Z) (w : world) (d : dev) :
  slot p w = Some d -> 0 <= p.
Proof.
  unfold slot. destruct (p <? 0) eqn:E; [discriminate|]. lia.
Qed.

(** * The completion callbacks *)

(** C7: each completion callback takes exactly one off the in-flight
    counter of the controller it is called for, whatever the completion
    status; [identify_common_ns_cb] also releases the common-namespace
    buffer and marks it absent when the status is not success, and leaves
    it alone otherwise; [identify_allocated_ns_cb] changes nothing else. *)
Theorem completion_callbacks_decrement_once
        (cb_arg : Z) (cpl : spdk_nvme_cpl) (w : world) (d : dev) :
  slot cb_arg w = Some d ->
  INT_MIN < outstanding_admin_cmds d <= INT_MAX ->
  (exists w' d',
      identify_common_ns_cb cb_arg cpl w = Ret tt w'
      /\ slot cb_arg w' = Some d'
      /\ outstanding_admin_cmds d' = outstanding_admin_cmds d - 1
      /\ common_ns_data d' =
         (if status_sc cpl =? SPDK_NVME_SC_SUCCESS
          then common_ns_data d else None)
      /\ pci_addr d' = pci_addr d /\ ctrlr d' = ctrlr d
      /\ cdata d' = cdata d)
  /\ identify_allocated_ns_cb cb_arg cpl w =
     Ret tt (set_devs
               (fun l => list_update l (Z.to_nat cb_arg)
                           (set_outstanding_admin_cmds
                              (outstanding_admin_cmds d - 1) d)) w).
Proof.
  intros Hslot Hrange.
  assert (Hdec : to_int (outstanding_admin_cmds d - 1)
                 = outstanding_admin_cmds d - 1).
  { apply to_int_id. unfold INT_MIN, INT_MAX in *. lia. }
  split.
  - unfold identify_common_ns_cb.
    destruct (status_sc cpl =? SPDK_NVME_SC_SUCCESS) eqn:Esc; simpl negb; cbv iota.
    + rewrite bind_ret. rewrite (store_ret _ _ _ _ Hslot).
      eexists. eexists. split; [reflexivity|].
      split; [apply (slot_store_eq _ _ _ _ Hslot)|].
      simpl. rewrite Hdec. auto 10.
    + rewrite (bind_ret_inv _ _ _ _ _ (store_ret _ _ _ _ Hslot)).
      pose proof (slot_store_eq cb_arg (set_common_ns_data None d) d w Hslot)
        as Hslot1.
      rewrite (store_ret _ _ _ _ Hslot1).
      eexists. eexists. split; [reflexivity|].
      split; [apply (slot_store_eq _ _ _ _ Hslot1)|].
      simpl. rewrite Hdec. auto 10.
  - unfold identify_allocated_ns_cb. rewrite (store_ret _ _ _ _ Hslot).
    unfold decr_outstanding. rewrite Hdec. reflexivity.
Qed.

(** * Format and firmware update *)

Lemma issues_driver_command (P : driver_call -> Prop) (call : driver_call) :
  P call -> issues P (driver_command call).
Proof.
  intros HP w w'. unfold driver_command, bind, modify.
  destruct (command_script (add_issued call w)); simpl; intros E;
    inversion E; subst; simpl; exists [call]; auto.
Qed.

Definition format_without_protection (c : driver_call) : Prop :=
  match c with
  | CallFormat _ _ f => fmt_pi f = 0 /\ fmt_pil f = 0 /\ fmt_ms f = 0
  | _ => False
  end.

Definition is_format (c : driver_call) : Prop :=
  match c with
  | CallFormat _ _ _ => True
  | _ => False
  end.

Section FormatFirmware.

Variable parse : string -> option spdk_pci_addr.

Lemma issues_nvme_manage_format (device ns_id ses pi pil ms lbaf : Z) :
  issues (fun c => is_format c
                   /\ (pi = 0 -> pil = 0 -> ms = 0 ->
                       format_without_protection c))
         (nvme_manage_format device ns_id ses pi pil ms lbaf).
Proof.
  unfold nvme_manage_format, spdk_nvme_ctrlr_format.
  issues_walk ltac:(apply issues_driver_command).
  simpl. split; [exact I|]. intros -> -> ->. auto.
Qed.

Lemma silent_format_nvm_choose : silent (format_nvm_choose parse).
Proof.
  unfold silent, format_nvm_choose.
  issues_walk ltac:(first [apply silent_get_controller
                          | apply silent_get_lba_format]).
Qed.

Lemma silent_format_nvm_protection (nsdata : spdk_nvme_ns_data) (lbaf : Z) :
  silent (format_nvm_protection nsdata lbaf).
Proof.
  unfold silent, format_nvm_protection.
  issues_walk ltac:(apply silent_lbaf_at).
Qed.

Lemma issues_format_nvm_confirm (device ns_id : Z) (ses pi pil ms : option Z)
      (lbaf : Z) :
  issues (fun c => is_format c
                   /\ (pi = Some 0 -> pil = Some 0 -> ms = Some 0 ->
                       format_without_protection c))
         (format_nvm_confirm device ns_id ses pi pil ms lbaf).
Proof.
  unfold format_nvm_confirm.
  destruct pi as [pi_|], pil as [pil_|], ms as [ms_|];
    issues_walk ltac:(idtac).
  all: eapply issues_weaken; [|apply issues_nvme_manage_format].
  all: simpl; intros c [Hf Hp]; split; [exact Hf|].
  all: intros H1 H2 H3; try discriminate.
  inversion H1. inversion H2. inversion H3. subst. auto.
Qed.

(** C8: when the chosen LBA format has no metadata
    ([nsdata->lbaf[lbaf].ms == 0]), [format_nvm] goes from the choice of
    the LBA format straight to the warning: nothing is printed and nothing
    is read in between, [pi], [pil] and [ms] are 0, and a format command
    handed to the driver carries [pi = 0], [pil = 0] and [ms = 0]. *)
Theorem format_without_metadata (w w1 : world) (ch : format_choice)
        (e : lbaf_entry) :
  format_nvm_choose parse w = Ret (Some ch) w1 ->
  lbaf_at (fc_nsdata ch) (fc_lbaf ch) w1 = Ret e w1 ->
  lbaf_ms e = 0 ->
  format_nvm_protection (fc_nsdata ch) (fc_lbaf ch) w1
  = Ret (Some (Some 0, Some 0, Some 0)) w1
  /\ format_nvm parse w
     = format_nvm_confirm (fc_dev ch) (fc_ns_id ch) (fc_ses ch)
         (Some 0) (Some 0) (Some 0) (fc_lbaf ch) w1
  /\ (forall w', world_of (format_nvm parse w) = Some w' ->
                 exists l, issued w' = issued w ++ l
                           /\ Forall format_without_protection l).
Proof.
  intros Hch He Hms.
  assert (Hprot : format_nvm_protection (fc_nsdata ch) (fc_lbaf ch) w1
                  = Ret (Some (Some 0, Some 0, Some 0)) w1).
  { unfold format_nvm_protection.
    rewrite (bind_ret_inv _ _ _ _ _ He). rewrite Hms. reflexivity. }
  assert (Hfmt : format_nvm parse w
                 = format_nvm_confirm (fc_dev ch) (fc_ns_id ch) (fc_ses ch)
                     (Some 0) (Some 0) (Some 0) (fc_lbaf ch) w1).
  { unfold format_nvm. rewrite (bind_ret_inv _ _ _ _ _ Hch).
    rewrite (bind_ret_inv _ _ _ _ _ Hprot). reflexivity. }
  split; [exact Hprot|]. split; [exact Hfmt|].
  intros w' Hw'. rewrite Hfmt in Hw'.
  destruct (issues_format_nvm_confirm _ _ _ _ _ _ _ _ _ Hw') as [l [El Fl]].
  exists l. split.
  - rewrite El. f_equal.
    apply (silent_issued (format_nvm_choose parse));
      [apply silent_format_nvm_choose | rewrite Hch; reflexivity].
  - eapply Forall_impl; [|exact Fl]. simpl. intros c [_ Hc]. auto.
Qed.

Lemma silent_update_firmware_image_open :
  silent (update_firmware_image_open parse).
Proof.
  unfold silent, update_firmware_image_open.
  issues_walk ltac:(apply silent_get_controller).
Qed.

(** C9: once the image has been opened and examined, a size that is not a
    multiple of 4 ends the operation with a report, and from the start of
    the operation nothing has been handed to the driver; a size that is a
    multiple of 4 passes: with the buffer allocated and the image read,
    the slot is asked for, and with a slot entered the firmware update
    command is handed to the driver, the first and only call of the
    operation. *)
Theorem firmware_image_alignment (w w1 : world) (p : Z) (f : file) :
  update_firmware_image_open parse w = Ret (Some (p, f)) w1 ->
  issued w1 = issued w
  /\ (Z.rem (st_size f) 4 <> 0 ->
      update_firmware_image parse w =
      Ret tt (add_output
                (Print Stdout "Firmware image size is not multiple of 4\n" [])
                w1))
  /\ (Z.rem (st_size f) 4 = 0 ->
      forall (w2 w3 : world) (slot_ : Z) (d : dev) (c : spdk_nvme_ctrlr),
        let size := to_uint32 (st_size f) in
        spdk_zmalloc w1 = Ret true w2 ->
        read_rc f size = size ->
        scanf_d (add_output (Print Stdout "Please Input Slot(0 - 7): \n" []) w2)
        = Ret (Assigned slot_) w3 ->
        slot p w3 = Some d ->
        ctrlr d = Some c ->
        exists (rc : Z) (w4 : world) (report : string),
          spdk_nvme_ctrlr_update_firmware c size slot_ w3 = Ret rc w4
          /\ update_firmware_image parse w
             = Ret tt (add_output (Print Stdout report []) w4)
          /\ issued (add_output (Print Stdout report []) w4)
             = issued w ++ [CallUpdateFirmware (ctrlr_id c) size slot_]).
Proof.
  intros Hopen.
  assert (Hiss : issued w1 = issued w).
  { apply (silent_issued (update_firmware_image_open parse));
      [apply silent_update_firmware_image_open | rewrite Hopen; reflexivity]. }
  split; [exact Hiss|]. split.
  - intros Hrem. unfold update_firmware_image.
    rewrite (bind_ret_inv _ _ _ _ _ Hopen).
    destruct (Z.rem (st_size f) 4 =? 0) eqn:E; [|reflexivity].
    apply Z.eqb_eq in E. contradiction.
  - intros Hrem w2 w3 slot_ d c size Halloc Hread Hscan Hslot Hc.
    subst size.
    assert (Hcall : exists rc w4,
               spdk_nvme_ctrlr_update_firmware c (to_uint32 (st_size f))
                 slot_ w3 = Ret rc w4
               /\ issued w4
                  = issued w3
                    ++ [CallUpdateFirmware (ctrlr_id c)
                          (to_uint32 (st_size f)) slot_]).
    { unfold spdk_nvme_ctrlr_update_firmware, driver_command, bind, modify.
      destruct (command_script
                  (add_issued
                     (CallUpdateFirmware (ctrlr_id c)
                        (to_uint32 (st_size f)) slot_) w3));
        eexists; eexists; split; reflexivity. }
    destruct Hcall as [rc [w4 [Hcall Hiss4]]].
    assert (Hiss3 : issued w3 = issued w).
    { rewrite <- Hiss.
      assert (H2 : issued w2 = issued w1).
      { apply (silent_issued spdk_zmalloc);
          [unfold silent; apply issues_spdk_zmalloc
          | rewrite Halloc; reflexivity]. }
      rewrite <- H2.
      apply (silent_issued scanf_d
               (add_output (Print Stdout "Please Input Slot(0 - 7): \n" []) w2));
        [unfold silent; apply issues_scan | rewrite Hscan; reflexivity]. }
    exists rc, w4,
      (if negb (rc =? 0)
       then "spdk_nvme_ctrlr_update_firmware failed\n"
       else "spdk_nvme_ctrlr_update_firmware success\n").
    split; [exact Hcall|]. split.
    + unfold update_firmware_image.
      rewrite (bind_ret_inv _ _ _ _ _ Hopen).
      rewrite Hrem. change (negb (0 =? 0)) with false. cbv iota.
      rewrite (bind_ret_inv _ _ _ _ _ Halloc).
      change (negb true) with false. cbv iota.
      rewrite Hread, Z.eqb_refl. change (negb true) with false. cbv iota.
      rewrite bind_printf. rewrite (bind_ret_inv _ _ _ _ _ Hscan).
      cbn [scanf_failed after_scanf initialized]. rewrite bind_ret.
      rewrite (bind_ret_inv _ _ _ _ _ (load_ret _ _ _ _ Hslot)).
      rewrite Hc. cbn [deref]. rewrite bind_ret.
      rewrite (bind_ret_inv _ _ _ _ _ Hcall).
      destruct (rc =? 0); reflexivity.
    + simpl. rewrite Hiss4, Hiss3. reflexivity.
Qed.

End FormatFirmware.

(** * Which commands an operation hands to the driver *)

Lemma issues_cmd_admin_raw (P : driver_call -> Prop) (c : spdk_nvme_ctrlr)
      (cmd : spdk_nvme_cmd) (cb : admin_cb) (cb_arg : Z) :
  P (CallAdminRaw (ctrlr_id c) cmd) ->
  issues P (spdk_nvme_ctrlr_cmd_admin_raw c cmd cb cb_arg).
Proof.
  intros HP w w'. unfold spdk_nvme_ctrlr_cmd_admin_raw, bind, modify, gets, ret.
  destruct (admin_raw_script (add_issued (CallAdminRaw (ctrlr_id c) cmd) w))
    as [|a l]; simpl.
  - intros E. inversion E. subst. simpl. eexists. split; [reflexivity|]. auto.
  - destruct (raw_rc a =? 0); simpl; intros E; inversion E; subst; simpl;
      (eexists; split; [reflexivity|]; auto).
Qed.

Lemma silent_deliver (r : admin_req) : silent (deliver r).
Proof. unfold silent, deliver. issues_walk fail. Qed.

Lemma silent_run_callback (r : admin_req) : silent (run_callback r).
Proof.
  unfold silent, run_callback, identify_common_ns_cb,
    identify_allocated_ns_cb.
  issues_walk fail.
Qed.

Lemma silent_complete_ready (cid : Z) (q : list admin_req) :
  silent (complete_ready cid q).
Proof.
  unfold silent. induction q as [|r q IH]; simpl.
  - apply issues_ret.
  - issues_walk ltac:(first [apply silent_deliver | apply silent_run_callback
                            | apply IH]).
Qed.

Lemma silent_process_admin_completions (c : spdk_nvme_ctrlr) :
  silent (spdk_nvme_ctrlr_process_admin_completions c).
Proof.
  unfold silent, spdk_nvme_ctrlr_process_admin_completions.
  issues_walk ltac:(apply silent_complete_ready).
Qed.

Lemma issues_while_outstanding (P : driver_call -> Prop) (p : Z)
      (body : M unit) (fuel : nat) :
  issues P body -> issues P (while_outstanding fuel p body).
Proof.
  intros Hb. induction fuel as [|f IH]; simpl.
  - intros w w' E. discriminate.
  - issues_walk ltac:(first [apply Hb | apply IH]).
Qed.

Definition is_identify_allocated_ns_list (c : driver_call) : Prop :=
  match c with
  | CallAdminRaw _ cmd =>
      opc cmd = SPDK_NVME_OPC_IDENTIFY
      /\ cdw10 cmd = SPDK_NVME_IDENTIFY_ALLOCATED_NS_LIST
  | _ => False
  end.

Lemma silent_print_ns_list (l : list Z) : silent (print_ns_list l).
Proof.
  unfold silent. induction l as [|x l IH]; simpl.
  - apply issues_ret.
  - issues_walk ltac:(apply IH).
Qed.

Lemma issues_get_allocated_nsid (fuel : nat) (p : Z) :
  issues is_identify_allocated_ns_list (get_allocated_nsid fuel p).
Proof.
  unfold get_allocated_nsid.
  issues_walk ltac:(first
                      [ apply issues_cmd_admin_raw; simpl; auto
                      | apply silent_issues; apply silent_print_ns_list
                      | apply silent_issues;
                        apply silent_process_admin_completions
                      | apply issues_while_outstanding ]).
Qed.

Section FormatCalls.

Variable parse : string -> option spdk_pci_addr.

(** C5, as the code has it: a format operation hands nothing to the
    driver but format commands, so it never sends the identify command
    that returns the allocated-namespace list, whatever the controller
    supports; that identify command is what [get_allocated_nsid], the
    first step of attach and detach, hands to the driver, and nothing
    else. *)
Theorem format_issues_only_format (fuel : nat) (p : Z) (w w' : world) :
  (world_of (format_nvm parse w) = Some w' ->
   exists l, issued w' = issued w ++ l /\ Forall is_format l)
  /\ (world_of (get_allocated_nsid fuel p w) = Some w' ->
      exists l, issued w' = issued w ++ l
                /\ Forall is_identify_allocated_ns_list l).
Proof.
  split.
  - revert w w'. change (issues is_format (format_nvm parse)).
    unfold format_nvm.
    issues_walk ltac:(first
                        [ apply silent_issues; apply silent_format_nvm_choose
                        | apply silent_issues;
                          apply silent_format_nvm_protection
                        | eapply issues_weaken;
                          [|apply issues_format_nvm_confirm];
                          simpl; intros c [H _]; exact H ]).
  - apply issues_get_allocated_nsid.
Qed.

End FormatCalls.

(** * When the process is ended

    [exits_with Q m]: whenever [m] ends in a call of [exit], the exit
    status and the world then satisfy [Q]. *)

Definition exits_with {A : Type} (Q : Z -> world -> Prop) (m : M A) : Prop :=
  forall w c w', m w = Exit c w' -> Q c w'.

Definition never_exits {A : Type} (m : M A) : Prop :=
  exits_with (fun _ _ => False) m.

(** The last thing written to standard output or standard error. *)
Definition last_output (w : world) : option output_event :=
  match rev (output w) with
  | [] => None
  | e :: _ => Some e
  end.

Lemma last_output_add (e : output_event) (w : world) :
  last_output (add_output e w) = Some e.
Proof. unfold last_output. simpl. rewrite rev_app_distr. reflexivity. Qed.

Lemma exits_weaken {A : Type} (Q Q' : Z -> world -> Prop) (m : M A) :
  (forall c w, Q c w -> Q' c w) -> exits_with Q m -> exits_with Q' m.
Proof. intros HQ H w c w' E. apply HQ. exact (H w c w' E). Qed.

Lemma never_exits_with {A : Type} (Q : Z -> world -> Prop) (m : M A) :
  never_exits m -> exits_with Q m.
Proof. apply exits_weaken. contradiction. Qed.

Lemma exits_bind {A B : Type} (Q : Z -> world -> Prop)
      (m : M A) (k : A -> M B) :
  exits_with Q m -> (forall a, exits_with Q (k a)) -> exits_with Q (bind m k).
Proof.
  intros Hm Hk w c w'. unfold bind.
  destruct (m w) as [a w1|c1 w1|f w1|w1|] eqn:E; intros H;
    try discriminate.
  - exact (Hk a w1 c w' H).
  - inversion H. subst. exact (Hm w c w' E).
Qed.

Lemma exits_bind_ret {A B : Type} (Q : Z -> world -> Prop)
      (a : A) (k : A -> M B) :
  exits_with Q (k a) -> exits_with Q (bind (ret a) k).
Proof. intros H w c w' E. exact (H w c w' E). Qed.

Lemma exits_printf_exit {B : Type} (Q : Z -> world -> Prop) (fmt : string)
      (args : list arg) (s : stream) (code : Z) :
  (forall w, Q code (add_output (Print s fmt args) w)) ->
  exits_with Q (bind (fprintf s fmt args) (fun _ => @exit B code)).
Proof. intros H w c w' E. inversion E. subst. apply H. Qed.

(** A primitive that is given by cases on the world and never exits. *)
Ltac no_exit_prim :=
  let w := fresh "w" in
  let c := fresh "c" in
  let w' := fresh "w'" in
  intros w c w';
  cbv [ret exit undefined gets modify fprintf printf perror load store
       deref initialized scan scanf_d scanf_u scanf_i64 scanf_c fgets
       discard_line discard_line_or_eof spdk_zmalloc];
  repeat match goal with
         | |- context [match ?x with _ => _ end] => destruct x
         end;
  discriminate.

Lemma exits_ret {A : Type} (Q : Z -> world -> Prop) (a : A) :
  exits_with Q (ret a).
Proof. no_exit_prim. Qed.

Lemma exits_undefined {A : Type} (Q : Z -> world -> Prop) (f : fault) :
  exits_with Q (@undefined A f).
Proof. no_exit_prim. Qed.

Lemma exits_gets {A : Type} (Q : Z -> world -> Prop) (f : world -> A) :
  exits_with Q (gets f).
Proof. no_exit_prim. Qed.

Lemma exits_modify (Q : Z -> world -> Prop) (f : world -> world) :
  exits_with Q (modify f).
Proof. no_exit_prim. Qed.

Lemma exits_fprintf (Q : Z -> world -> Prop) (s : stream) (fmt : string)
      (args : list arg) :
  exits_with Q (fprintf s fmt args).
Proof. no_exit_prim. Qed.

Lemma exits_printf (Q : Z -> world -> Prop) (fmt : string)
      (args : list arg) :
  exits_with Q (printf fmt args).
Proof. no_exit_prim. Qed.

Lemma exits_perror (Q : Z -> world -> Prop) (msg : string) :
  exits_with Q (perror msg).
Proof. no_exit_prim. Qed.

Lemma exits_load {A : Type} (Q : Z -> world -> Prop) (p : Z)
      (field : dev -> A) :
  exits_with Q (load p field).
Proof. no_exit_prim. Qed.

Lemma exits_store (Q : Z -> world -> Prop) (p : Z) (f : dev -> dev) :
  exits_with Q (store p f).
Proof. no_exit_prim. Qed.

Lemma exits_deref {A : Type} (Q : Z -> world -> Prop) (o : option A) :
  exits_with Q (deref o).
Proof. no_exit_prim. Qed.

Lemma exits_initialized (Q : Z -> world -> Prop) (o : option Z) :
  exits_with Q (initialized o).
Proof. no_exit_prim. Qed.

Lemma exits_scan (Q : Z -> world -> Prop) (f : string -> scanned * string) :
  exits_with Q (scan f).
Proof. no_exit_prim. Qed.

Lemma exits_fgets (Q : Z -> world -> Prop) (n : nat) :
  exits_with Q (fgets n).
Proof. no_exit_prim. Qed.

Lemma exits_discard_line (Q : Z -> world -> Prop) :
  exits_with Q discard_line.
Proof. no_exit_prim. Qed.

Lemma exits_discard_line_or_eof (Q : Z -> world -> Prop) :
  exits_with Q discard_line_or_eof.
Proof. no_exit_prim. Qed.

Lemma exits_spdk_zmalloc (Q : Z -> world -> Prop) :
  exits_with Q spdk_zmalloc.
Proof. no_exit_prim. Qed.

Lemma exits_cmd_admin_raw (Q : Z -> world -> Prop) (c : spdk_nvme_ctrlr)
      (cmd : spdk_nvme_cmd) (cb : admin_cb) (cb_arg : Z) :
  exits_with Q (spdk_nvme_ctrlr_cmd_admin_raw c cmd cb cb_arg).
Proof.
  intros w c0 w'. unfold spdk_nvme_ctrlr_cmd_admin_raw, bind, modify, gets, ret.
  destruct (admin_raw_script _); [discriminate|].
  destruct (raw_rc _ =? 0); discriminate.
Qed.

Lemma exits_driver_command (Q : Z -> world -> Prop) (call : driver_call) :
  exits_with Q (driver_command call).
Proof.
  intros w c0 w'. unfold driver_command, bind, modify.
  destruct (command_script _); discriminate.
Qed.

Lemma exits_for_loop (Q : Z -> world -> Prop) (body : Z -> M unit)
      (count : nat) :
  (forall i, exits_with Q (body i)) ->
  forall lo, exits_with Q (for_loop lo count body).
Proof.
  intros Hb. induction count as [|n IH]; intros lo; simpl.
  - apply exits_ret.
  - apply exits_bind; [apply Hb | intros _; apply IH].
Qed.

Lemma exits_foreach_dev (Q : Z -> world -> Prop) (body : Z -> M unit) :
  (forall i, exits_with Q (body i)) -> exits_with Q (foreach_dev body).
Proof.
  intros Hb. unfold foreach_dev.
  apply exits_bind; [apply exits_gets | intros n].
  apply exits_for_loop. exact Hb.
Qed.

Ltac exits_prim :=
  first
    [ apply exits_ret | apply exits_printf | apply exits_fprintf
    | apply exits_perror | apply exits_load | apply exits_store
    | apply exits_deref | apply exits_initialized | apply exits_scan
    | apply exits_fgets | apply exits_discard_line
    | apply exits_discard_line_or_eof | apply exits_spdk_zmalloc
    | apply exits_gets | apply exits_undefined | apply exits_modify
    | apply exits_cmd_admin_raw | apply exits_driver_command ].

Ltac exits_walk solve_leaf :=
  repeat
    match goal with
    | |- never_exits _ => unfold never_exits
    | |- exits_with _ (bind (ret _) _) => apply exits_bind_ret
    | |- exits_with _ (bind (initialized (Some _)) _) => apply exits_bind_ret
    | |- exits_with _ (bind (printf _ _) (fun _ => exit _)) =>
        apply exits_printf_exit; intro
    | |- exits_with _ (bind (fprintf _ _ _) (fun _ => exit _)) =>
        apply exits_printf_exit; intro
    | |- exits_with _ (bind _ _) => apply exits_bind; [ | intro ]
    | |- exits_with _ (if ?b then _ else _) => destruct b
    | |- exits_with _ (match ?x with _ => _ end) => destruct x
    | |- exits_with _ (for_loop _ _ _) => apply exits_for_loop; intro
    | |- exits_with _ (foreach_dev _) => apply exits_foreach_dev; intro
    | |- exits_with _ (when _ _) => unfold when
    | |- exits_with _ _ => first [ exits_prim | solve_leaf ]
    | |- exits_with _ _ => progress cbv zeta
    end.

Definition exit_reports (e : output_event) (c : Z) (w : world) : Prop :=
  c = 1 /\ last_output w = Some e.

Definition controller_list_failure : output_event :=
  Print Stdout "Allocation error (controller list)\n" [].
Definition namespace_data_failure : output_event :=
  Print Stdout "Allocation error (namespace data)\n" [].
Definition dpdk_failure : output_event :=
  Print Stderr "could not initialize dpdk\n" [].

Section ProgramExits.

Variable parse : string -> option spdk_pci_addr.

Ltac never_exits_walk leaf :=
  unfold never_exits; exits_walk leaf.

Lemma never_exits_usage : never_exits usage.
Proof. unfold usage. never_exits_walk fail. Qed.

Lemma never_exits_lbaf_at (nsdata : spdk_nvme_ns_data) (i : Z) :
  never_exits (lbaf_at nsdata i).
Proof. unfold lbaf_at. never_exits_walk fail. Qed.

Lemma never_exits_display_namespace (ns : spdk_nvme_ns) :
  never_exits (display_namespace ns).
Proof.
  unfold display_namespace, display_namespace_dpc.
  never_exits_walk ltac:(apply never_exits_lbaf_at).
Qed.

Lemma never_exits_display_controller (p model : Z) :
  never_exits (display_controller p model).
Proof.
  unfold display_controller.
  never_exits_walk ltac:(apply never_exits_display_namespace).
Qed.

Lemma never_exits_find_dev (a : spdk_pci_addr) (count : nat) :
  forall iter, never_exits (find_dev a iter count).
Proof.
  induction count as [|n IH]; intros iter; simpl.
  - apply exits_ret.
  - never_exits_walk ltac:(apply IH).
Qed.

Lemma never_exits_get_controller : never_exits (get_controller parse).
Proof.
  unfold get_controller.
  never_exits_walk ltac:(first [apply never_exits_display_controller
                               | apply never_exits_find_dev]).
Qed.

Lemma never_exits_get_lba_format (ns_data : spdk_nvme_ns_data) :
  never_exits (get_lba_format ns_data).
Proof.
  unfold get_lba_format. never_exits_walk ltac:(apply never_exits_lbaf_at).
Qed.

Lemma never_exits_complete_ready (cid : Z) (q : list admin_req) :
  never_exits (complete_ready cid q).
Proof.
  induction q as [|r q IH]; simpl.
  - apply exits_ret.
  - unfold deliver, run_callback, identify_common_ns_cb,
      identify_allocated_ns_cb.
    never_exits_walk ltac:(apply IH).
Qed.

Lemma never_exits_process_admin_completions (c : spdk_nvme_ctrlr) :
  never_exits (spdk_nvme_ctrlr_process_admin_completions c).
Proof.
  unfold spdk_nvme_ctrlr_process_admin_completions.
  never_exits_walk ltac:(apply never_exits_complete_ready).
Qed.

Lemma never_exits_while_outstanding (p : Z) (body : M unit) (fuel : nat) :
  never_exits body -> never_exits (while_outstanding fuel p body).
Proof.
  intros Hb. induction fuel as [|f IH]; simpl.
  - intros w c w' E. discriminate.
  - never_exits_walk ltac:(first [apply Hb | apply IH]).
Qed.

Lemma never_exits_attach_cb (fuel : nat) (info : spdk_nvme_probe_info)
      (c : spdk_nvme_ctrlr) :
  never_exits (attach_cb fuel info c).
Proof.
  unfold attach_cb.
  never_exits_walk ltac:(first
                           [ apply never_exits_process_admin_completions
                           | apply never_exits_while_outstanding ]).
Qed.

Lemma never_exits_spdk_nvme_probe (fuel : nat) :
  never_exits (spdk_nvme_probe fuel).
Proof.
  unfold spdk_nvme_probe.
  never_exits_walk idtac.
  induction a as [|[info c] l IH]; simpl.
  - apply exits_ret.
  - unfold probe_cb.
    never_exits_walk ltac:(first [apply never_exits_attach_cb | apply IH]).
Qed.

Lemma never_exits_qsort_devs : never_exits qsort_devs.
Proof.
  intros w c w'. unfold qsort_devs.
  destruct ((num_devs w <? 0) || _); discriminate.
Qed.

Lemma never_exits_print_ns_list (l : list Z) : never_exits (print_ns_list l).
Proof.
  induction l as [|x l IH]; simpl.
  - apply exits_ret.
  - never_exits_walk ltac:(apply IH).
Qed.

Lemma never_exits_get_allocated_nsid (fuel : nat) (p : Z) :
  never_exits (get_allocated_nsid fuel p).
Proof.
  unfold get_allocated_nsid.
  never_exits_walk ltac:(first
                           [ apply never_exits_print_ns_list
                           | apply never_exits_process_admin_completions
                           | apply never_exits_while_outstanding ]).
Qed.

Lemma never_exits_delete_ns : never_exits (delete_ns parse).
Proof.
  unfold delete_ns, ns_manage_delete, spdk_nvme_ctrlr_delete_ns.
  never_exits_walk ltac:(apply never_exits_get_controller).
Qed.

Lemma never_exits_format_nvm : never_exits (format_nvm parse).
Proof.
  unfold format_nvm, format_nvm_choose, format_nvm_protection,
    format_nvm_confirm, nvme_manage_format, spdk_nvme_ctrlr_format.
  never_exits_walk ltac:(first [ apply never_exits_get_controller
                               | apply never_exits_get_lba_format
                               | apply never_exits_lbaf_at ]).
Qed.

Lemma never_exits_update_firmware_image :
  never_exits (update_firmware_image parse).
Proof.
  unfold update_firmware_image, update_firmware_image_open,
    spdk_nvme_ctrlr_update_firmware.
  never_exits_walk ltac:(apply never_exits_get_controller).
Qed.

Lemma never_exits_display_controller_list :
  never_exits display_controller_list.
Proof.
  unfold display_controller_list.
  never_exits_walk ltac:(apply never_exits_display_controller).
Qed.

Lemma exits_ns_attach (device attachment_op ctrlr_id ns_id : Z) :
  exits_with (exit_reports controller_list_failure)
             (ns_attach device attachment_op ctrlr_id ns_id).
Proof.
  unfold ns_attach, spdk_nvme_ctrlr_attach_ns, spdk_nvme_ctrlr_detach_ns.
  exits_walk fail.
  split; [reflexivity | apply last_output_add].
Qed.

Lemma exits_attach_and_detach_ns (fuel : nat) (attachment_op : Z) :
  exits_with (exit_reports controller_list_failure)
             (attach_and_detach_ns parse fuel attachment_op).
Proof.
  unfold attach_and_detach_ns.
  exits_walk ltac:(first
                     [ apply never_exits_with; apply never_exits_get_controller
                     | apply never_exits_with;
                       apply never_exits_get_allocated_nsid
                     | apply exits_ns_attach ]).
Qed.

Lemma exits_ns_manage_add (device ns_size ns_capacity ns_lbasize
                           ns_dps_type ns_dps_location ns_nmic : Z) :
  exits_with (exit_reports namespace_data_failure)
             (ns_manage_add device ns_size ns_capacity ns_lbasize
                ns_dps_type ns_dps_location ns_nmic).
Proof.
  unfold ns_manage_add, spdk_nvme_ctrlr_create_ns.
  exits_walk fail.
  split; [reflexivity | apply last_output_add].
Qed.

Lemma exits_add_ns :
  exits_with (exit_reports namespace_data_failure) (add_ns parse).
Proof.
  unfold add_ns.
  exits_walk ltac:(first
                     [ apply never_exits_with; apply never_exits_get_controller
                     | apply never_exits_with; apply never_exits_get_lba_format
                     | apply exits_ns_manage_add ]).
Qed.

(** The ways [exit] is reached from the menu. *)
Definition menu_exit (c : Z) (w : world) : Prop :=
  exit_reports controller_list_failure c w
  \/ exit_reports namespace_data_failure c w.

Lemma exits_dispatch (fuel : nat) (cmd : Z) :
  exits_with menu_exit (dispatch parse fuel cmd).
Proof.
  unfold dispatch.
  exits_walk ltac:(first
    [ apply never_exits_with; apply never_exits_display_controller_list
    | apply never_exits_with; apply never_exits_delete_ns
    | apply never_exits_with; apply never_exits_format_nvm
    | apply never_exits_with; apply never_exits_update_firmware_image
    | eapply exits_weaken; [|apply exits_add_ns];
      unfold menu_exit; auto
    | eapply exits_weaken; [|apply exits_attach_and_detach_ns];
      unfold menu_exit; auto ]).
Qed.

Lemma exits_command_loop (fuel iterations : nat) :
  exits_with menu_exit (command_loop parse fuel iterations).
Proof.
  induction iterations as [|n IH]; simpl.
  - intros w c w' E. discriminate.
  - exits_walk ltac:(first [ apply exits_dispatch
                           | apply never_exits_with; apply never_exits_usage
                           | apply IH ]).
Qed.

End ProgramExits.

Lemma bind_inv_ret {A B : Type} (m : M A) (k : A -> M B) (w w' : world)
      (b : B) :
  bind m k w = Ret b w' ->
  exists a w1, m w = Ret a w1 /\ k a w1 = Ret b w'.
Proof.
  unfold bind. destruct (m w) as [a w1|c w1|f w1|w1|]; intros H;
    try discriminate.
  exists a, w1. auto.
Qed.

Lemma discard_line_output (w w' : world) (u : unit) :
  discard_line w = Ret u w' -> output w' = output w.
Proof.
  unfold discard_line. destruct (drop_line (stdin w)); intros H;
    inversion H. reflexivity.
Qed.

Lemma detach_loop_output (count : nat) :
  forall (lo : Z) (w w' : world) (u : unit),
    for_loop lo count
      (fun i => c <- load i ctrlr ;; c <- deref c ;; spdk_nvme_detach c) w
    = Ret u w' ->
    output w' = output w.
Proof.
  induction count as [|n IH]; intros lo w w' u; simpl.
  - intros H. inversion H. reflexivity.
  - intros H. apply bind_inv_ret in H. destruct H as [a [w1 [H1 H2]]].
    rewrite (IH _ _ _ _ H2). clear H2 IH.
    unfold bind, load, deref, spdk_nvme_detach, modify, ret, undefined in H1.
    destruct (slot lo w) as [d|]; [|discriminate].
    destruct (ctrlr d); inversion H1. reflexivity.
Qed.

Section ProcessEnd.

Variable parse : string -> option spdk_pci_addr.

Lemma command_loop_returns (fuel iterations : nat) :
  forall (w w' : world) (v : Z),
    command_loop parse fuel iterations w = Ret (Some v) w' ->
    v = 0 /\ last_output w' = Some (Print Stdout "Invalid Command\n" []).
Proof.
  induction iterations as [|n IH]; intros w w' v; simpl.
  - discriminate.
  - intros H. apply bind_inv_ret in H. destruct H as [r [w1 [_ H]]].
    destruct (scanf_failed r).
    + rewrite bind_printf in H.
      apply bind_inv_ret in H. destruct H as [u [w2 [H1 H2]]].
      inversion H2. subst. split; [reflexivity|].
      unfold last_output. rewrite (discard_line_output _ _ _ H1).
      apply last_output_add.
    + apply bind_inv_ret in H. destruct H as [cmd [w2 [_ H]]].
      apply bind_inv_ret in H. destruct H as [exit_flag [w3 [_ H]]].
      destruct exit_flag; [discriminate|].
      apply bind_inv_ret in H. destruct H as [u1 [w4 [_ H]]].
      rewrite bind_printf in H.
      apply bind_inv_ret in H. destruct H as [u2 [w5 [_ H]]].
      apply bind_inv_ret in H. destruct H as [u3 [w6 [_ H]]].
      exact (IH _ _ _ H).
Qed.

(** C6, as the code has it: the process is ended by [exit(1)] in three
    situations only, a failed [rte_eal_init], a failed allocation of the
    controller list in attach and detach, and a failed allocation of the
    namespace data in create; [main] returns 1 when [spdk_nvme_probe]
    fails, 0 when the menu selection cannot be read as a number, and the
    value of [rte_eal_init] after a quit.  Any other failure inside an
    operation leads back to the menu. *)
Theorem process_end_conditions (fuel : nat) (w w' : world) (c : Z) :
  (main parse fuel w = Exit c w' ->
   c = 1
   /\ (last_output w' = Some dpdk_failure
       \/ last_output w' = Some controller_list_failure
       \/ last_output w' = Some namespace_data_failure))
  /\ (main parse fuel w = Ret c w' ->
      (c = 1
       /\ last_output w' = Some (Print Stderr "spdk_nvme_probe() failed\n" []))
      \/ (c = 0
          /\ last_output w' = Some (Print Stdout "Invalid Command\n" []))
      \/ (c = rte_eal_init_rc w /\ 0 <= c
          /\ last_output w' = Some (Print Stdout "Cleaning up...\n" []))).
Proof.
  split.
  - revert w c w'.
    change (exits_with
              (fun c w' =>
                 c = 1
                 /\ (last_output w' = Some dpdk_failure
                     \/ last_output w' = Some controller_list_failure
                     \/ last_output w' = Some namespace_data_failure))
              (main parse fuel)).
    unfold main, rte_eal_init.
    exits_walk ltac:(first
      [ apply never_exits_with; apply never_exits_spdk_nvme_probe
      | apply never_exits_with; apply never_exits_qsort_devs
      | apply never_exits_with; apply never_exits_usage
      | eapply exits_weaken; [|apply exits_command_loop];
        unfold menu_exit, exit_reports; intros ? ? [[? ?]|[? ?]]; auto
      | unfold spdk_nvme_detach ]).
    split; [reflexivity|]. left. apply last_output_add.
  - unfold main, rte_eal_init. intros H.
    apply bind_inv_ret in H. destruct H as [rc [w1 [H1 H]]].
    inversion H1. subst rc w1. clear H1.
    destruct (rte_eal_init_rc w <? 0) eqn:Erc.
    { rewrite bind_fprintf in H. discriminate. }
    apply bind_inv_ret in H. destruct H as [prc [w1 [_ H]]].
    destruct (negb (prc =? 0)).
    { rewrite bind_fprintf in H. inversion H. subst.
      left. split; [reflexivity | apply last_output_add]. }
    apply bind_inv_ret in H. destruct H as [u1 [w2 [_ H]]].
    apply bind_inv_ret in H. destruct H as [u2 [w3 [_ H]]].
    apply bind_inv_ret in H. destruct H as [left_ [w4 [Hloop H]]].
    destruct left_ as [v|].
    + inversion H. subst. right. left.
      exact (command_loop_returns _ _ _ _ _ Hloop).
    + rewrite bind_printf in H.
      apply bind_inv_ret in H. destruct H as [u3 [w5 [Hdet H]]].
      inversion H. subst. right. right.
      split; [reflexivity|]. split; [apply Z.ltb_ge in Erc; exact Erc|].
      unfold foreach_dev in Hdet.
      apply bind_inv_ret in Hdet. destruct Hdet as [n [w6 [Hn Hdet]]].
      inversion Hn. subst n w6.
      unfold last_output. rewrite (detach_loop_output _ _ _ _ _ Hdet).
      apply last_output_add.
Qed.

End ProcessEnd.

(** * Operations that do not look at the common namespace data

    [blind m]: [m] runs the same way, with the same results, output and
    driver calls, whether or not the slots of [devs] hold common namespace
    data. *)

Definition forget_common_ns_data (w : world) : world :=
  set_devs (map (set_common_ns_data None)) w.

Definition outcome_map {A : Type} (f : world -> world) (o : outcome A)
  : outcome A :=
  match o with
  | Ret a w => Ret a (f w)
  | Exit c w => Exit c (f w)
  | Undefined e w => Undefined e (f w)
  | Hang w => Hang (f w)
  | OutOfFuel => OutOfFuel
  end.

Definition blind {A : Type} (m : M A) : Prop :=
  forall w, m (forget_common_ns_data w)
            = outcome_map forget_common_ns_data (m w).

Lemma map_list_update {A B : Type} (g : A -> B) (l : list A) (n : nat)
      (x : A) :
  map g (list_update l n x) = list_update (map g l) n (g x).
Proof.
  revert n. induction l as [|h t IH]; intros [|n]; simpl; try reflexivity.
  rewrite IH. reflexivity.
Qed.

Lemma slot_forget (p : Z) (w : world) :
  slot p (forget_common_ns_data w)
  = option_map (set_common_ns_data None) (slot p w).
Proof.
  unfold slot. simpl. destruct (p <? 0); [reflexivity|].
  apply nth_error_map.
Qed.

Lemma blind_ret {A : Type} (a : A) : blind (ret a).
Proof. intros w. reflexivity. Qed.

Lemma blind_bind {A B : Type} (m : M A) (k : A -> M B) :
  blind m -> (forall a, blind (k a)) -> blind (bind m k).
Proof.
  intros Hm Hk w. unfold bind. rewrite Hm.
  destruct (m w); simpl; try reflexivity. apply Hk.
Qed.

Lemma blind_bind_ret {A B : Type} (a : A) (k : A -> M B) :
  blind (k a) -> blind (bind (ret a) k).
Proof. intros H w. exact (H w). Qed.

Lemma blind_gets {A : Type} (f : world -> A) :
  (forall w, f (forget_common_ns_data w) = f w) -> blind (gets f).
Proof. intros H w. unfold gets. rewrite H. reflexivity. Qed.

Lemma blind_modify (f : world -> world) :
  (forall w, f (forget_common_ns_data w) = forget_common_ns_data (f w)) ->
  blind (modify f).
Proof. intros H w. unfold modify. simpl. rewrite H. reflexivity. Qed.

Lemma blind_exit {A : Type} (c : Z) : blind (@exit A c).
Proof. intros w. reflexivity. Qed.

Lemma blind_undefined {A : Type} (f : fault) : blind (@undefined A f).
Proof. intros w. reflexivity. Qed.

Lemma blind_fprintf (s : stream) (fmt : string) (args : list arg) :
  blind (fprintf s fmt args).
Proof. intros w. reflexivity. Qed.

Lemma blind_printf (fmt : string) (args : list arg) : blind (printf fmt args).
Proof. intros w. reflexivity. Qed.

Lemma blind_perror (msg : string) : blind (perror msg).
Proof. intros w. reflexivity. Qed.

Lemma blind_load {A : Type} (p : Z) (field : dev -> A) :
  (forall d, field (set_common_ns_data None d) = field d) ->
  blind (load p field).
Proof.
  intros H w. unfold load. rewrite slot_forget.
  destruct (slot p w); simpl; [rewrite H|]; reflexivity.
Qed.

Lemma blind_store (p : Z) (f : dev -> dev) :
  (forall d, f (set_common_ns_data None d) = set_common_ns_data None (f d)) ->
  blind (store p f).
Proof.
  intros H w. unfold store. rewrite slot_forget.
  destruct (slot p w) as [d|]; simpl; [|reflexivity].
  unfold forget_common_ns_data, set_devs. simpl.
  rewrite map_list_update, H. reflexivity.
Qed.

Lemma blind_deref {A : Type} (o : option A) : blind (deref o).
Proof. destruct o; [apply blind_ret | apply blind_undefined]. Qed.

Lemma blind_initialized (o : option Z) : blind (initialized o).
Proof. destruct o; [apply blind_ret | apply blind_undefined]. Qed.

Lemma blind_scan (f : string -> scanned * string) : blind (scan f).
Proof. intros w. unfold scan. simpl. destruct (f (stdin w)); reflexivity. Qed.

Lemma blind_fgets (n : nat) : blind (fgets n).
Proof.
  intros w. unfold fgets. simpl.
  destruct (stdin w); [|destruct (read_line _ _)]; reflexivity.
Qed.

Lemma blind_discard_line : blind discard_line.
Proof.
  intros w. unfold discard_line. simpl.
  destruct (drop_line (stdin w)); reflexivity.
Qed.

Lemma blind_discard_line_or_eof : blind discard_line_or_eof.
Proof.
  intros w. unfold discard_line_or_eof. simpl.
  destruct (drop_line (stdin w)); reflexivity.
Qed.

Lemma blind_spdk_zmalloc : blind spdk_zmalloc.
Proof.
  intros w. unfold spdk_zmalloc. simpl.
  destruct (zmalloc_script w); reflexivity.
Qed.

Lemma blind_cmd_admin_raw (c : spdk_nvme_ctrlr) (cmd : spdk_nvme_cmd)
      (cb : admin_cb) (cb_arg : Z) :
  blind (spdk_nvme_ctrlr_cmd_admin_raw c cmd cb cb_arg).
Proof.
  intros w. unfold spdk_nvme_ctrlr_cmd_admin_raw, bind, modify, gets, ret.
  simpl. destruct (admin_raw_script w) as [|a l]; simpl.
  - reflexivity.
  - destruct (raw_rc a =? 0); reflexivity.
Qed.

Lemma blind_driver_command (call : driver_call) :
  blind (driver_command call).
Proof.
  intros w. unfold driver_command, bind, modify. simpl.
  destruct (command_script w); reflexivity.
Qed.

Lemma blind_for_loop (body : Z -> M unit) (count : nat) :
  (forall i, blind (body i)) -> forall lo, blind (for_loop lo count body).
Proof.
  intros Hb. induction count as [|n IH]; intros lo; simpl.
  - apply blind_ret.
  - apply blind_bind; [apply Hb | intros _; apply IH].
Qed.

Lemma blind_foreach_dev (body : Z -> M unit) :
  (forall i, blind (body i)) -> blind (foreach_dev body).
Proof.
  intros Hb. unfold foreach_dev.
  apply blind_bind; [apply blind_gets; reflexivity | intros n].
  apply blind_for_loop. exact Hb.
Qed.

Ltac blind_prim :=
  first
    [ apply blind_ret | apply blind_printf | apply blind_fprintf
    | apply blind_perror | apply blind_deref | apply blind_initialized
    | apply blind_scan | apply blind_fgets | apply blind_discard_line
    | apply blind_discard_line_or_eof | apply blind_spdk_zmalloc
    | apply blind_exit | apply blind_undefined
    | apply blind_cmd_admin_raw | apply blind_driver_command
    | (apply blind_load; reflexivity)
    | (apply blind_store; reflexivity)
    | (apply blind_gets; reflexivity)
    | (apply blind_modify; reflexivity) ].

Ltac blind_walk solve_leaf :=
  repeat
    match goal with
    | |- blind (bind (ret _) _) => apply blind_bind_ret
    | |- blind (bind (initialized (Some _)) _) => apply blind_bind_ret
    | |- blind (bind _ _) => apply blind_bind; [ | intro ]
    | |- blind (if ?b then _ else _) => destruct b
    | |- blind (match ?x with _ => _ end) => destruct x
    | |- blind (for_loop _ _ _) => apply blind_for_loop; intro
    | |- blind (foreach_dev _) => apply blind_foreach_dev; intro
    | |- blind (when _ _) => unfold when
    | |- blind _ => first [ blind_prim | solve_leaf ]
    | |- blind _ => progress cbv zeta
    end.

Section BlindOperations.

Variable parse : string -> option spdk_pci_addr.

Lemma blind_lbaf_at (nsdata : spdk_nvme_ns_data) (i : Z) :
  blind (lbaf_at nsdata i).
Proof. unfold lbaf_at. blind_walk fail. Qed.

Lemma blind_display_namespace (ns : spdk_nvme_ns) :
  blind (display_namespace ns).
Proof.
  unfold display_namespace, display_namespace_dpc.
  blind_walk ltac:(apply blind_lbaf_at).
Qed.

Lemma blind_display_controller (p model : Z) :
  blind (display_controller p model).
Proof.
  unfold display_controller.
  blind_walk ltac:(apply blind_display_namespace).
Qed.

Lemma blind_find_dev (a : spdk_pci_addr) (count : nat) :
  forall iter, blind (find_dev a iter count).
Proof.
  induction count as [|n IH]; intros iter; simpl.
  - apply blind_ret.
  - blind_walk ltac:(apply IH).
Qed.

Lemma blind_get_controller : blind (get_controller parse).
Proof.
  unfold get_controller.
  blind_walk ltac:(first [apply blind_display_controller
                         | apply blind_find_dev]).
Qed.

Lemma blind_get_lba_format (ns_data : spdk_nvme_ns_data) :
  blind (get_lba_format ns_data).
Proof. unfold get_lba_format. blind_walk ltac:(apply blind_lbaf_at). Qed.

Lemma blind_deliver (r : admin_req) : blind (deliver r).
Proof.
  unfold deliver. blind_walk fail.
Qed.

Lemma blind_run_callback (r : admin_req) : blind (run_callback r).
Proof.
  unfold run_callback, identify_common_ns_cb, identify_allocated_ns_cb.
  blind_walk fail.
Qed.

Lemma blind_complete_ready (cid : Z) (q : list admin_req) :
  blind (complete_ready cid q).
Proof.
  induction q as [|r q IH]; simpl.
  - apply blind_ret.
  - blind_walk ltac:(first [apply blind_deliver | apply blind_run_callback
                           | apply IH]).
Qed.

Lemma blind_process_admin_completions (c : spdk_nvme_ctrlr) :
  blind (spdk_nvme_ctrlr_process_admin_completions c).
Proof.
  unfold spdk_nvme_ctrlr_process_admin_completions.
  blind_walk ltac:(apply blind_complete_ready).
Qed.

Lemma blind_while_outstanding (p : Z) (body : M unit) (fuel : nat) :
  blind body -> blind (while_outstanding fuel p body).
Proof.
  intros Hb. induction fuel as [|f IH]; simpl.
  - intros w. reflexivity.
  - blind_walk ltac:(first [apply Hb | apply IH]).
Qed.

Lemma blind_print_ns_list (l : list Z) : blind (print_ns_list l).
Proof.
  induction l as [|x l IH]; simpl.
  - apply blind_ret.
  - blind_walk ltac:(apply IH).
Qed.

Lemma blind_get_allocated_nsid (fuel : nat) (p : Z) :
  blind (get_allocated_nsid fuel p).
Proof.
  unfold get_allocated_nsid.
  blind_walk ltac:(first [ apply blind_print_ns_list
                         | apply blind_process_admin_completions
                         | apply blind_while_outstanding ]).
Qed.

Lemma blind_attach_and_detach_ns (fuel : nat) (attachment_op : Z) :
  blind (attach_and_detach_ns parse fuel attachment_op).
Proof.
  unfold attach_and_detach_ns, ns_attach, spdk_nvme_ctrlr_attach_ns,
    spdk_nvme_ctrlr_detach_ns.
  blind_walk ltac:(first [ apply blind_get_controller
                         | apply blind_get_allocated_nsid ]).
Qed.

Lemma blind_delete_ns : blind (delete_ns parse).
Proof.
  unfold delete_ns, ns_manage_delete, spdk_nvme_ctrlr_delete_ns.
  blind_walk ltac:(apply blind_get_controller).
Qed.

Lemma blind_format_nvm : blind (format_nvm parse).
Proof.
  unfold format_nvm, format_nvm_choose, format_nvm_protection,
    format_nvm_confirm, nvme_manage_format, spdk_nvme_ctrlr_format.
  blind_walk ltac:(first [ apply blind_get_controller
                         | apply blind_get_lba_format
                         | apply blind_lbaf_at ]).
Qed.

Lemma blind_update_firmware_image : blind (update_firmware_image parse).
Proof.
  unfold update_firmware_image, update_firmware_image_open,
    spdk_nvme_ctrlr_update_firmware.
  blind_walk ltac:(apply blind_get_controller).
Qed.

End BlindOperations.

Section CommonNamespaceData.

Variable parse : string -> option spdk_pci_addr.

(** C4, as the code has it: delete, attach, detach and format (and
    firmware update) never look at a controller's common namespace data:
    run on a registry without that data they end the same way, with the
    same output and the same driver calls, as on the registry with it.
    Create does look: on a controller that supports namespace management
    but has no common namespace data it is refused with a report, no
    command is handed to the driver, and it returns to the menu. *)
Theorem operations_without_common_ns_data
        (fuel : nat) (attachment_op : Z) (w : world) :
  delete_ns parse (forget_common_ns_data w)
  = outcome_map forget_common_ns_data (delete_ns parse w)
  /\ attach_and_detach_ns parse fuel attachment_op (forget_common_ns_data w)
     = outcome_map forget_common_ns_data
         (attach_and_detach_ns parse fuel attachment_op w)
  /\ format_nvm parse (forget_common_ns_data w)
     = outcome_map forget_common_ns_data (format_nvm parse w)
  /\ update_firmware_image parse (forget_common_ns_data w)
     = outcome_map forget_common_ns_data (update_firmware_image parse w)
  /\ forall (w1 : world) (p : Z) (d : dev) (cd : spdk_nvme_ctrlr_data),
      get_controller parse w = Ret (Some p) w1 ->
      slot p w1 = Some d ->
      cdata d = Some cd ->
      oacs_ns_manage cd = true ->
      common_ns_data d = None ->
      let refused :=
        add_output
          (Print Stdout
             "Controller did not return common namespace capabilities\n" [])
          w1 in
      add_ns parse w = Ret tt refused /\ issued refused = issued w.
Proof.
  split; [apply blind_delete_ns|].
  split; [apply blind_attach_and_detach_ns|].
  split; [apply blind_format_nvm|].
  split; [apply blind_update_firmware_image|].
  intros w1 p d cd Hsel Hslot Hcd Hbit Hcommon refused. subst refused.
  split.
  - unfold add_ns.
    rewrite (bind_ret_inv _ _ _ _ _ Hsel).
    rewrite (bind_ret_inv _ _ _ _ _ (load_ret _ _ _ _ Hslot)).
    rewrite Hcd. cbn [deref]. rewrite bind_ret, Hbit. cbn [negb].
    rewrite (bind_ret_inv _ _ _ _ _ (load_ret _ _ _ _ Hslot)).
    rewrite Hcommon. reflexivity.
  - simpl. exact (get_controller_issued parse w w1 (Some p) Hsel).
Qed.

End CommonNamespaceData.

(** * The synchronous admin command of discovery *)

(** The world with slot [p] of [devs] replaced by [x]. *)
Definition put (p : Z) (x : dev) (w : world) : world :=
  set_devs (fun l => list_update l (Z.to_nat p) x) w.

Lemma list_update_twice {A : Type} (l : list A) (n : nat) (x y : A) :
  list_update (list_update l n x) n y = list_update l n y.
Proof.
  revert n. induction l as [|h t IH]; intros [|n]; simpl; try reflexivity.
  rewrite IH. reflexivity.
Qed.

Lemma put_put (p : Z) (x y : dev) (w : world) :
  put p y (put p x w) = put p y w.
Proof.
  unfold put, set_devs. simpl. rewrite list_update_twice. reflexivity.
Qed.

Lemma slot_put_eq (p : Z) (x d : dev) (w : world) :
  slot p w = Some d -> slot p (put p x w) = Some x.
Proof. apply slot_store_eq. Qed.

Lemma store_put (p : Z) (f : dev -> dev) (w : world) (d : dev) :
  slot p w = Some d -> store p f w = Ret tt (put p (f d) w).
Proof. apply store_ret. Qed.

(** What the completion of the identify command of [attach_cb] leaves in
    the slot: the buffer filled on success, released otherwise, and the
    counter back at zero. *)
Definition completed_common (c : spdk_nvme_ctrlr) (sc : Z) (d : dev) : dev :=
  set_outstanding_admin_cmds 0
    (set_common_ns_data
       (if sc =? SPDK_NVME_SC_SUCCESS
        then option_map (fun _ => identify_common_ns c) (common_ns_data d)
        else None) d).

Lemma identify_common_ns_cb_ret (p : Z) (cpl : spdk_nvme_cpl) (w : world)
      (d : dev) :
  slot p w = Some d ->
  identify_common_ns_cb p cpl w
  = Ret tt (put p (decr_outstanding
                     (if status_sc cpl =? SPDK_NVME_SC_SUCCESS then d
                      else set_common_ns_data None d)) w).
Proof.
  intros Hslot. unfold identify_common_ns_cb.
  destruct (status_sc cpl =? SPDK_NVME_SC_SUCCESS); cbn [negb].
  - rewrite bind_ret. apply (store_put _ _ _ _ Hslot).
  - rewrite (bind_ret_inv _ _ _ _ _ (store_put _ _ _ _ Hslot)).
    rewrite (store_put _ _ _ _ (slot_put_eq _ _ _ _ Hslot)).
    rewrite put_put. reflexivity.
Qed.

Lemma process_admin_completions_eq (c : spdk_nvme_ctrlr) (w : world) :
  spdk_nvme_ctrlr_process_admin_completions c w
  = bind (complete_ready (ctrlr_id c) (pending w))
         (fun rest => modify (set_pending rest)) w.
Proof. reflexivity. Qed.

Lemma complete_identify_common_due (c : spdk_nvme_ctrlr) (p sc : Z)
      (w : world) (d : dev) :
  slot p w = Some d ->
  outstanding_admin_cmds d = 1 ->
  complete_ready (ctrlr_id c)
    [{| req_ctrlr := c; req_cb := cb_identify_common_ns; req_arg := p;
        req_delay := O; req_sc := sc |}] w
  = Ret [] (put p (completed_common c sc d) w).
Proof.
  intros Hslot Hone.
  cbn [complete_ready req_ctrlr req_delay]. rewrite Z.eqb_refl.
  unfold deliver, run_callback. cbn [req_sc req_cb req_arg req_ctrlr].
  unfold completed_common.
  destruct (sc =? SPDK_NVME_SC_SUCCESS) eqn:Esc.
  - rewrite (bind_ret_inv _ _ _ _ _ (store_put _ _ _ _ Hslot)).
    rewrite (bind_ret_inv _ _ _ _ _
               (identify_common_ns_cb_ret _ _ _ _ (slot_put_eq _ _ _ _ Hslot))).
    cbn [status_sc]. rewrite Esc, put_put.
    unfold decr_outstanding. cbn [outstanding_admin_cmds set_common_ns_data].
    rewrite Hone. reflexivity.
  - rewrite bind_ret.
    rewrite (bind_ret_inv _ _ _ _ _ (identify_common_ns_cb_ret _ _ _ _ Hslot)).
    cbn [status_sc]. rewrite Esc.
    unfold decr_outstanding. cbn [outstanding_admin_cmds set_common_ns_data].
    rewrite Hone. reflexivity.
Qed.

Lemma poll_identify_common (c : spdk_nvme_ctrlr) (p sc : Z) (delay : nat) :
  forall (fuel : nat) (w : world) (d : dev),
    (delay + 2 <= fuel)%nat ->
    pending w = [{| req_ctrlr := c; req_cb := cb_identify_common_ns;
                    req_arg := p; req_delay := delay; req_sc := sc |}] ->
    slot p w = Some d ->
    outstanding_admin_cmds d = 1 ->
    while_outstanding fuel p (spdk_nvme_ctrlr_process_admin_completions c) w
    = Ret tt (set_pending [] (put p (completed_common c sc d) w)).
Proof.
  induction delay as [|k IH]; intros fuel w d Hfuel Hpend Hslot Hone.
  - destruct fuel as [|[|fuel]]; try lia.
    cbn [while_outstanding].
    rewrite (bind_ret_inv _ _ _ _ _ (load_ret _ _ _ _ Hslot)).
    rewrite Hone. change (1 =? 0) with false. cbv iota.
    assert (Hproc : spdk_nvme_ctrlr_process_admin_completions c w
                    = Ret tt (set_pending []
                                (put p (completed_common c sc d) w))).
    { rewrite process_admin_completions_eq, Hpend.
      rewrite (bind_ret_inv _ _ _ _ _
                 (complete_identify_common_due c p sc w d Hslot Hone)).
      reflexivity. }
    rewrite (bind_ret_inv _ _ _ _ _ Hproc).
    assert (Hslot' : slot p (set_pending [] (put p (completed_common c sc d) w))
                     = Some (completed_common c sc d)).
    { exact (slot_put_eq _ _ _ _ Hslot). }
    rewrite (bind_ret_inv _ _ _ _ _ (load_ret _ _ _ _ Hslot')).
    reflexivity.
  - destruct fuel as [|fuel]; try lia.
    cbn [while_outstanding].
    rewrite (bind_ret_inv _ _ _ _ _ (load_ret _ _ _ _ Hslot)).
    rewrite Hone. change (1 =? 0) with false. cbv iota.
    assert (Hproc : spdk_nvme_ctrlr_process_admin_completions c w
                    = Ret tt (set_pending
                                [{| req_ctrlr := c;
                                    req_cb := cb_identify_common_ns;
                                    req_arg := p; req_delay := k;
                                    req_sc := sc |}] w)).
    { rewrite process_admin_completions_eq, Hpend.
      cbn [complete_ready req_ctrlr req_delay]. rewrite Z.eqb_refl.
      reflexivity. }
    rewrite (bind_ret_inv _ _ _ _ _ Hproc).
    rewrite (IH fuel _ d); [reflexivity | lia | reflexivity | exact Hslot
                            | exact Hone].
Qed.

Definition default_raw_answer : raw_answer :=
  {| raw_rc := 0; raw_delay := O; raw_sc := 0 |}.

Lemma spdk_zmalloc_eq (w : world) :
  spdk_zmalloc w
  = Ret (hd true (zmalloc_script w))
        (set_zmalloc_script (tl (zmalloc_script w)) w).
Proof.
  unfold spdk_zmalloc. destruct w. simpl.
  destruct zmalloc_script0; reflexivity.
Qed.

Lemma cmd_admin_raw_eq (c : spdk_nvme_ctrlr) (cmd : spdk_nvme_cmd)
      (cb : admin_cb) (cb_arg : Z) (w : world) :
  spdk_nvme_ctrlr_cmd_admin_raw c cmd cb cb_arg w
  = let a := hd default_raw_answer (admin_raw_script w) in
    let w1 := set_admin_raw_script (tl (admin_raw_script w))
                (add_issued (CallAdminRaw (ctrlr_id c) cmd) w) in
    if raw_rc a =? 0
    then Ret 0 (set_pending
                  (pending w ++ [{| req_ctrlr := c; req_cb := cb;
                                    req_arg := cb_arg;
                                    req_delay := raw_delay a;
                                    req_sc := raw_sc a |}]) w1)
    else Ret (raw_rc a) w1.
Proof.
  unfold spdk_nvme_ctrlr_cmd_admin_raw, bind, modify, gets, ret.
  destruct w. simpl. destruct admin_raw_script0 as [|a l]; simpl.
  - reflexivity.
  - destruct (raw_rc a =? 0); reflexivity.
Qed.

(** The slot [attach_cb] fills before it asks for the common namespace
    data. *)
Definition registered (info : spdk_nvme_probe_info) (c : spdk_nvme_ctrlr)
           (d : dev) : dev :=
  set_cdata (Some (ctrlr_get_data c))
    (set_ctrlr (Some c) (set_pci_addr (probe_pci_addr info) d)).

(** [attach_cb] on a free slot of the array, with no command in flight:
    it returns, the slot holds the controller with its address, the
    registry has grown by one, nothing is left in flight and the counter
    is back at zero, whether the buffer could be allocated or not, whether
    the driver took the command or not, and whatever the completion
    status. *)
Ltac close_registered Hpend Hzero :=
  split; [reflexivity|];
  split; [reflexivity|];
  split; [first [reflexivity | exact Hpend]|];
  split; [reflexivity|];
  split; [reflexivity|];
  split; [reflexivity|];
  split; [first [reflexivity | exact Hzero]|];
  split; [first [left; reflexivity | right; reflexivity] | reflexivity].

Lemma attach_cb_registers (fuel : nat) (info : spdk_nvme_probe_info)
      (c : spdk_nvme_ctrlr) (w : world) (d0 : dev) :
  slot (num_devs w) w = Some d0 ->
  outstanding_admin_cmds d0 = 0 ->
  pending w = [] ->
  num_devs w + 1 <= INT_MAX ->
  (raw_delay (hd default_raw_answer (admin_raw_script w)) + 2 <= fuel)%nat ->
  exists (w' : world) (d' : dev),
    attach_cb fuel info c w = Ret tt w'
    /\ devs w' = list_update (devs w) (Z.to_nat (num_devs w)) d'
    /\ num_devs w' = num_devs w + 1
    /\ pending w' = []
    /\ pci_addr d' = probe_pci_addr info
    /\ ctrlr d' = Some c
    /\ cdata d' = Some (ctrlr_get_data c)
    /\ outstanding_admin_cmds d' = 0
    /\ (admin_raw_script w' = admin_raw_script w
        \/ admin_raw_script w' = tl (admin_raw_script w))
    /\ bus_scan w' = bus_scan w.
Proof.
  intros Hslot Hzero Hpend Hmax Hfuel.
  pose proof (slot_nonneg _ _ _ Hslot) as Hn.
  remember (attach_cb fuel info c w) as r eqn:Hr.
  set (n := num_devs w) in *.
  assert (Hint : to_int (n + 1) = n + 1).
  { apply to_int_id. unfold INT_MIN, INT_MAX in *. lia. }
  unfold attach_cb in Hr.
  rewrite bind_gets in Hr. fold n in Hr.
  rewrite bind_modify in Hr. rewrite Hint in Hr.
  set (w1 := set_num_devs (n + 1) w) in *.
  assert (Hslot1 : slot n w1 = Some d0) by exact Hslot.
  rewrite (bind_ret_inv _ _ _ _ _ (store_put _ _ _ _ Hslot1)) in Hr.
  pose proof (slot_put_eq n (set_pci_addr (probe_pci_addr info) d0) d0 w1
                Hslot1) as Hslot2.
  rewrite (bind_ret_inv _ _ _ _ _ (store_put _ _ _ _ Hslot2)) in Hr.
  rewrite put_put in Hr.
  pose proof (slot_put_eq n
                (set_ctrlr (Some c) (set_pci_addr (probe_pci_addr info) d0))
                d0 w1 Hslot1) as Hslot3.
  rewrite (bind_ret_inv _ _ _ _ _ (load_ret _ _ _ _ Hslot3)) in Hr.
  cbn [ctrlr set_ctrlr deref] in Hr. rewrite bind_ret in Hr.
  rewrite (bind_ret_inv _ _ _ _ _ (store_put _ _ _ _ Hslot3)) in Hr.
  rewrite put_put in Hr. fold (registered info c d0) in Hr.
  pose proof (slot_put_eq n (registered info c d0) d0 w1 Hslot1) as Hslot4.
  rewrite (bind_ret_inv _ _ _ _ _ (spdk_zmalloc_eq _)) in Hr.
  set (w2 := set_zmalloc_script
               (tl (zmalloc_script (put n (registered info c d0) w1)))
               (put n (registered info c d0) w1)) in *.
  assert (Hslot5 : slot n w2 = Some (registered info c d0)) by exact Hslot4.
  rewrite (bind_ret_inv _ _ _ _ _ (store_put _ _ _ _ Hslot5)) in Hr.
  destruct (hd true (zmalloc_script (put n (registered info c d0) w1)))
    eqn:Ebuf; cbn [negb] in Hr.
  - (* the buffer is there *)
    set (dB := set_common_ns_data (Some ns_data_zero) (registered info c d0))
      in *.
    pose proof (slot_put_eq n dB _ w2 Hslot5) as Hslot6.
    rewrite (bind_ret_inv _ _ _ _ _ (store_put _ _ _ _ Hslot6)) in Hr.
    rewrite put_put in Hr.
    pose proof (slot_put_eq n (incr_outstanding dB) _ w2 Hslot5) as Hslot7.
    unfold bind at 1 in Hr. rewrite cmd_admin_raw_eq in Hr.
    change (pending (put n (incr_outstanding dB) w2)) with (pending w) in Hr.
    rewrite Hpend in Hr.
    change (admin_raw_script (put n (incr_outstanding dB) w2))
      with (admin_raw_script w) in Hr.
    set (a := hd default_raw_answer (admin_raw_script w)) in *.
    cbv zeta in Hr.
    assert (Hone : outstanding_admin_cmds (incr_outstanding dB) = 1).
    { unfold incr_outstanding, dB, registered. simpl. rewrite Hzero.
      reflexivity. }
    destruct (raw_rc a =? 0) eqn:Erc.
    + (* queued *)
      cbv iota beta in Hr.
      change (negb (0 =? 0)) with false in Hr. cbv iota in Hr.
      rewrite bind_ret in Hr.
      match type of Hr with
      | context [while_outstanding fuel n _ ?W] => set (w3 := W) in *
      end.
      assert (Hslot8 : slot n w3 = Some (incr_outstanding dB))
        by exact Hslot7.
      rewrite (poll_identify_common c n (raw_sc a) (raw_delay a) fuel w3
                 (incr_outstanding dB) Hfuel eq_refl Hslot8 Hone) in Hr.
      eexists. eexists. split; [exact Hr|].
      unfold w3, w2, w1, put, set_devs. cbn.
      rewrite !list_update_twice.
      close_registered Hpend Hzero.
    + (* rejected *)
      cbv iota beta in Hr.
      match type of Hr with
      | _ = bind _ _ ?W => set (w3 := W) in *
      end.
      assert (Hslot8 : slot n w3 = Some (incr_outstanding dB))
        by exact Hslot7.
      rewrite Erc in Hr. cbn [negb] in Hr.
      pose proof (slot_put_eq n (decr_outstanding (incr_outstanding dB))
                    _ w3 Hslot8) as Hslot9.
      assert (Hundo : (store n decr_outstanding ;;
                       store n (set_common_ns_data None)) w3
                      = Ret tt (put n (set_common_ns_data None
                                         (decr_outstanding
                                            (incr_outstanding dB))) w3)).
      { rewrite (bind_ret_inv _ _ _ _ _ (store_put _ _ _ _ Hslot8)).
        rewrite (store_put _ _ _ _ Hslot9), put_put. reflexivity. }
      rewrite (bind_ret_inv _ _ _ _ _ Hundo) in Hr.
      destruct fuel as [|fuel]; [lia|]. cbn [while_outstanding] in Hr.
      match type of Hr with
      | context [put n ?x w3] =>
          pose proof (slot_put_eq n x _ w3 Hslot8) as Hslot10
      end.
      rewrite (bind_ret_inv _ _ _ _ _ (load_ret _ _ _ _ Hslot10)) in Hr.
      unfold decr_outstanding in Hr.
      cbn [outstanding_admin_cmds set_outstanding_admin_cmds
             set_common_ns_data] in Hr.
      rewrite Hone in Hr. change (to_int (1 - 1)) with 0 in Hr.
      change (0 =? 0) with true in Hr. cbv iota in Hr.
      eexists. eexists. split; [exact Hr|].
      unfold w3, w2, w1, put, set_devs. cbn.
      rewrite ?list_update_twice.
      close_registered Hpend Hzero.
  - (* no buffer *)
    eexists. eexists. split; [exact Hr|].
    unfold w2, w1, put, set_devs. cbn.
    rewrite ?list_update_twice.
    close_registered Hpend Hzero.
Qed.

(** * Discovery fills the registry in discovery order *)

Lemma firstn_list_update_S {A : Type} (l : list A) (n : nat) (x : A) :
  (n < List.length l)%nat ->
  firstn (S n) (list_update l n x) = firstn n l ++ [x].
Proof.
  revert n. induction l as [|h t IH]; intros [|n] H; simpl in *; try lia.
  - reflexivity.
  - f_equal. apply IH. lia.
Qed.

Lemma skipn_list_update_S {A : Type} (l : list A) (n : nat) (x : A) :
  skipn (S n) (list_update l n x) = skipn (S n) l.
Proof.
  revert n. induction l as [|h t IH]; intros [|n]; simpl; try reflexivity.
  apply IH.
Qed.

Lemma skipn_nth_error {A : Type} (l : list A) (n : nat) (x : A) :
  nth_error l n = Some x -> skipn n l = x :: skipn (S n) l.
Proof.
  revert n. induction l as [|h t IH]; intros [|n] H; simpl in *;
    try discriminate.
  - inversion H. reflexivity.
  - apply IH. exact H.
Qed.

(** The registry is ready for discovery: the slots from [num_devs] on are
    free, with their counters at zero as in static storage, nothing is in
    flight, and every answer the driver will give to an admin command
    comes within the polls the fuel allows. *)
Record ready (fuel : nat) (w : world) : Prop := {
  ready_num : 0 <= num_devs w;
  ready_int : Z.of_nat (List.length (devs w)) <= INT_MAX;
  ready_free : Forall (fun d => outstanding_admin_cmds d = 0)
                      (skipn (Z.to_nat (num_devs w)) (devs w));
  ready_pending : pending w = [];
  ready_fuel : (2 <= fuel)%nat;
  ready_answers : Forall (fun a => (raw_delay a + 2 <= fuel)%nat)
                         (admin_raw_script w)
}.

Definition registered_addresses (w : world) : list spdk_pci_addr :=
  map pci_addr (firstn (Z.to_nat (num_devs w)) (devs w)).

Definition discovered_addresses
           (l : list (spdk_nvme_probe_info * spdk_nvme_ctrlr))
  : list spdk_pci_addr :=
  map (fun x => probe_pci_addr (fst x)) l.

Lemma attach_cb_appends (fuel : nat) (info : spdk_nvme_probe_info)
      (c : spdk_nvme_ctrlr) (w : world) :
  ready fuel w ->
  num_devs w < Z.of_nat (List.length (devs w)) ->
  exists w',
    attach_cb fuel info c w = Ret tt w'
    /\ ready fuel w'
    /\ num_devs w' = num_devs w + 1
    /\ List.length (devs w') = List.length (devs w)
    /\ registered_addresses w'
       = registered_addresses w ++ [probe_pci_addr info].
Proof.
  intros [Hnum Hint Hfree Hpend Hfuel Hans] Hroom.
  set (n := Z.to_nat (num_devs w)) in *.
  assert (Hlt : (n < List.length (devs w))%nat) by (unfold n; lia).
  destruct (nth_error (devs w) n) as [d0|] eqn:Hnth;
    [|apply nth_error_None in Hnth; lia].
  assert (Hslot : slot (num_devs w) w = Some d0).
  { unfold slot. destruct (num_devs w <? 0) eqn:E; [lia|]. exact Hnth. }
  rewrite (skipn_nth_error _ _ _ Hnth) in Hfree.
  inversion Hfree as [|? ? Hzero Hrest]; subst.
  assert (Hdelay : (raw_delay (hd default_raw_answer (admin_raw_script w)) + 2
                    <= fuel)%nat).
  { destruct (admin_raw_script w) as [|a l]; simpl; [lia|].
    inversion Hans; assumption. }
  destruct (attach_cb_registers fuel info c w d0 Hslot Hzero Hpend
              ltac:(lia) Hdelay)
    as [w' [d' [Hrun [Hdevs [Hn' [Hp' [Ha [_ [_ [Hz [Hscript _]]]]]]]]]]].
  exists w'. split; [exact Hrun|].
  assert (Hlen : List.length (devs w') = List.length (devs w)).
  { rewrite Hdevs. apply length_list_update. }
  assert (Hn'' : Z.to_nat (num_devs w') = S n).
  { rewrite Hn'. unfold n. lia. }
  split; [|split; [exact Hn'|split; [exact Hlen|]]].
  - constructor.
    + lia.
    + rewrite Hlen. exact Hint.
    + rewrite Hn'', Hdevs. fold n. rewrite skipn_list_update_S. exact Hrest.
    + exact Hp'.
    + exact Hfuel.
    + destruct Hscript as [E|E]; rewrite E; [exact Hans|].
      destruct (admin_raw_script w); [constructor|].
      inversion Hans; assumption.
  - unfold registered_addresses. rewrite Hn'', Hdevs. fold n.
    rewrite firstn_list_update_S by exact Hlt.
    rewrite map_app. simpl. rewrite Ha. reflexivity.
Qed.

Lemma probe_devices_appends (fuel : nat)
      (l : list (spdk_nvme_probe_info * spdk_nvme_ctrlr)) :
  forall w : world,
    ready fuel w ->
    num_devs w + Z.of_nat (List.length l) <= Z.of_nat (List.length (devs w)) ->
    exists w',
      probe_devices fuel l w = Ret tt w'
      /\ ready fuel w'
      /\ num_devs w' = num_devs w + Z.of_nat (List.length l)
      /\ List.length (devs w') = List.length (devs w)
      /\ registered_addresses w'
         = registered_addresses w ++ discovered_addresses l.
Proof.
  induction l as [|[info c] l IH]; intros w Hready Hroom.
  - exists w. simpl. rewrite app_nil_r, Z.add_0_r. auto.
  - cbn [List.length] in Hroom.
    destruct (attach_cb_appends fuel info c w Hready ltac:(lia))
      as [w1 [Hrun [Hready1 [Hn1 [Hlen1 Haddr1]]]]].
    destruct (IH w1 Hready1 ltac:(rewrite Hn1, Hlen1; lia))
      as [w' [Hrun' [Hready' [Hn' [Hlen' Haddr']]]]].
    exists w'. cbn [probe_devices probe_cb].
    rewrite (bind_ret_inv _ _ _ _ _ Hrun).
    split; [exact Hrun'|]. split; [exact Hready'|].
    split; [rewrite Hn', Hn1; cbn [List.length]; lia|].
    split; [rewrite Hlen', Hlen1; reflexivity|].
    rewrite Haddr', Haddr1. unfold discovered_addresses. simpl.
    rewrite <- app_assoc. reflexivity.
Qed.

(** * The sort of the registry *)

Section Sorting.

Context {A : Type} (cmp : A -> A -> Z).

Hypothesis cmp_connex : forall a b : A, ~ cmp a b <= 0 -> cmp b a <= 0.

Let le (a b : A) : Prop := cmp a b <= 0.

Lemma qsort_insert_perm (x : A) (l : list A) :
  Permutation (qsort_insert cmp x l) (x :: l).
Proof.
  induction l as [|h t IH]; simpl.
  - apply Permutation_refl.
  - destruct (cmp x h <=? 0).
    + apply Permutation_refl.
    + eapply perm_trans; [apply perm_skip; exact IH | apply perm_swap].
Qed.

Lemma qsort_perm (l : list A) : Permutation (qsort cmp l) l.
Proof.
  induction l as [|h t IH]; simpl.
  - apply perm_nil.
  - eapply perm_trans; [apply qsort_insert_perm | apply perm_skip; exact IH].
Qed.

Lemma qsort_insert_sorted (x : A) (l : list A) :
  Sorted le l -> Sorted le (qsort_insert cmp x l).
Proof.
  induction l as [|h t IH]; intros Hs; simpl.
  - repeat constructor.
  - destruct (cmp x h <=? 0) eqn:E.
    + constructor; [exact Hs|]. constructor. unfold le. lia.
    + inversion Hs as [|? ? Ht Hhd]; subst.
      constructor; [apply IH; exact Ht|].
      assert (Hhx : le h x) by (apply cmp_connex; lia).
      destruct t as [|h' t']; simpl.
      * constructor. exact Hhx.
      * destruct (cmp x h' <=? 0); constructor; [exact Hhx|].
        inversion Hhd. assumption.
Qed.

Lemma qsort_sorted (l : list A) : Sorted le (qsort cmp l).
Proof.
  induction l as [|h t IH]; simpl.
  - constructor.
  - apply qsort_insert_sorted. exact IH.
Qed.

End Sorting.

Lemma spdk_pci_addr_compare_connex (a b : spdk_pci_addr) :
  ~ spdk_pci_addr_compare a b <= 0 -> spdk_pci_addr_compare b a <= 0.
Proof.
  unfold spdk_pci_addr_compare.
  repeat match goal with
         | |- context [?x <? ?y] =>
             let E := fresh "E" in
             destruct (x <? y) eqn:E;
             [apply Z.ltb_lt in E | apply Z.ltb_ge in E]
         end; lia.
Qed.

Lemma cmp_devs_connex (a b : dev) :
  ~ cmp_devs a b <= 0 -> cmp_devs b a <= 0.
Proof. apply spdk_pci_addr_compare_connex. Qed.

(** The registered part of the array, in the order the program walks it. *)
Definition registry (w : world) : list dev :=
  firstn (Z.to_nat (num_devs w)) (devs w).

Lemma qsort_devs_sorts (w : world) :
  0 <= num_devs w <= Z.of_nat (List.length (devs w)) ->
  exists w',
    qsort_devs w = Ret tt w'
    /\ num_devs w' = num_devs w
    /\ registry w' = qsort cmp_devs (registry w)
    /\ skipn (Z.to_nat (num_devs w)) (devs w')
       = skipn (Z.to_nat (num_devs w)) (devs w).
Proof.
  intros Hn. unfold qsort_devs.
  destruct (num_devs w <? 0) eqn:E1; [lia|].
  destruct (Z.of_nat (List.length (devs w)) <? num_devs w) eqn:E2; [lia|].
  cbn [orb]. eexists. split; [reflexivity|]. split; [reflexivity|].
  unfold registry. cbn [devs num_devs set_devs].
  set (n := Z.to_nat (num_devs w)).
  assert (Hlen : List.length (qsort cmp_devs (firstn n (devs w))) = n).
  { rewrite (Permutation_length (qsort_perm cmp_devs _)).
    apply firstn_length_le. unfold n. lia. }
  split.
  - rewrite firstn_app, Hlen, Nat.sub_diag. cbn [firstn].
    rewrite app_nil_r. rewrite <- Hlen at 1. apply firstn_all.
  - rewrite skipn_app, Hlen, Nat.sub_diag. cbn [skipn].
    rewrite <- Hlen at 1. rewrite skipn_all. reflexivity.
Qed.

(** * Listing and selection leave the registry as it is *)

Definition keeps_registry {A : Type} (m : M A) : Prop :=
  forall w w', world_of (m w) = Some w' ->
               devs w' = devs w /\ num_devs w' = num_devs w.

Lemma keeps_ret {A : Type} (a : A) : keeps_registry (ret a).
Proof. intros w w' E. inversion E. auto. Qed.

Lemma keeps_bind {A B : Type} (m : M A) (k : A -> M B) :
  keeps_registry m -> (forall a, keeps_registry (k a)) ->
  keeps_registry (bind m k).
Proof.
  intros Hm Hk w w' E.
  destruct (bind_world_inv m k w w' E) as [[a [w1 [E1 E2]]]|[E1 _]].
  - destruct (Hm w w1) as [D1 N1]; [rewrite E1; reflexivity|].
    destruct (Hk a w1 w' E2) as [D2 N2].
    split; congruence.
  - exact (Hm w w' E1).
Qed.

Lemma keeps_prim {A : Type} (m : M A) :
  (forall w, match m w with
             | Ret _ w' | Exit _ w' | Undefined _ w' | Hang w' =>
                 devs w' = devs w /\ num_devs w' = num_devs w
             | OutOfFuel => True
             end) ->
  keeps_registry m.
Proof.
  intros H w w' E. specialize (H w).
  destruct (m w); simpl in E; inversion E; subst; exact H.
Qed.

Lemma keeps_printf (fmt : string) (args : list arg) :
  keeps_registry (printf fmt args).
Proof. apply keeps_prim. intros w. simpl. auto. Qed.

Lemma keeps_gets {A : Type} (f : world -> A) : keeps_registry (gets f).
Proof. apply keeps_prim. intros w. simpl. auto. Qed.

Lemma keeps_undefined {A : Type} (f : fault) :
  keeps_registry (@undefined A f).
Proof. apply keeps_prim. intros w. simpl. auto. Qed.

Lemma keeps_load {A : Type} (p : Z) (field : dev -> A) :
  keeps_registry (load p field).
Proof.
  apply keeps_prim. intros w. unfold load. destruct (slot p w); simpl; auto.
Qed.

Lemma keeps_deref {A : Type} (o : option A) : keeps_registry (deref o).
Proof. destruct o; [apply keeps_ret | apply keeps_undefined]. Qed.

Lemma keeps_fgets (n : nat) : keeps_registry (fgets n).
Proof.
  apply keeps_prim. intros w. unfold fgets.
  destruct (stdin w); [|destruct (read_line _ _)]; simpl; auto.
Qed.

Lemma keeps_discard_line_or_eof : keeps_registry discard_line_or_eof.
Proof.
  apply keeps_prim. intros w. unfold discard_line_or_eof.
  destruct (drop_line _); simpl; auto.
Qed.

Lemma keeps_for_loop (body : Z -> M unit) (count : nat) :
  (forall i, keeps_registry (body i)) ->
  forall lo, keeps_registry (for_loop lo count body).
Proof.
  intros Hb. induction count as [|n IH]; intros lo; simpl.
  - apply keeps_ret.
  - apply keeps_bind; [apply Hb | intros _; apply IH].
Qed.

Ltac keeps_walk solve_leaf :=
  repeat
    match goal with
    | |- keeps_registry (bind _ _) => apply keeps_bind; [ | intro ]
    | |- keeps_registry (if ?b then _ else _) => destruct b
    | |- keeps_registry (match ?x with _ => _ end) => destruct x
    | |- keeps_registry (for_loop _ _ _) => apply keeps_for_loop; intro
    | |- keeps_registry (foreach_dev _) => unfold foreach_dev
    | |- keeps_registry (when _ _) => unfold when
    | |- keeps_registry _ =>
        first [ apply keeps_ret | apply keeps_printf | apply keeps_gets
              | apply keeps_undefined | apply keeps_load | apply keeps_deref
              | apply keeps_fgets | apply keeps_discard_line_or_eof
              | solve_leaf ]
    | |- keeps_registry _ => progress cbv zeta
    end.

Section Listing.

Variable parse : string -> option spdk_pci_addr.

Lemma keeps_display_controller (p model : Z) :
  keeps_registry (display_controller p model).
Proof.
  unfold display_controller, display_namespace, display_namespace_dpc,
    lbaf_at.
  keeps_walk fail.
Qed.

Lemma keeps_display_controller_list : keeps_registry display_controller_list.
Proof.
  unfold display_controller_list.
  keeps_walk ltac:(apply keeps_display_controller).
Qed.

Lemma keeps_find_dev (a : spdk_pci_addr) (count : nat) :
  forall iter, keeps_registry (find_dev a iter count).
Proof.
  induction count as [|n IH]; intros iter; simpl.
  - apply keeps_ret.
  - keeps_walk ltac:(apply IH).
Qed.

Lemma keeps_get_controller : keeps_registry (get_controller parse).
Proof.
  unfold get_controller.
  keeps_walk ltac:(first [apply keeps_display_controller
                         | apply keeps_find_dev]).
Qed.

(** C3, as the code has it: discovery fills the registry in discovery
    order, one slot for each controller on the bus; [main] then sorts the
    registry itself, in place, so that from then on the registry holds the
    same controllers in ascending order of PCI address; listing the
    controllers and selecting one walk the registry in that order and
    leave it as it is. *)
Theorem registry_order (fuel : nat) (w : world) :
  ready fuel w ->
  num_devs w = 0 ->
  Z.of_nat (List.length (bus_scan w)) <= Z.of_nat (List.length (devs w)) ->
  (exists w1 w2 : world,
      spdk_nvme_probe fuel w = Ret (spdk_nvme_probe_rc w1) w1
      /\ num_devs w1 = Z.of_nat (List.length (bus_scan w))
      /\ map pci_addr (registry w1) = discovered_addresses (bus_scan w)
      /\ qsort_devs w1 = Ret tt w2
      /\ num_devs w2 = num_devs w1
      /\ Permutation (registry w2) (registry w1)
      /\ Sorted (fun a b => cmp_devs a b <= 0) (registry w2))
  /\ (forall w0 w' : world,
         world_of (display_controller_list w0) = Some w'
         \/ world_of (get_controller parse w0) = Some w' ->
         registry w' = registry w0).
Proof.
  intros Hready Hzero Hroom. split.
  - destruct (probe_devices_appends fuel (bus_scan w) w Hready
                ltac:(rewrite Hzero; lia))
      as [w1 [Hrun [Hready1 [Hn1 [Hlen1 Haddr1]]]]].
    rewrite Hzero in Hn1. cbn [Z.add] in Hn1.
    destruct (qsort_devs_sorts w1) as [w2 [Hsort [Hn2 [Hreg2 _]]]].
    { rewrite Hn1, Hlen1. lia. }
    exists w1, w2.
    split.
    { unfold spdk_nvme_probe. rewrite bind_gets.
      rewrite (bind_ret_inv _ _ _ _ _ Hrun). reflexivity. }
    split; [exact Hn1|].
    split.
    { change (map pci_addr (registry w1)) with (registered_addresses w1).
      rewrite Haddr1. unfold registered_addresses. rewrite Hzero.
      reflexivity. }
    split; [exact Hsort|]. split; [exact Hn2|].
    rewrite Hreg2. split.
    + apply qsort_perm.
    + apply qsort_sorted. exact cmp_devs_connex.
  - intros w0 w' [H|H].
    + destruct (keeps_display_controller_list w0 w' H) as [D N].
      unfold registry. rewrite D, N. reflexivity.
    + destruct (keeps_get_controller w0 w' H) as [D N].
      unfold registry. rewrite D, N. reflexivity.
Qed.

End Listing.

(** * The registry's capacity *)

(** C2, what the code does: with [MAX_DEVS] controllers registered,
    [attach_cb] takes the slot after the last one of the array without any
    check: [num_devs] becomes [MAX_DEVS + 1] and the first store goes
    outside [devs]; no capacity error is reported. *)
Theorem attach_cb_beyond_capacity (fuel : nat) (info : spdk_nvme_probe_info)
        (c : spdk_nvme_ctrlr) (w : world) :
  num_devs w = MAX_DEVS ->
  List.length (devs w) = Z.to_nat MAX_DEVS ->
  attach_cb fuel info c w
  = Undefined (OutOfBounds MAX_DEVS) (set_num_devs (MAX_DEVS + 1) w).
Proof.
  intros Hnum Hlen. unfold attach_cb.
  rewrite bind_gets, bind_modify, Hnum.
  change (to_int (MAX_DEVS + 1)) with (MAX_DEVS + 1).
  assert (Hslot : slot MAX_DEVS (set_num_devs (MAX_DEVS + 1) w) = None).
  { unfold slot. cbn [devs set_num_devs].
    change (MAX_DEVS <? 0) with false. cbv iota.
    apply nth_error_None. rewrite Hlen. apply Nat.le_refl. }
  unfold bind, store. rewrite Hslot. reflexivity.
Qed.

(** * The synchronous admin command of attach and detach *)

(** C1, what the code does when the driver refuses the identify command
    of [get_allocated_nsid]: the function reports the failure and returns
    0 without entering the poll loop, but the increment of the in-flight
    counter is not taken back: the counter is one more than before the
    call, with nothing in flight that could bring it down. *)
Theorem get_allocated_nsid_submission_failure
        (fuel : nat) (p : Z) (w : world) (d : dev) (c : spdk_nvme_ctrlr)
        (a : raw_answer) (rest : list raw_answer) :
  slot p w = Some d ->
  ctrlr d = Some c ->
  hd true (zmalloc_script w) = true ->
  admin_raw_script w = a :: rest ->
  raw_rc a <> 0 ->
  INT_MIN <= outstanding_admin_cmds d < INT_MAX ->
  exists (w' : world) (d' : dev),
    get_allocated_nsid fuel p w = Ret 0 w'
    /\ slot p w' = Some d'
    /\ outstanding_admin_cmds d' = outstanding_admin_cmds d + 1
    /\ pending w' = pending w
    /\ last_output w' = Some (Print Stdout "Identify command failed\n" []).
Proof.
  intros Hslot Hc Hbuf Hscript Hrc Hrange.
  remember (get_allocated_nsid fuel p w) as r eqn:Hr.
  unfold get_allocated_nsid in Hr.
  rewrite (bind_ret_inv _ _ _ _ _ (spdk_zmalloc_eq _)) in Hr.
  rewrite Hbuf in Hr. cbn [negb] in Hr. rewrite bind_modify in Hr.
  match type of Hr with
  | _ = bind _ _ ?W => set (w1 := W) in *
  end.
  assert (Hslot1 : slot p w1 = Some d) by exact Hslot.
  rewrite (bind_ret_inv _ _ _ _ _ (store_put _ _ _ _ Hslot1)) in Hr.
  pose proof (slot_put_eq p (incr_outstanding d) d w1 Hslot1) as Hslot2.
  rewrite (bind_ret_inv _ _ _ _ _ (load_ret _ _ _ _ Hslot2)) in Hr.
  cbn [ctrlr incr_outstanding set_outstanding_admin_cmds] in Hr.
  rewrite Hc in Hr. cbn [deref] in Hr. rewrite bind_ret in Hr.
  unfold bind at 1 in Hr. rewrite cmd_admin_raw_eq in Hr.
  change (admin_raw_script (put p (incr_outstanding d) w1))
    with (admin_raw_script w) in Hr.
  rewrite Hscript in Hr. cbn [hd tl] in Hr. cbv zeta in Hr.
  destruct (raw_rc a =? 0) eqn:Erc; [apply Z.eqb_eq in Erc; contradiction|].
  cbv iota beta in Hr. rewrite Erc in Hr. cbn [negb] in Hr.
  rewrite bind_printf, bind_modify in Hr.
  eexists. exists (incr_outstanding d). split; [exact Hr|].
  split; [exact (slot_put_eq _ _ _ _ Hslot1)|].
  split.
  { unfold incr_outstanding. cbn [outstanding_admin_cmds
                                    set_outstanding_admin_cmds].
    apply to_int_id. unfold INT_MIN, INT_MAX in *. lia. }
  split; [reflexivity|].
  unfold last_output. cbn. rewrite rev_app_distr. reflexivity.
Qed.

(** The poll loop of [get_allocated_nsid]. *)
Definition poll_allocated (fuel : nat) (p : Z) : M unit :=
  while_outstanding fuel p
    (c <- load p ctrlr ;;
     c <- deref c ;;
     spdk_nvme_ctrlr_process_admin_completions c).

Lemma poll_step (p : Z) (w w' : world) (d : dev) (c : spdk_nvme_ctrlr)
      (fuel : nat) :
  slot p w = Some d ->
  ctrlr d = Some c ->
  outstanding_admin_cmds d <> 0 ->
  spdk_nvme_ctrlr_process_admin_completions c w = Ret tt w' ->
  poll_allocated (S fuel) p w = poll_allocated fuel p w'.
Proof.
  intros Hslot Hc Hbusy Hproc. unfold poll_allocated.
  cbn [while_outstanding].
  rewrite (bind_ret_inv _ _ _ _ _ (load_ret _ _ _ _ Hslot)).
  destruct (outstanding_admin_cmds d =? 0) eqn:E;
    [apply Z.eqb_eq in E; contradiction|].
  assert (Hbody : (c0 <- load p ctrlr ;;
                   c1 <- deref c0 ;;
                   spdk_nvme_ctrlr_process_admin_completions c1) w
                  = Ret tt w').
  { rewrite (bind_ret_inv _ _ _ _ _ (load_ret _ _ _ _ Hslot)).
    rewrite Hc. cbn [deref]. rewrite bind_ret. exact Hproc. }
  rewrite (bind_ret_inv _ _ _ _ _ Hbody). reflexivity.
Qed.

(** With the counter above zero and nothing in flight, polling never
    brings it down. *)
Lemma poll_with_nothing_in_flight (p : Z) (c : spdk_nvme_ctrlr) (fuel : nat) :
  forall (w : world) (d : dev),
    slot p w = Some d ->
    ctrlr d = Some c ->
    outstanding_admin_cmds d <> 0 ->
    pending w = [] ->
    poll_allocated fuel p w = OutOfFuel.
Proof.
  induction fuel as [|fuel IH]; intros w d Hslot Hc Hbusy Hpend.
  - reflexivity.
  - rewrite (poll_step p w (set_pending [] w) d c fuel Hslot Hc Hbusy).
    + exact (IH (set_pending [] w) d Hslot Hc Hbusy eq_refl).
    + rewrite process_admin_completions_eq, Hpend. reflexivity.
Qed.

(** The completion of the identify command of [get_allocated_nsid]: its
    callback takes one off the counter, whatever the status, and nothing
    stays in flight. *)
Lemma complete_identify_allocated_due (p sc : Z) (c : spdk_nvme_ctrlr)
      (w : world) (d : dev) :
  pending w = [{| req_ctrlr := c; req_cb := cb_identify_allocated_ns;
                  req_arg := p; req_delay := O; req_sc := sc |}] ->
  slot p w = Some d ->
  exists w',
    spdk_nvme_ctrlr_process_admin_completions c w = Ret tt w'
    /\ slot p w' = Some (decr_outstanding d)
    /\ pending w' = [].
Proof.
  intros Hpend Hslot.
  rewrite process_admin_completions_eq, Hpend.
  cbn [complete_ready req_ctrlr req_delay]. rewrite Z.eqb_refl.
  unfold deliver, run_callback, identify_allocated_ns_cb.
  cbn [req_sc req_cb req_arg req_ctrlr].
  rewrite !bind_assoc.
  destruct (sc =? SPDK_NVME_SC_SUCCESS).
  - rewrite bind_modify, ?bind_assoc.
    match goal with
    | |- context [bind (store p decr_outstanding) _ ?W] =>
        assert (Hslot' : slot p W = Some d) by exact Hslot;
        rewrite (bind_ret_inv _ _ _ _ _ (store_put _ _ _ _ Hslot'))
    end.
    rewrite bind_ret.
    eexists. split; [reflexivity|].
    split; [exact (slot_put_eq _ _ _ _ Hslot) | reflexivity].
  - rewrite bind_ret, ?bind_assoc.
    rewrite (bind_ret_inv _ _ _ _ _ (store_put _ _ _ _ Hslot)).
    rewrite bind_ret.
    eexists. split; [reflexivity|].
    split; [exact (slot_put_eq _ _ _ _ Hslot) | reflexivity].
Qed.

Lemma delay_identify_allocated (p sc : Z) (c : spdk_nvme_ctrlr) (k : nat)
      (w : world) :
  pending w = [{| req_ctrlr := c; req_cb := cb_identify_allocated_ns;
                  req_arg := p; req_delay := S k; req_sc := sc |}] ->
  spdk_nvme_ctrlr_process_admin_completions c w
  = Ret tt (set_pending [{| req_ctrlr := c;
                            req_cb := cb_identify_allocated_ns;
                            req_arg := p; req_delay := k;
                            req_sc := sc |}] w).
Proof.
  intros Hpend. rewrite process_admin_completions_eq, Hpend.
  cbn [complete_ready req_ctrlr req_delay]. rewrite Z.eqb_refl.
  reflexivity.
Qed.

(** After an accepted submission from a counter at zero, the poll loop of
    [get_allocated_nsid] ends, with the counter back at zero, whatever the
    completion status. *)
Lemma poll_allocated_completes (p sc : Z) (c : spdk_nvme_ctrlr)
      (delay : nat) :
  forall (fuel : nat) (w : world) (d : dev),
    (delay + 2 <= fuel)%nat ->
    pending w = [{| req_ctrlr := c; req_cb := cb_identify_allocated_ns;
                    req_arg := p; req_delay := delay; req_sc := sc |}] ->
    slot p w = Some d ->
    ctrlr d = Some c ->
    outstanding_admin_cmds d = 1 ->
    exists w',
      poll_allocated fuel p w = Ret tt w'
      /\ slot p w' = Some (set_outstanding_admin_cmds 0 d)
      /\ pending w' = [].
Proof.
  induction delay as [|k IH]; intros fuel w d Hfuel Hpend Hslot Hc Hone.
  - destruct fuel as [|[|fuel]]; try lia.
    destruct (complete_identify_allocated_due p sc c w d Hpend Hslot)
      as [w' [Hproc [Hslot' Hpend']]].
    rewrite (poll_step p w w' d c (S fuel) Hslot Hc ltac:(lia) Hproc).
    exists w'. split; [|split; [|exact Hpend']].
    + unfold poll_allocated. cbn [while_outstanding].
      rewrite (bind_ret_inv _ _ _ _ _ (load_ret _ _ _ _ Hslot')).
      unfold decr_outstanding.
      cbn [outstanding_admin_cmds set_outstanding_admin_cmds].
      rewrite Hone. reflexivity.
    + rewrite Hslot'. unfold decr_outstanding. rewrite Hone. reflexivity.
  - destruct fuel as [|fuel]; try lia.
    rewrite (poll_step p w _ d c fuel Hslot Hc ltac:(lia)
               (delay_identify_allocated p sc c k w Hpend)).
    apply (IH fuel _ d); [lia | reflexivity | exact Hslot | exact Hc
                          | exact Hone].
Qed.

(** With the counter above zero before the command was submitted, the
    completion of the command leaves it above zero, and the poll loop
    goes on for ever. *)
Lemma poll_allocated_never_idle (p sc : Z) (c : spdk_nvme_ctrlr)
      (delay : nat) :
  forall (fuel : nat) (w : world) (d : dev),
    pending w = [{| req_ctrlr := c; req_cb := cb_identify_allocated_ns;
                    req_arg := p; req_delay := delay; req_sc := sc |}] ->
    slot p w = Some d ->
    ctrlr d = Some c ->
    1 < outstanding_admin_cmds d <= INT_MAX ->
    poll_allocated fuel p w = OutOfFuel.
Proof.
  induction delay as [|k IH]; intros fuel w d Hpend Hslot Hc Hbusy;
    (destruct fuel as [|fuel]; [reflexivity|]).
  - assert (Hdec : outstanding_admin_cmds (decr_outstanding d) <> 0).
    { unfold decr_outstanding.
      cbn [outstanding_admin_cmds set_outstanding_admin_cmds].
      rewrite to_int_id; unfold INT_MIN, INT_MAX in *; lia. }
    destruct (complete_identify_allocated_due p sc c w d Hpend Hslot)
      as [w' [Hproc [Hslot' Hpend']]].
    rewrite (poll_step p w w' d c fuel Hslot Hc ltac:(lia) Hproc).
    apply (poll_with_nothing_in_flight p c fuel w' (decr_outstanding d));
      [exact Hslot' | exact Hc | exact Hdec | exact Hpend'].
  - rewrite (poll_step p w _ d c fuel Hslot Hc ltac:(lia)
               (delay_identify_allocated p sc c k w Hpend)).
    apply (IH fuel _ d); [reflexivity | exact Hslot | exact Hc | exact Hbusy].
Qed.

(** What the leak leads to: a later call of [get_allocated_nsid] on the
    same controller, with the counter at 1 or more and an identify command
    that the driver accepts and completes, never leaves its poll loop: the
    callback takes the counter down by one only.  Whatever the fuel, the
    model runs out of it. *)
Lemma get_allocated_nsid_after_leak (p : Z) (w : world) (d : dev)
      (c : spdk_nvme_ctrlr) :
  slot p w = Some d ->
  ctrlr d = Some c ->
  1 <= outstanding_admin_cmds d < INT_MAX ->
  pending w = [] ->
  hd true (zmalloc_script w) = true ->
  raw_rc (hd default_raw_answer (admin_raw_script w)) = 0 ->
  forall fuel : nat, get_allocated_nsid fuel p w = OutOfFuel.
Proof.
  intros Hslot Hc Hbusy Hpend Hbuf Hrc fuel.
  unfold get_allocated_nsid.
  rewrite (bind_ret_inv _ _ _ _ _ (spdk_zmalloc_eq _)).
  rewrite Hbuf. cbn [negb]. rewrite bind_modify.
  match goal with
  | |- bind _ _ ?W = _ => set (w1 := W)
  end.
  assert (Hslot1 : slot p w1 = Some d) by exact Hslot.
  rewrite (bind_ret_inv _ _ _ _ _ (store_put _ _ _ _ Hslot1)).
  pose proof (slot_put_eq p (incr_outstanding d) d w1 Hslot1) as Hslot2.
  rewrite (bind_ret_inv _ _ _ _ _ (load_ret _ _ _ _ Hslot2)).
  cbn [ctrlr incr_outstanding set_outstanding_admin_cmds].
  rewrite Hc. cbn [deref]. rewrite bind_ret.
  unfold bind at 1. rewrite cmd_admin_raw_eq.
  change (admin_raw_script (put p (incr_outstanding d) w1))
    with (admin_raw_script w).
  change (pending (put p (incr_outstanding d) w1)) with (pending w).
  rewrite Hpend. cbv zeta. rewrite Hrc.
  change (0 =? 0) with true. cbv iota beta.
  change (negb (0 =? 0)) with false. cbv iota.
  match goal with
  | |- bind _ _ ?W = _ => set (w2 := W)
  end.
  assert (Hpoll : poll_allocated fuel p w2 = OutOfFuel).
  { apply (poll_allocated_never_idle p
             (raw_sc (hd default_raw_answer (admin_raw_script w))) c
             (raw_delay (hd default_raw_answer (admin_raw_script w)))
             fuel w2 (incr_outstanding d)).
    - reflexivity.
    - exact Hslot2.
    - exact Hc.
    - unfold incr_outstanding.
      cbn [outstanding_admin_cmds set_outstanding_admin_cmds].
      rewrite to_int_id; unfold INT_MIN, INT_MAX in *; lia. }
  unfold poll_allocated in Hpoll. unfold bind at 1. rewrite Hpoll.
  reflexivity.
Qed.


Lemma initial_world_ready (fuel : nat) (input : string)
      (zmalloc_answers : list bool) (raw_answers : list raw_answer)
      (command_answers : list Z) (files : string -> option file)
      (controllers : list (spdk_nvme_probe_info * spdk_nvme_ctrlr))
      (eal_rc probe_rc : Z) :
  (2 <= fuel)%nat ->
  Forall (fun a => (raw_delay a + 2 <= fuel)%nat) raw_answers ->
  ready fuel (initial_world input zmalloc_answers raw_answers command_answers
                files controllers eal_rc probe_rc).
Proof.
  intros Hfuel Hans. constructor; try assumption; try reflexivity.
  - cbn [devs initial_world]. rewrite repeat_length.
    unfold MAX_DEVS, INT_MAX. lia.
  - cbn [devs num_devs initial_world skipn Z.to_nat].
    apply Forall_forall. intros d Hd.
    apply repeat_spec in Hd. subst. reflexivity.
Qed.

(** * Listing only prints *)

(** The world without what has been printed. *)
Definition quiet (w : world) : world :=
  {| devs := devs w; num_devs := num_devs w; ns_list := ns_list w;
     stdin := stdin w; output := [];
     zmalloc_script := zmalloc_script w;
     admin_raw_script := admin_raw_script w;
     command_script := command_script w; pending := pending w;
     issued := issued w; fs := fs w; bus_scan := bus_scan w;
     rte_eal_init_rc := rte_eal_init_rc w;
     spdk_nvme_probe_rc := spdk_nvme_probe_rc w |}.

(** Two worlds that differ in the output at most still do after the same
    input has been consumed and the same things printed. *)
Lemma quiet_same (w1 w : world) (s : string) (l1 l : list output_event) :
  quiet w1 = quiet w ->
  quiet {| devs := devs w1; num_devs := num_devs w1; ns_list := ns_list w1;
           stdin := s; output := l1;
           zmalloc_script := zmalloc_script w1;
           admin_raw_script := admin_raw_script w1;
           command_script := command_script w1; pending := pending w1;
           issued := issued w1; fs := fs w1; bus_scan := bus_scan w1;
           rte_eal_init_rc := rte_eal_init_rc w1;
           spdk_nvme_probe_rc := spdk_nvme_probe_rc w1 |}
  = quiet (set_stdin s {| devs := devs w; num_devs := num_devs w;
                          ns_list := ns_list w; stdin := stdin w; output := l;
                          zmalloc_script := zmalloc_script w;
                          admin_raw_script := admin_raw_script w;
                          command_script := command_script w;
                          pending := pending w; issued := issued w;
                          fs := fs w; bus_scan := bus_scan w;
                          rte_eal_init_rc := rte_eal_init_rc w;
                          spdk_nvme_probe_rc := spdk_nvme_probe_rc w |}).
Proof.
  intros H. destruct w1, w. unfold quiet in *. cbn in *.
  injection H as E1 E2 E3 E4 E5 E6 E7 E8 E9 E10 E11 E12 E13.
  subst. reflexivity.
Qed.

(** [prints_only m]: whatever way [m] ends, it has added to the output and
    changed nothing else. *)
Definition prints_only {A : Type} (m : M A) : Prop :=
  forall w w', world_of (m w) = Some w' ->
               quiet w' = quiet w /\ exists l, output w' = output w ++ l.

Lemma prints_nothing {A : Type} (m : M A) :
  (forall w w', world_of (m w) = Some w' -> w' = w) -> prints_only m.
Proof.
  intros H w w' E. rewrite (H w w' E). split; [reflexivity|].
  exists []. rewrite app_nil_r. reflexivity.
Qed.

Lemma prints_ret {A : Type} (a : A) : prints_only (ret a).
Proof. apply prints_nothing. intros w w' E. inversion E. reflexivity. Qed.

Lemma prints_bind {A B : Type} (m : M A) (k : A -> M B) :
  prints_only m -> (forall a, prints_only (k a)) -> prints_only (bind m k).
Proof.
  intros Hm Hk w w' E.
  destruct (bind_world_inv m k w w' E) as [[a [w1 [E1 E2]]]|[E1 _]].
  - destruct (Hm w w1) as [Q1 [l1 O1]]; [rewrite E1; reflexivity|].
    destruct (Hk a w1 w' E2) as [Q2 [l2 O2]].
    split; [rewrite Q2; exact Q1|].
    exists (l1 ++ l2). rewrite O2, O1, app_assoc. reflexivity.
  - exact (Hm w w' E1).
Qed.

Lemma prints_printf (fmt : string) (args : list arg) :
  prints_only (printf fmt args).
Proof.
  intros w w' E. inversion E. split; [reflexivity|].
  eexists. reflexivity.
Qed.

Lemma prints_gets {A : Type} (f : world -> A) : prints_only (gets f).
Proof. apply prints_nothing. intros w w' E. inversion E. reflexivity. Qed.

Lemma prints_undefined {A : Type} (f : fault) : prints_only (@undefined A f).
Proof. apply prints_nothing. intros w w' E. inversion E. reflexivity. Qed.

Lemma prints_load {A : Type} (p : Z) (field : dev -> A) :
  prints_only (load p field).
Proof.
  apply prints_nothing. intros w w'. unfold load.
  destruct (slot p w); simpl; intros E; inversion E; reflexivity.
Qed.

Lemma prints_deref {A : Type} (o : option A) : prints_only (deref o).
Proof. destruct o; [apply prints_ret | apply prints_undefined]. Qed.

Lemma prints_for_loop (body : Z -> M unit) (count : nat) :
  (forall i, prints_only (body i)) ->
  forall lo, prints_only (for_loop lo count body).
Proof.
  intros Hb. induction count as [|n IH]; intros lo; simpl.
  - apply prints_ret.
  - apply prints_bind; [apply Hb | intros _; apply IH].
Qed.

Ltac prints_walk solve_leaf :=
  repeat
    match goal with
    | |- prints_only (bind _ _) => apply prints_bind; [ | intro ]
    | |- prints_only (if ?b then _ else _) => destruct b
    | |- prints_only (match ?x with _ => _ end) => destruct x
    | |- prints_only (for_loop _ _ _) => apply prints_for_loop; intro
    | |- prints_only (foreach_dev _) => unfold foreach_dev
    | |- prints_only (when _ _) => unfold when
    | |- prints_only _ =>
        first [ apply prints_ret | apply prints_printf | apply prints_load
              | apply prints_deref | apply prints_gets
              | apply prints_undefined | solve_leaf ]
    | |- prints_only _ => progress cbv zeta
    end.

Lemma prints_lbaf_at (nsdata : spdk_nvme_ns_data) (i : Z) :
  prints_only (lbaf_at nsdata i).
Proof. unfold lbaf_at. prints_walk fail. Qed.

Lemma prints_display_namespace_dpc (nsdata : spdk_nvme_ns_data) :
  prints_only (display_namespace_dpc nsdata).
Proof. unfold display_namespace_dpc. prints_walk fail. Qed.

Lemma prints_display_namespace (ns : spdk_nvme_ns) :
  prints_only (display_namespace ns).
Proof.
  unfold display_namespace.
  prints_walk ltac:(first [apply prints_lbaf_at
                          | apply prints_display_namespace_dpc]).
Qed.

Lemma prints_display_controller (p model : Z) :
  prints_only (display_controller p model).
Proof.
  unfold display_controller.
  prints_walk ltac:(apply prints_display_namespace).
Qed.

Lemma prints_usage : prints_only usage.
Proof. unfold usage. prints_walk fail. Qed.

(** X1: listing the controllers (menu command 1) and showing the menu only
    print: they read no input, hand nothing to the driver, allocate
    nothing, and leave the registry and the queue of admin commands as
    they are, however the listing ends. *)
Theorem listing_only_prints (w w' : world) :
  world_of (display_controller_list w) = Some w'
  \/ world_of (usage w) = Some w' ->
  quiet w' = quiet w /\ exists l, output w' = output w ++ l.
Proof.
  intros [H|H]; revert w w' H.
  - change (prints_only display_controller_list).
    unfold display_controller_list.
    prints_walk ltac:(apply prints_display_controller).
  - exact prints_usage.
Qed.

(** * Selecting a controller *)

(** The line [get_controller] takes the address from: what is left of the
    current line is skipped, then at most 63 characters are read, up to
    and including the newline; [None] at end of file. *)
Definition address_line (s : string) : option (string * string) :=
  match (match drop_line s with Some r => r | None => EmptyString end) with
  | EmptyString => None
  | r => Some (read_line 63 r)
  end.

Lemma find_dev_first (a : spdk_pci_addr) (count : nat) :
  forall (iter : Z) (w w' : world) (r : option Z),
    find_dev a iter count w = Ret r w' ->
    w' = w
    /\ match r with
       | Some p =>
           iter <= p < iter + Z.of_nat count
           /\ (exists d, slot p w = Some d
                         /\ spdk_pci_addr_compare a (pci_addr d) = 0)
           /\ (forall q d, iter <= q < p -> slot q w = Some d ->
                           spdk_pci_addr_compare a (pci_addr d) <> 0)
       | None =>
           forall q d, iter <= q < iter + Z.of_nat count ->
                       slot q w = Some d ->
                       spdk_pci_addr_compare a (pci_addr d) <> 0
       end.
Proof.
  induction count as [|n IH]; intros iter w w' r H.
  - simpl in H. inversion H. subst. split; [reflexivity|]. intros; lia.
  - cbn [find_dev] in H. unfold bind, load in H.
    destruct (slot iter w) as [d|] eqn:Hslot; [|discriminate].
    destruct (spdk_pci_addr_compare a (pci_addr d) =? 0) eqn:Ecmp.
    + inversion H. subst. split; [reflexivity|].
      split; [lia|]. split.
      * exists d. split; [exact Hslot | apply Z.eqb_eq; exact Ecmp].
      * intros; lia.
    + destruct (IH _ _ _ _ H) as [Hw Hr]. split; [exact Hw|].
      assert (Hhere : forall q d', q = iter -> slot q w = Some d' ->
                                   spdk_pci_addr_compare a (pci_addr d') <> 0).
      { intros q d' -> Hq. rewrite Hslot in Hq. inversion Hq. subst.
        apply Z.eqb_neq. exact Ecmp. }
      destruct r as [p|].
      * destruct Hr as [Hrange [Hd Hbefore]].
        split; [lia|]. split; [exact Hd|].
        intros q d' Hq Hs. destruct (Z.eq_dec q iter) as [E|E].
        -- exact (Hhere q d' E Hs).
        -- apply (Hbefore q d'); [lia | exact Hs].
      * intros q d' Hq Hs. destruct (Z.eq_dec q iter) as [E|E].
        -- exact (Hhere q d' E Hs).
        -- apply (Hr q d'); [lia | exact Hs].
Qed.

Section Selection.

Variable parse : string -> option spdk_pci_addr.

Lemma discard_line_or_eof_ret (w : world) :
  discard_line_or_eof w
  = Ret tt (set_stdin (match drop_line (stdin w) with
                       | Some r => r
                       | None => EmptyString
                       end) w).
Proof.
  unfold discard_line_or_eof. destruct (drop_line (stdin w)); reflexivity.
Qed.

(** X2: [get_controller] returns the first registered controller whose
    address compares equal to the address the operator entered on the line
    after the current one, and [NULL] when the input has ended, when the
    line does not parse, or when no registered controller has that
    address.  The registry is left as it is, nothing is handed to the
    driver, and the input is consumed up to the end of the address line. *)
Theorem get_controller_selects (w w' : world) (r : option Z) :
  get_controller parse w = Ret r w' ->
  quiet w' = quiet (set_stdin (stdin w') w)
  /\ match address_line (stdin w) with
     | None => r = None /\ stdin w' = EmptyString
     | Some (line, rest) =>
         stdin w' = rest
         /\ match parse (skip_space (c_string line)) with
            | None => r = None
            | Some a =>
                match r with
                | Some p =>
                    0 <= p < num_devs w
                    /\ (exists d, slot p w = Some d
                                  /\ spdk_pci_addr_compare a (pci_addr d) = 0)
                    /\ (forall q d, 0 <= q < p -> slot q w = Some d ->
                                    spdk_pci_addr_compare a (pci_addr d) <> 0)
                | None =>
                    forall q d, 0 <= q < num_devs w -> slot q w = Some d ->
                                spdk_pci_addr_compare a (pci_addr d) <> 0
                end
            end
     end.
Proof.
  intros H. unfold get_controller in H.
  apply bind_inv_ret in H. destruct H as [u [w1 [Htable H]]].
  assert (Hq : quiet w1 = quiet w).
  { assert (P : prints_only
                  (foreach_dev
                     (fun iter =>
                        display_controller iter CONTROLLER_DISPLAY_SIMPLISTIC))).
    { prints_walk ltac:(apply prints_display_controller). }
    apply (P w w1). rewrite Htable. reflexivity. }
  rewrite bind_printf in H.
  rewrite (bind_ret_inv _ _ _ _ _ (discard_line_or_eof_ret _)) in H.
  cbn [stdin add_output] in H.
  assert (Hstdin : stdin w1 = stdin w) by exact (f_equal stdin Hq).
  assert (Hdevs : devs w1 = devs w) by exact (f_equal devs Hq).
  assert (Hnum : num_devs w1 = num_devs w) by exact (f_equal num_devs Hq).
  rewrite Hstdin in H. unfold address_line.
  set (s1 := match drop_line (stdin w) with
             | Some r0 => r0
             | None => EmptyString
             end) in *.
  set (w2 := set_stdin s1
               (add_output
                  (Print Stdout "Please Input PCI Address(domain:bus:dev.func): \n" [])
                  w1)) in *.
  assert (Hq2 : forall s, quiet (set_stdin s w2) = quiet (set_stdin s w)).
  { intros s. exact (quiet_same w1 w s _ (output w) Hq). }
  apply bind_inv_ret in H. destruct H as [line [w3 [Hfgets H]]].
  unfold fgets in Hfgets. change (stdin w2) with s1 in Hfgets.
  destruct s1 as [|c0 s1'] eqn:Es1.
  - inversion Hfgets. subst line w3. inversion H. subst r w'.
    split; [|split; reflexivity].
    change (stdin w2) with EmptyString. rewrite <- (Hq2 EmptyString).
    reflexivity.
  - destruct (read_line (64 - 1) (String c0 s1')) as [l rest] eqn:Eline.
    change (64 - 1)%nat with 63%nat in Eline. rewrite Eline.
    inversion Hfgets. subst line w3. clear Hfgets.
    destruct (parse (skip_space (c_string l))) as [a|] eqn:Eparse.
    + rewrite bind_gets in H.
      destruct (find_dev_first a _ _ _ _ _ H) as [Hw Hr]. subst w'.
      cbn [stdin set_stdin]. split; [apply Hq2|].
      split; [reflexivity|].
      assert (Hslots : forall q, slot q (set_stdin rest w2) = slot q w).
      { intros q. unfold slot. cbn [devs set_stdin w2 add_output].
        rewrite Hdevs. reflexivity. }
      change (num_devs (set_stdin rest w2)) with (num_devs w1) in Hr.
      rewrite Hnum in Hr.
      destruct r as [p|].
      * destruct Hr as [Hrange [[d [Hd Hcmp]] Hbefore]].
        split; [lia|]. split.
        -- exists d. rewrite <- Hslots. auto.
        -- intros q d' Hqr Hs. apply (Hbefore q d' Hqr).
           rewrite Hslots. exact Hs.
      * intros q d' Hqr Hs. apply (Hr q d'); [lia|].
        rewrite Hslots. exact Hs.
    + inversion H. subst r w'. cbn [stdin set_stdin].
      split; [apply Hq2|]. split; reflexivity.
Qed.

(** X3: when [get_controller] finds no controller, every operation reports an
    invalid address and returns to the menu: nothing more is read, nothing
    is handed to the driver. *)
Theorem unknown_controller_cancels (fuel : nat) (attachment_op : Z)
        (w w1 : world) :
  get_controller parse w = Ret None w1 ->
  let cancelled fmt := Ret tt (add_output (Print Stdout fmt []) w1) in
  add_ns parse w = cancelled "Invalid controller PCI Address.\n"
  /\ delete_ns parse w = cancelled "Invalid controller PCI Address.\n"
  /\ attach_and_detach_ns parse fuel attachment_op w
     = cancelled "Invalid controller PCI Address.\n"
  /\ format_nvm parse w = cancelled "Invalid controller PCI BDF.\n"
  /\ update_firmware_image parse w = cancelled "Invalid controller PCI BDF.\n"
  /\ issued w1 = issued w.
Proof.
  intros Hsel cancelled. subst cancelled.
  unfold add_ns, delete_ns, attach_and_detach_ns, format_nvm,
    update_firmware_image, format_nvm_choose, update_firmware_image_open.
  rewrite ?bind_assoc.
  rewrite !(bind_ret_inv _ _ _ _ _ Hsel).
  repeat split.
  exact (get_controller_issued parse w w1 None Hsel).
Qed.

End Selection.

(** * Choosing an LBA format *)





(** * Attach and detach *)

Lemma issues_bind_post {A B : Type} (P : driver_call -> Prop)
      (Q : A -> Prop) (m : M A) (k : A -> M B) :
  issues P m ->
  (forall w a w', m w = Ret a w' -> Q a) ->
  (forall a, Q a -> issues P (k a)) ->
  issues P (bind m k).
Proof.
  intros Hm HQ Hk w w' E.
  destruct (bind_world_inv m k w w' E) as [[a [w1 [E1 E2]]]|[E1 _]].
  - destruct (Hm w w1) as [l1 [I1 F1]]; [rewrite E1; reflexivity|].
    destruct (Hk a (HQ _ _ _ E1) w1 w' E2) as [l2 [I2 F2]].
    exists (l1 ++ l2). split.
    + rewrite I2, I1, app_assoc. reflexivity.
    + apply Forall_app. split; assumption.
  - exact (Hm w w' E1).
Qed.

(** A number that [scanf] assigns has been converted to the type of the
    variable. *)
Lemma scan_integer_converted (base_of : string -> Z * string)
      (conv : Z -> Z) (s s' : string) (v : Z) :
  scan_integer base_of conv s = (Assigned v, s') -> exists x, v = conv x.
Proof.
  unfold scan_integer. destruct (skip_space s) as [|c r]; [discriminate|].
  destruct (if Ascii.eqb c "-" then (true, r)
            else if Ascii.eqb c "+" then (false, r)
                 else (false, String c r)) as [neg s2].
  destruct (base_of s2) as [base s3].
  destruct (take_digits base s3 None) as [[x|] s4]; [|discriminate].
  intros H. inversion H. eexists. reflexivity.
Qed.

Lemma get_allocated_nsid_uint32 (fuel : nat) (p : Z) (w w' : world) (v : Z) :
  get_allocated_nsid fuel p w = Ret v w' -> 0 <= v < 2 ^ 32.
Proof.
  unfold get_allocated_nsid. intros H.
  apply bind_inv_ret in H. destruct H as [buf [w1 [_ H]]].
  destruct (negb buf).
  { rewrite bind_printf in H. inversion H. lia. }
  rewrite bind_modify in H.
  apply bind_inv_ret in H. destruct H as [u1 [w2 [_ H]]].
  apply bind_inv_ret in H. destruct H as [c [w3 [_ H]]].
  apply bind_inv_ret in H. destruct H as [c' [w4 [_ H]]].
  apply bind_inv_ret in H. destruct H as [rc [w5 [_ H]]].
  destruct (negb (rc =? 0)).
  { rewrite bind_printf, bind_modify in H. inversion H. lia. }
  apply bind_inv_ret in H. destruct H as [u2 [w6 [_ H]]].
  rewrite bind_printf in H.
  apply bind_inv_ret in H. destruct H as [l [w7 [_ H]]].
  apply bind_inv_ret in H. destruct H as [l' [w8 [_ H]]].
  apply bind_inv_ret in H. destruct H as [u3 [w9 [_ H]]].
  rewrite bind_modify, bind_printf in H.
  apply bind_inv_ret in H. destruct H as [r [w10 [Hscan H]]].
  destruct r as [x| |]; cbn [scanf_failed after_scanf initialized] in H.
  - inversion H. subst.
    unfold scanf_u, scan in Hscan.
    destruct (scan_integer decimal to_uint32 _) as [sc rest] eqn:E.
    inversion Hscan. subst.
    destruct (scan_integer_converted _ _ _ _ _ E) as [y ->].
    unfold to_uint32, to_unsigned. apply Z.mod_pos_bound. lia.
  - rewrite bind_printf in H. inversion H. lia.
  - discriminate.
Qed.

Lemma to_uint32_to_int (v : Z) : to_uint32 (to_int v) = to_uint32 v.
Proof.
  unfold to_uint32, to_int, to_unsigned, to_signed.
  rewrite Zminus_mod_idemp_l. f_equal. lia.
Qed.

(** The calls of an attach ([op] 0) or of a detach ([op] 1): the matching
    driver function, a namespace id that is not 0 and a controller list of
    one entry. *)
Definition is_attachment (op : Z) (c : driver_call) : Prop :=
  match c with
  | CallAttachNs _ ns_id [_] =>
      op = SPDK_NVME_NS_CTRLR_ATTACH /\ 0 < ns_id < 2 ^ 32
  | CallDetachNs _ ns_id [_] =>
      op = SPDK_NVME_NS_CTRLR_DETACH /\ 0 < ns_id < 2 ^ 32
  | _ => False
  end.

Section Attachment.

Variable parse : string -> option spdk_pci_addr.

Lemma issues_ns_attach (device op ctrlr_id ns_id : Z) :
  0 < to_uint32 ns_id ->
  issues (is_attachment op) (ns_attach device op ctrlr_id ns_id).
Proof.
  intros Hns. unfold ns_attach.
  assert (Hrange : 0 < to_uint32 ns_id < 2 ^ 32).
  { split; [exact Hns|]. unfold to_uint32, to_unsigned.
    apply Z.mod_pos_bound. lia. }
  apply issues_bind; [issues_prim | intros buf].
  destruct (negb buf); [issues_walk fail|]. cbv zeta.
  apply issues_bind; [|intro; issues_walk fail].
  destruct (op =? SPDK_NVME_NS_CTRLR_ATTACH) eqn:E1.
  { apply Z.eqb_eq in E1.
    unfold spdk_nvme_ctrlr_attach_ns.
    issues_walk ltac:(apply issues_driver_command). simpl. auto. }
  destruct (op =? SPDK_NVME_NS_CTRLR_DETACH) eqn:E2.
  { apply Z.eqb_eq in E2.
    unfold spdk_nvme_ctrlr_detach_ns.
    issues_walk ltac:(apply issues_driver_command). simpl. auto. }
  apply issues_ret.
Qed.

(** X5: attach and detach hand the driver nothing but the identify command
    for the list of allocated namespaces and the attach, respectively the
    detach, of the namespace the operator chose, with a controller list of
    exactly one entry: the id 0 is never attached or detached, an attach
    never detaches and a detach never attaches. *)
Theorem attach_and_detach_calls (fuel : nat) (op : Z) (w w' : world) :
  world_of (attach_and_detach_ns parse fuel op w) = Some w' ->
  exists l, issued w' = issued w ++ l
            /\ Forall (fun c => is_identify_allocated_ns_list c
                                \/ is_attachment op c) l.
Proof.
  revert w w'.
  change (issues (fun c => is_identify_allocated_ns_list c
                           \/ is_attachment op c)
                 (attach_and_detach_ns parse fuel op)).
  unfold attach_and_detach_ns.
  apply issues_bind; [apply silent_issues; apply silent_get_controller|].
  intros [p|]; [|issues_prim].
  apply issues_bind; [issues_prim | intros cd].
  apply issues_bind; [issues_prim | intros cd'].
  destruct (negb (oacs_ns_manage cd')); [issues_prim|].
  apply issues_bind_post with (Q := fun v => 0 <= v < 2 ^ 32).
  - eapply issues_weaken; [|apply issues_get_allocated_nsid]. auto.
  - intros w0 a w1 H. exact (get_allocated_nsid_uint32 _ _ _ _ _ H).
  - intros nsid Hrange.
    destruct (nsid =? 0) eqn:E0; [issues_prim|].
    apply Z.eqb_neq in E0.
    apply issues_bind; [issues_prim | intros cd2].
    apply issues_bind; [issues_prim | intros cd3].
    eapply issues_weaken; [|apply issues_ns_attach].
    + auto.
    + rewrite to_uint32_to_int. unfold to_uint32, to_unsigned.
      rewrite Z.mod_small by lia. lia.
Qed.

End Attachment.

(** * Delete *)

Section Delete.

Variable parse : string -> option spdk_pci_addr.


End Delete.

(** * The end of the input *)

Section EndOfInput.

Variable parse : string -> option spdk_pci_addr.

Lemma scan_integer_at_end (base_of : string -> Z * string) (conv : Z -> Z)
      (s : string) :
  skip_space s = EmptyString ->
  scan_integer base_of conv s = (InputFailure, EmptyString).
Proof. intros H. unfold scan_integer. rewrite H. reflexivity. Qed.

(** X7: the menu loop has no branch for the end of the input.  When the input
    has ended where a command is expected, [scanf] returns [EOF], which
    the test [!scanf(...)] takes for success, and the [switch] reads [cmd],
    which was never set.  After a command other than quit the loop skips
    two lines with [while (getchar() != '\n');]: when fewer than two
    newlines are left it never leaves these loops. *)
Theorem menu_at_end_of_input (fuel n : nat) (w : world) :
  (skip_space (stdin w) = EmptyString ->
   command_loop parse fuel (S n) w
   = Undefined Uninitialized (set_stdin EmptyString w))
  /\ (forall (cmd : Z) (w0 w1 : world),
         scanf_d w = Ret (Assigned cmd) w0 ->
         dispatch parse fuel cmd w0 = Ret false w1 ->
         (forall r, drop_line (stdin w1) = Some r -> drop_line r = None) ->
         exists w', command_loop parse fuel (S n) w = Hang w'
                    /\ stdin w' = EmptyString).
Proof.
  split.
  - intros Hend. cbn [command_loop].
    unfold bind at 1, scanf_d, scan.
    rewrite (scan_integer_at_end _ _ _ Hend). reflexivity.
  - intros cmd w0 w1 Hscan Hrun Hlines. cbn [command_loop].
    rewrite (bind_ret_inv _ _ _ _ _ Hscan).
    cbn [scanf_failed after_scanf initialized]. rewrite bind_ret.
    rewrite (bind_ret_inv _ _ _ _ _ Hrun). cbv iota.
    unfold bind at 1, discard_line.
    destruct (drop_line (stdin w1)) as [r|] eqn:E1.
    + rewrite bind_printf. unfold bind at 1, discard_line.
      cbn [stdin set_stdin add_output].
      rewrite (Hlines r eq_refl). eexists. split; reflexivity.
    + eexists. split; reflexivity.
Qed.

End EndOfInput.

(** * What discovery leaves in a slot *)

(** What the program cannot change: the files, the controllers on the bus
    and the return values of the two initialisation calls. *)
Definition environment (w : world)
  : (string -> option file) * list (spdk_nvme_probe_info * spdk_nvme_ctrlr)
    * Z * Z :=
  (fs w, bus_scan w, rte_eal_init_rc w, spdk_nvme_probe_rc w).

(** The identify command of [attach_cb]: Identify Namespace with the
    namespace id FFFFFFFFh. *)
Definition identify_common_ns_cmd : spdk_nvme_cmd :=
  {| opc := SPDK_NVME_OPC_IDENTIFY; cdw10 := 0;
     nsid := SPDK_NVME_GLOBAL_NS_TAG |}.

(** X8: [attach_cb] on a free slot with no command in flight always registers
    the controller: the slot holds its address, its handle and its
    identify data, and the counter is back at zero.  The common namespace
    data is kept exactly when the buffer was allocated, the driver took
    the identify command and the command completed with success; the one
    command handed to the driver is that identify command, when the buffer
    was allocated; an allocation failure is reported on the error stream
    and nothing else is printed; no input is read. *)
Theorem attach_cb_outcome (fuel : nat) (info : spdk_nvme_probe_info)
        (c : spdk_nvme_ctrlr) (w : world) (d0 : dev) :
  slot (num_devs w) w = Some d0 ->
  outstanding_admin_cmds d0 = 0 ->
  pending w = [] ->
  num_devs w + 1 <= INT_MAX ->
  (raw_delay (hd default_raw_answer (admin_raw_script w)) + 2 <= fuel)%nat ->
  let buf := hd true (zmalloc_script w) in
  let a := hd default_raw_answer (admin_raw_script w) in
  exists w' : world,
    attach_cb fuel info c w = Ret tt w'
    /\ devs w'
       = list_update (devs w) (Z.to_nat (num_devs w))
           {| pci_addr := probe_pci_addr info; ctrlr := Some c;
              cdata := Some (ctrlr_get_data c);
              common_ns_data :=
                if buf && (raw_rc a =? 0) && (raw_sc a =? SPDK_NVME_SC_SUCCESS)
                then Some (identify_common_ns c) else None;
              outstanding_admin_cmds := 0 |}
    /\ num_devs w' = num_devs w + 1
    /\ pending w' = []
    /\ stdin w' = stdin w
    /\ output w'
       = output w
         ++ (if buf then []
             else [Print Stderr "common_ns_data allocation failure\n" []])
    /\ issued w'
       = issued w
         ++ (if buf then [CallAdminRaw (ctrlr_id c) identify_common_ns_cmd]
             else [])
    /\ zmalloc_script w' = tl (zmalloc_script w)
    /\ admin_raw_script w'
       = (if buf then tl (admin_raw_script w) else admin_raw_script w)
    /\ command_script w' = command_script w
    /\ environment w' = environment w.
Proof.
  intros Hslot Hzero Hpend Hmax Hfuel buf a.
  pose proof (slot_nonneg _ _ _ Hslot) as Hn.
  remember (attach_cb fuel info c w) as r eqn:Hr.
  set (n := num_devs w) in *.
  assert (Hint : to_int (n + 1) = n + 1).
  { apply to_int_id. unfold INT_MIN, INT_MAX in *. lia. }
  unfold attach_cb in Hr.
  rewrite bind_gets in Hr. fold n in Hr.
  rewrite bind_modify in Hr. rewrite Hint in Hr.
  set (w1 := set_num_devs (n + 1) w) in *.
  assert (Hslot1 : slot n w1 = Some d0) by exact Hslot.
  rewrite (bind_ret_inv _ _ _ _ _ (store_put _ _ _ _ Hslot1)) in Hr.
  pose proof (slot_put_eq n (set_pci_addr (probe_pci_addr info) d0) d0 w1
                Hslot1) as Hslot2.
  rewrite (bind_ret_inv _ _ _ _ _ (store_put _ _ _ _ Hslot2)) in Hr.
  rewrite put_put in Hr.
  pose proof (slot_put_eq n
                (set_ctrlr (Some c) (set_pci_addr (probe_pci_addr info) d0))
                d0 w1 Hslot1) as Hslot3.
  rewrite (bind_ret_inv _ _ _ _ _ (load_ret _ _ _ _ Hslot3)) in Hr.
  cbn [ctrlr set_ctrlr deref] in Hr. rewrite bind_ret in Hr.
  rewrite (bind_ret_inv _ _ _ _ _ (store_put _ _ _ _ Hslot3)) in Hr.
  rewrite put_put in Hr. fold (registered info c d0) in Hr.
  pose proof (slot_put_eq n (registered info c d0) d0 w1 Hslot1) as Hslot4.
  rewrite (bind_ret_inv _ _ _ _ _ (spdk_zmalloc_eq _)) in Hr.
  change (zmalloc_script (put n (registered info c d0) w1))
    with (zmalloc_script w) in Hr.
  fold buf in Hr.
  set (w2 := set_zmalloc_script (tl (zmalloc_script w))
               (put n (registered info c d0) w1)) in *.
  assert (Hslot5 : slot n w2 = Some (registered info c d0)) by exact Hslot4.
  rewrite (bind_ret_inv _ _ _ _ _ (store_put _ _ _ _ Hslot5)) in Hr.
  destruct buf eqn:Ebuf; cbn [negb andb] in Hr |- *.
  - (* the buffer is there *)
    set (dB := set_common_ns_data (Some ns_data_zero) (registered info c d0))
      in *.
    pose proof (slot_put_eq n dB _ w2 Hslot5) as Hslot6.
    rewrite (bind_ret_inv _ _ _ _ _ (store_put _ _ _ _ Hslot6)) in Hr.
    rewrite put_put in Hr.
    pose proof (slot_put_eq n (incr_outstanding dB) _ w2 Hslot5) as Hslot7.
    unfold bind at 1 in Hr. rewrite cmd_admin_raw_eq in Hr.
    change (pending (put n (incr_outstanding dB) w2)) with (pending w) in Hr.
    rewrite Hpend in Hr.
    change (admin_raw_script (put n (incr_outstanding dB) w2))
      with (admin_raw_script w) in Hr.
    fold a in Hr.
    cbv zeta in Hr.
    assert (Hone : outstanding_admin_cmds (incr_outstanding dB) = 1).
    { unfold incr_outstanding, dB, registered. simpl. rewrite Hzero.
      reflexivity. }
    destruct (raw_rc a =? 0) eqn:Erc.
    + (* queued *)
      cbv iota beta in Hr.
      change (negb (0 =? 0)) with false in Hr. cbv iota in Hr.
      rewrite bind_ret in Hr.
      match type of Hr with
      | context [while_outstanding fuel n _ ?W] => set (w3 := W) in *
      end.
      assert (Hslot8 : slot n w3 = Some (incr_outstanding dB))
        by exact Hslot7.
      rewrite (poll_identify_common c n (raw_sc a) (raw_delay a) fuel w3
                 (incr_outstanding dB) Hfuel eq_refl Hslot8 Hone) in Hr.
      eexists. split; [exact Hr|].
      unfold w3, w2, w1, put, set_devs. cbn.
      rewrite !list_update_twice.
      unfold completed_common. cbn.
      rewrite app_nil_r.
      destruct (raw_sc a =? SPDK_NVME_SC_SUCCESS); repeat split.
    + (* rejected *)
      cbv iota beta in Hr.
      match type of Hr with
      | _ = bind _ _ ?W => set (w3 := W) in *
      end.
      assert (Hslot8 : slot n w3 = Some (incr_outstanding dB))
        by exact Hslot7.
      rewrite Erc in Hr. cbn [negb] in Hr.
      pose proof (slot_put_eq n (decr_outstanding (incr_outstanding dB))
                    _ w3 Hslot8) as Hslot9.
      assert (Hundo : (store n decr_outstanding ;;
                       store n (set_common_ns_data None)) w3
                      = Ret tt (put n (set_common_ns_data None
                                         (decr_outstanding
                                            (incr_outstanding dB))) w3)).
      { rewrite (bind_ret_inv _ _ _ _ _ (store_put _ _ _ _ Hslot8)).
        rewrite (store_put _ _ _ _ Hslot9), put_put. reflexivity. }
      rewrite (bind_ret_inv _ _ _ _ _ Hundo) in Hr.
      destruct fuel as [|fuel]; [lia|]. cbn [while_outstanding] in Hr.
      match type of Hr with
      | context [put n ?x w3] =>
          pose proof (slot_put_eq n x _ w3 Hslot8) as Hslot10
      end.
      rewrite (bind_ret_inv _ _ _ _ _ (load_ret _ _ _ _ Hslot10)) in Hr.
      unfold decr_outstanding in Hr.
      cbn [outstanding_admin_cmds set_outstanding_admin_cmds
             set_common_ns_data] in Hr.
      rewrite Hone in Hr. change (to_int (1 - 1)) with 0 in Hr.
      change (0 =? 0) with true in Hr. cbv iota in Hr.
      eexists. split; [exact Hr|].
      unfold w3, w2, w1, put, set_devs. cbn.
      rewrite ?list_update_twice.
      unfold decr_outstanding, incr_outstanding. cbn.
      rewrite ?app_nil_r. repeat split. exact Hpend.
  - (* no buffer *)
    eexists. split; [exact Hr|].
    unfold w2, w1, put, set_devs. cbn.
    rewrite ?list_update_twice. unfold registered.
    unfold set_common_ns_data, set_cdata, set_ctrlr, set_pci_addr. cbn.
    rewrite Hzero, app_nil_r. repeat split. exact Hpend.
Qed.

(** * What discovery leaves in the registry *)

Definition is_identify_common_ns (c : driver_call) : Prop :=
  match c with
  | CallAdminRaw _ cmd => cmd = identify_common_ns_cmd
  | _ => False
  end.

(** The slot of a discovered controller: its address, its handle, its
    identify data, the common namespace data of that controller if any,
    and no command in flight. *)
Definition holds (d : dev) (x : spdk_nvme_probe_info * spdk_nvme_ctrlr)
  : Prop :=
  pci_addr d = probe_pci_addr (fst x)
  /\ ctrlr d = Some (snd x)
  /\ cdata d = Some (ctrlr_get_data (snd x))
  /\ (common_ns_data d = None
      \/ common_ns_data d = Some (identify_common_ns (snd x)))
  /\ outstanding_admin_cmds d = 0.

Definition allocation_failure : output_event :=
  (Print Stderr "common_ns_data allocation failure\n" []).

Lemma probe_devices_outcome (fuel : nat)
      (l : list (spdk_nvme_probe_info * spdk_nvme_ctrlr)) :
  forall w : world,
    ready fuel w ->
    num_devs w + Z.of_nat (List.length l) <= Z.of_nat (List.length (devs w)) ->
    exists w',
      probe_devices fuel l w = Ret tt w'
      /\ ready fuel w'
      /\ num_devs w' = num_devs w + Z.of_nat (List.length l)
      /\ List.length (devs w') = List.length (devs w)
      /\ (exists ds, registry w' = registry w ++ ds /\ Forall2 holds ds l)
      /\ stdin w' = stdin w
      /\ command_script w' = command_script w
      /\ environment w' = environment w
      /\ (exists lo, output w' = output w ++ lo
                     /\ Forall (eq allocation_failure) lo)
      /\ (exists li, issued w' = issued w ++ li
                     /\ Forall is_identify_common_ns li
                     /\ (List.length li <= List.length l)%nat).
Proof.
  induction l as [|[info c] l IH]; intros w Hready Hroom.
  - exists w. cbn [probe_devices List.length]. rewrite Z.add_0_r.
    split; [reflexivity|]. split; [exact Hready|].
    split; [reflexivity|]. split; [reflexivity|].
    split; [exists []; rewrite app_nil_r; split; [reflexivity|constructor]|].
    split; [reflexivity|]. split; [reflexivity|]. split; [reflexivity|].
    split; exists []; rewrite app_nil_r; repeat split; constructor.
  - cbn [List.length] in Hroom.
    destruct (attach_cb_appends fuel info c w Hready ltac:(lia))
      as [w1 [Hrun [Hready1 [Hn1 [Hlen1 _]]]]].
    destruct Hready as [Hnum Hint Hfree Hpend Hfuel Hans].
    set (n := Z.to_nat (num_devs w)) in *.
    assert (Hlt : (n < List.length (devs w))%nat) by (unfold n; lia).
    destruct (nth_error (devs w) n) as [d0|] eqn:Hnth;
      [|apply nth_error_None in Hnth; lia].
    assert (Hslot : slot (num_devs w) w = Some d0).
    { unfold slot. destruct (num_devs w <? 0) eqn:E; [lia|]. exact Hnth. }
    rewrite (skipn_nth_error _ _ _ Hnth) in Hfree.
    inversion Hfree as [|? ? Hzero Hrest]; subst.
    assert (Hdelay : (raw_delay (hd default_raw_answer (admin_raw_script w)) + 2
                      <= fuel)%nat).
    { destruct (admin_raw_script w) as [|a l0]; simpl; [lia|].
      inversion Hans; assumption. }
    destruct (attach_cb_outcome fuel info c w d0 Hslot Hzero Hpend
                ltac:(unfold INT_MAX in *; lia) Hdelay)
      as [w1' [Hrun' [Hdevs [_ [_ [Hin1 [Hout1 [Hiss1 [_ [_ [Hcs1 Henv1]]]]]]]]]]].
    rewrite Hrun in Hrun'. inversion Hrun'. subst w1'. clear Hrun'.
    destruct (IH w1 Hready1 ltac:(rewrite Hn1, Hlen1; lia))
      as [w' [Hrest' [Hready' [Hn' [Hlen' [[ds [Hreg Hds]]
                                             [Hin' [Hcs' [Henv' [[lo [Hout' Hlo]]
                                                      [li [Hiss' [Hli Hcount]]]]]]]]]]]]].
    exists w'. cbn [probe_devices probe_cb].
    rewrite (bind_ret_inv _ _ _ _ _ Hrun).
    split; [exact Hrest'|]. split; [exact Hready'|].
    split; [rewrite Hn', Hn1; cbn [List.length]; lia|].
    split; [rewrite Hlen', Hlen1; reflexivity|].
    split.
    { eexists (_ :: ds). split.
      - rewrite Hreg. unfold registry at 1.
        replace (Z.to_nat (num_devs w1)) with (S n) by (rewrite Hn1; unfold n; lia).
        rewrite Hdevs. fold n.
        rewrite firstn_list_update_S by exact Hlt.
        rewrite <- app_assoc. reflexivity.
      - constructor; [|exact Hds]. unfold holds. cbn.
        destruct (hd true (zmalloc_script w)
                  && (raw_rc (hd default_raw_answer (admin_raw_script w)) =? 0)
                  && (raw_sc (hd default_raw_answer (admin_raw_script w))
                      =? SPDK_NVME_SC_SUCCESS)); auto 6. }
    split; [rewrite Hin', Hin1; reflexivity|].
    split; [rewrite Hcs', Hcs1; reflexivity|].
    split; [rewrite Henv', Henv1; reflexivity|].
    split.
    { eexists. rewrite Hout', Hout1, <- app_assoc. split; [reflexivity|].
      apply Forall_app. split; [|exact Hlo].
      destruct (hd true (zmalloc_script w)); repeat constructor. }
    eexists. rewrite Hiss', Hiss1, <- app_assoc. split; [reflexivity|].
    split.
    + apply Forall_app. split; [|exact Hli].
      destruct (hd true (zmalloc_script w)); repeat constructor.
    + rewrite length_app. cbn [List.length].
      destruct (hd true (zmalloc_script w)); cbn [List.length]; lia.
Qed.

(** X9: discovery of at most as many controllers as the registry has free
    slots: every controller on the bus gets the next slot, in the order of
    the bus, holding its address, its handle and its identify data, with
    no admin command left in flight.  Discovery reads no input, prints
    nothing but allocation failures on the error stream, and hands the
    driver nothing but Identify Namespace commands for the namespace id
    FFFFFFFFh, at most one for each controller. *)
Theorem discovery_registers_controllers (fuel : nat) (w : world) :
  ready fuel w ->
  num_devs w + Z.of_nat (List.length (bus_scan w))
  <= Z.of_nat (List.length (devs w)) ->
  exists w',
    spdk_nvme_probe fuel w = Ret (spdk_nvme_probe_rc w) w'
    /\ num_devs w' = num_devs w + Z.of_nat (List.length (bus_scan w))
    /\ (exists ds, registry w' = registry w ++ ds
                   /\ Forall2 holds ds (bus_scan w))
    /\ pending w' = []
    /\ stdin w' = stdin w
    /\ command_script w' = command_script w
    /\ environment w' = environment w
    /\ (exists lo, output w' = output w ++ lo
                   /\ Forall (eq allocation_failure) lo)
    /\ (exists li, issued w' = issued w ++ li
                   /\ Forall is_identify_common_ns li
                   /\ (List.length li <= List.length (bus_scan w))%nat).
Proof.
  intros Hready Hroom.
  destruct (probe_devices_outcome fuel (bus_scan w) w Hready Hroom)
    as [w' [Hrun [Hready' [Hn [_ [Hreg [Hin [Hcs [Henv [Hout Hiss]]]]]]]]]].
  exists w'. unfold spdk_nvme_probe. rewrite bind_gets.
  rewrite (bind_ret_inv _ _ _ _ _ Hrun).
  split; [unfold gets; f_equal; exact (f_equal snd Henv)|]. split; [exact Hn|]. split; [exact Hreg|].
  split; [exact (ready_pending _ _ Hready')|]. auto.
Qed.

(** * Quit *)

Section RelatedSorts.

Context {A B : Type} (R : A -> B -> Prop).
Variables (cmpA : A -> A -> Z) (cmpB : B -> B -> Z).

Hypothesis same_order :
  forall a b a' b', R a b -> R a' b' -> cmpA a a' = cmpB b b'.

Lemma qsort_insert_related (a : A) (b : B) (la : list A) (lb : list B) :
  R a b -> Forall2 R la lb ->
  Forall2 R (qsort_insert cmpA a la) (qsort_insert cmpB b lb).
Proof.
  intros Hab H. induction H as [|a' b' la lb Hab' H IH]; simpl.
  - repeat constructor. exact Hab.
  - rewrite (same_order a b a' b' Hab Hab').
    destruct (cmpB b b' <=? 0); repeat constructor; assumption.
Qed.

Lemma qsort_related (la : list A) (lb : list B) :
  Forall2 R la lb -> Forall2 R (qsort cmpA la) (qsort cmpB lb).
Proof.
  intros H. induction H as [|a b la lb Hab H IH]; simpl.
  - constructor.
  - apply qsort_insert_related; assumption.
Qed.

End RelatedSorts.

(** The order of [cmp_devs], on the controllers of the bus. *)
Definition cmp_bus (x y : spdk_nvme_probe_info * spdk_nvme_ctrlr) : Z :=
  spdk_pci_addr_compare (probe_pci_addr (fst x)) (probe_pci_addr (fst y)).

Lemma skipn_cons_inv {A : Type} (l : list A) (n : nat) (x : A) (r : list A) :
  skipn n l = x :: r -> nth_error l n = Some x /\ skipn (S n) l = r.
Proof.
  revert n. induction l as [|h t IH]; intros [|n] H; simpl in *;
    try discriminate.
  - inversion H. auto.
  - apply IH. exact H.
Qed.

Lemma detach_loop_calls (l : list (spdk_nvme_probe_info * spdk_nvme_ctrlr)) :
  forall (ds : list dev) (lo : Z) (w : world) (tail : list dev),
    Forall2 holds ds l ->
    0 <= lo ->
    skipn (Z.to_nat lo) (devs w) = ds ++ tail ->
    exists w',
      for_loop lo (List.length ds)
        (fun i => c <- load i ctrlr ;; c <- deref c ;; spdk_nvme_detach c) w
      = Ret tt w'
      /\ issued w'
         = issued w ++ map (fun x => CallDetach (ctrlr_id (snd x))) l
      /\ output w' = output w
      /\ stdin w' = stdin w.
Proof.
  induction l as [|x l IH]; intros ds lo w tail Hds Hlo Hskip;
    inversion Hds as [|d ? ds' ? Hd Hds']; subst.
  - exists w. cbn. rewrite app_nil_r. auto.
  - cbn [app] in Hskip.
    destruct (skipn_cons_inv _ _ _ _ Hskip) as [Hnth Hrest].
    assert (Hslot : slot lo w = Some d).
    { unfold slot. destruct (lo <? 0) eqn:E; [lia | exact Hnth]. }
    destruct Hd as [_ [Hc _]].
    cbn [for_loop List.length].
    rewrite bind_assoc.
    rewrite (bind_ret_inv _ _ _ _ _ (load_ret _ _ _ _ Hslot)).
    rewrite Hc. cbn [deref]. rewrite bind_assoc, bind_ret.
    unfold spdk_nvme_detach at 1. rewrite bind_modify.
    destruct (IH ds' (lo + 1)
                (add_issued (CallDetach (ctrlr_id (snd x))) w) tail
                Hds' ltac:(lia)) as [w' [Hrun [Hiss [Hout Hin]]]].
    { cbn [devs add_issued].
      replace (Z.to_nat (lo + 1)) with (S (Z.to_nat lo)) by lia.
      exact Hrest. }
    exists w'. split; [exact Hrun|]. split; [|split; [exact Hout|exact Hin]].
    rewrite Hiss. cbn [issued add_issued map]. rewrite <- app_assoc.
    reflexivity.
Qed.

Section Quit.

Variable parse : string -> option spdk_pci_addr.

(** X10: a session that quits at once: when the first thing on the input is
    the command 8, [main] discovers the controllers, sorts the registry
    and detaches every controller of the bus exactly once, in ascending
    order of PCI address, after which it returns the value of
    [rte_eal_init].  Before the detach calls the driver has seen nothing
    but the identify commands of discovery. *)
Theorem quit_detaches_every_controller (fuel : nat) (w : world)
        (rest : string) :
  ready fuel w ->
  num_devs w = 0 ->
  Z.of_nat (List.length (bus_scan w)) <= Z.of_nat (List.length (devs w)) ->
  0 <= rte_eal_init_rc w ->
  spdk_nvme_probe_rc w = 0 ->
  scan_integer decimal to_int (stdin w) = (Assigned 8, rest) ->
  exists (w' : world) (li : list driver_call)
         (sorted : list (spdk_nvme_probe_info * spdk_nvme_ctrlr)),
    main parse fuel w = Ret (rte_eal_init_rc w) w'
    /\ issued w'
       = issued w ++ li
         ++ map (fun x => CallDetach (ctrlr_id (snd x))) sorted
    /\ Forall is_identify_common_ns li
    /\ Permutation sorted (bus_scan w)
    /\ Sorted (fun x y => cmp_bus x y <= 0) sorted
    /\ stdin w' = rest.
Proof.
  intros Hready Hzero Hroom Hrc Hprobe Hscan.
  destruct (discovery_registers_controllers fuel w Hready
              ltac:(rewrite Hzero; lia))
    as [w1 [Hrun [Hn1 [[ds [Hreg Hds]] [Hpend [Hin [_ [_ [_ [li [Hiss [Hli _]]]]]]]]]]]].
  rewrite Hzero in Hn1. cbn [Z.add] in Hn1.
  assert (Hreg1 : registry w1 = ds).
  { rewrite Hreg. unfold registry. rewrite Hzero. reflexivity. }
  assert (Hlen : List.length ds = List.length (bus_scan w))
    by exact (Forall2_length Hds).
  assert (Hfit : 0 <= num_devs w1 <= Z.of_nat (List.length (devs w1))).
  { split; [lia|].
    assert (H : (List.length (registry w1) <= List.length (devs w1))%nat).
    { unfold registry. rewrite length_firstn. lia. }
    assert (H' : List.length (registry w1) = Z.to_nat (num_devs w1)
                 \/ List.length (registry w1) = List.length (devs w1)).
    { unfold registry. rewrite length_firstn. lia. }
    rewrite Hreg1, Hlen in H, H'. lia. }
  destruct (qsort_devs_sorts w1 Hfit) as [w2 [Hsort [Hn2 [Hreg2 _]]]].
  assert (Hframe2 : stdin w2 = stdin w1 /\ issued w2 = issued w1).
  { unfold qsort_devs in Hsort.
    destruct ((num_devs w1 <? 0)
              || (Z.of_nat (List.length (devs w1)) <? num_devs w1));
      [discriminate|].
    inversion Hsort. split; reflexivity. }
  destruct Hframe2 as [Hin2 Hiss2].
  assert (Hsorted : Forall2 holds (registry w2) (qsort cmp_bus (bus_scan w))).
  { rewrite Hreg2, Hreg1. apply qsort_related; [|exact Hds].
    intros a b a' b' [Ha _] [Ha' _]. unfold cmp_devs, cmp_bus.
    rewrite Ha, Ha'. reflexivity. }
  destruct (usage w2) as [u w3| | | |] eqn:Husage.
  2-5: exfalso; revert Husage; unfold usage;
       repeat rewrite bind_printf; discriminate.
  destruct (prints_usage w2 w3) as [Hq3 _]; [rewrite Husage; reflexivity|].
  assert (Hin3 : stdin w3 = stdin w2) by exact (f_equal stdin Hq3).
  assert (Hiss3 : issued w3 = issued w2) by exact (f_equal issued Hq3).
  assert (Hdevs3 : devs w3 = devs w2) by exact (f_equal devs Hq3).
  assert (Hn3 : num_devs w3 = num_devs w2) by exact (f_equal num_devs Hq3).
  destruct u.
  assert (Hloop : command_loop parse fuel fuel w3
                  = Ret None (set_stdin rest w3)).
  { destruct Hready as [_ _ _ _ Hfuel _].
    destruct fuel as [|n]; [lia|]. cbn [command_loop].
    unfold bind at 1, scanf_d, scan.
    rewrite Hin3, Hin2, Hin, Hscan.
    cbn [scanf_failed after_scanf initialized]. rewrite bind_ret.
    reflexivity. }
  set (w4 := add_output (Print Stdout "Cleaning up...\n" [])
               (set_stdin rest w3)).
  destruct (detach_loop_calls (qsort cmp_bus (bus_scan w)) (registry w2)
              0 w4 (skipn (Z.to_nat (num_devs w2)) (devs w2))
              Hsorted ltac:(lia))
    as [w5 [Hdetach [Hiss5 [_ Hin5]]]].
  { cbn [Z.to_nat skipn devs w4 add_output set_stdin]. rewrite Hdevs3.
    unfold registry. symmetry. apply firstn_skipn. }
  assert (Hcount : List.length (registry w2) = Z.to_nat (num_devs w4)).
  { rewrite (Forall2_length Hsorted).
    rewrite (Permutation_length (qsort_perm cmp_bus _)).
    cbn [num_devs w4 add_output set_stdin]. rewrite Hn3, Hn2, Hn1. lia. }
  exists w5, li, (qsort cmp_bus (bus_scan w)). split.
  - unfold main, rte_eal_init. rewrite bind_gets.
    destruct (rte_eal_init_rc w <? 0) eqn:E; [lia|].
    rewrite (bind_ret_inv _ _ _ _ _ Hrun), Hprobe.
    change (negb (0 =? 0)) with false. cbv iota.
    rewrite (bind_ret_inv _ _ _ _ _ Hsort).
    rewrite (bind_ret_inv _ _ _ _ _ Husage).
    rewrite (bind_ret_inv _ _ _ _ _ Hloop).
    rewrite bind_printf. fold w4.
    unfold foreach_dev. rewrite bind_assoc, bind_gets.
    rewrite <- Hcount.
    rewrite (bind_ret_inv _ _ _ _ _ Hdetach). reflexivity.
  - split.
    + rewrite Hiss5. cbn [issued w4 add_output set_stdin].
      rewrite Hiss3, Hiss2, Hiss, <- app_assoc. reflexivity.
    + split; [exact Hli|]. split; [apply qsort_perm|].
      split.
      * apply qsort_sorted. intros a b.
        apply spdk_pci_addr_compare_connex.
      * rewrite Hin5. reflexivity.
Qed.

End Quit.

(** * Format: the confirmation and the namespace id *)

Section FormatDialogue.

Variable parse : string -> option spdk_pci_addr.

(** X11: the format command is handed to the driver only after the operator
    has confirmed: what is left of the current line is skipped, and the
    next character must be [y] or [Y].  With any other character and at
    end of file nothing is handed to the driver.  After a confirmation
    exactly one format command goes out, for the namespace id that was
    chosen. *)
Theorem format_needs_confirmation (device ns_id : Z)
        (ses pi pil ms : option Z) (lbaf : Z) (w w' : world) :
  world_of (format_nvm_confirm device ns_id ses pi pil ms lbaf w) = Some w' ->
  issued w' = issued w
  \/ (exists (c : ascii) (rest : string) (id : Z) (f : spdk_nvme_format),
         drop_line (stdin w) = Some (String c rest)
         /\ (c = "y"%char \/ c = "Y"%char)
         /\ issued w' = issued w ++ [CallFormat id (to_uint32 ns_id) f]).
Proof.
  unfold format_nvm_confirm. rewrite bind_printf.
  unfold bind at 1, discard_line. cbn [stdin add_output].
  destruct (drop_line (stdin w)) as [r|] eqn:Eline.
  2: { cbn. intros H. inversion H. left. reflexivity. }
  unfold bind at 1, scanf_c, scan, scan_char. cbn [stdin set_stdin].
  destruct r as [|c rest].
  { cbn. intros H. inversion H. left. reflexivity. }
  cbn [scanf_failed after_scanf initialized]. rewrite bind_ret.
  set (n := Z.of_nat (nat_of_ascii c)).
  destruct ((n =? 121) || (n =? 89)) eqn:Eyes.
  2: { cbn. intros H. inversion H. left. reflexivity. }
  assert (Hc : c = "y"%char \/ c = "Y"%char).
  { apply orb_true_iff in Eyes. unfold n in Eyes.
    destruct Eyes as [E|E]; apply Z.eqb_eq in E; [left|right];
      rewrite <- (ascii_nat_embedding c);
      [replace (nat_of_ascii c) with 121%nat by lia
      |replace (nat_of_ascii c) with 89%nat by lia]; reflexivity. }
  destruct ses as [ses|]; [|cbn; intros H; inversion H; left; reflexivity].
  destruct pi as [pi|]; [|cbn; intros H; inversion H; left; reflexivity].
  destruct pil as [pil|]; [|cbn; intros H; inversion H; left; reflexivity].
  destruct ms as [ms|]; [|cbn; intros H; inversion H; left; reflexivity].
  cbn [initialized]. rewrite !bind_ret.
  unfold nvme_manage_format.
  match goal with
  | |- world_of (bind _ _ ?W) = _ -> _ => set (w1 := W)
  end.
  unfold bind at 1, load.
  destruct (slot device w1) as [d|];
    [|cbn; intros H; inversion H; left; reflexivity].
  destruct (ctrlr d) as [cc|];
    [|cbn; intros H; inversion H; left; reflexivity].
  cbn [deref]. rewrite bind_ret.
  unfold spdk_nvme_ctrlr_format, driver_command.
  rewrite bind_assoc, bind_modify. unfold bind at 1.
  intros H. right. exists c, rest. eexists. eexists.
  split; [reflexivity|]. split; [exact Hc|].
  destruct (command_script _) as [|rc l]; unfold when in H.
  - cbn in H. inversion H. reflexivity.
  - destruct (negb (rc =? 0)); cbn in H; inversion H; reflexivity.
Qed.

Lemma issues_format_nvm_confirm_id (device ns_id : Z)
      (ses pi pil ms : option Z) (lbaf : Z) :
  issues (fun c => exists id f, c = CallFormat id (to_uint32 ns_id) f)
         (format_nvm_confirm device ns_id ses pi pil ms lbaf).
Proof.
  unfold format_nvm_confirm, nvme_manage_format, spdk_nvme_ctrlr_format.
  destruct ses, pi, pil, ms;
    issues_walk ltac:(apply issues_driver_command; eauto).
Qed.

(** X12: on a controller whose identify data says that a format applies to all
    namespaces, the operator is not asked for a namespace: the dialogue
    runs on the data of namespace 1 and every format command that goes to
    the driver names the namespace id FFFFFFFFh. *)
Theorem format_of_all_namespaces (w w1 w' : world) (p : Z) (d : dev)
        (c : spdk_nvme_ctrlr) (cd : spdk_nvme_ctrlr_data) :
  get_controller parse w = Ret (Some p) w1 ->
  slot p w1 = Some d ->
  ctrlr d = Some c ->
  cdata d = Some cd ->
  oacs_format cd = true ->
  fna_format_all_ns cd = true ->
  world_of (format_nvm parse w) = Some w' ->
  (forall (ch : format_choice) (w2 : world),
      format_nvm_choose parse w = Ret (Some ch) w2 ->
      fc_ns_id ch = -1
      /\ exists ns, ctrlr_get_ns c 1 = Some ns
                    /\ fc_nsdata ch = ns_get_data ns)
  /\ (ctrlr_get_ns c 1 = None ->
      last_output w' = Some (Print Stdout "Namespace ID %d not found\n"
                               [AInt (-1)]))
  /\ exists l,
      issued w' = issued w ++ l
      /\ Forall (fun call => exists id f,
                     call = CallFormat id SPDK_NVME_GLOBAL_NS_TAG f) l.
Proof.
  intros Hsel Hslot Hc Hcd Hfmt Hall Hrun.
  assert (Hchoose :
            format_nvm_choose parse w
            = match ctrlr_get_ns c 1 with
              | None =>
                  bind (printf "Namespace ID %d not found\n" [AInt (-1)])
                    (fun _ => bind discard_line (fun _ => ret None)) w1
              | Some ns =>
                  let nsdata := ns_get_data ns in
                  bind (printf "Please Input Secure Erase Setting: \n" [])
                    (fun _ =>
                       bind (printf "	0: No secure erase operation requested\n" [])
                         (fun _ =>
                            bind (printf "	1: User data erase\n" [])
                              (fun _ =>
                                 bind (when (fna_crypto_erase_supported cd)
                                         (printf "	2: Cryptographic erase\n" []))
                                   (fun _ =>
                                      bind scanf_d
                                        (fun r =>
                                           if scanf_failed r
                                           then
                                             bind (printf "Invalid Secure Erase Setting\n" [])
                                               (fun _ => bind discard_line
                                                           (fun _ => ret None))
                                           else
                                             bind (get_lba_format nsdata)
                                               (fun lbaf =>
                                                  if lbaf <? 0
                                                  then bind (printf "Invalid LBA format number\n" [])
                                                         (fun _ => ret None)
                                                  else ret (Some {| fc_dev := p;
                                                                    fc_ns_id := -1;
                                                                    fc_nsdata := nsdata;
                                                                    fc_ses := after_scanf None r;
                                                                    fc_lbaf := lbaf |}))))))) w1
              end).
  { unfold format_nvm_choose.
    rewrite (bind_ret_inv _ _ _ _ _ Hsel).
    rewrite (bind_ret_inv _ _ _ _ _ (load_ret _ _ _ _ Hslot)).
    rewrite Hcd. cbn [deref]. rewrite bind_ret, Hfmt, Hall. cbn [negb].
    rewrite bind_assoc.
    rewrite (bind_ret_inv _ _ _ _ _ (load_ret _ _ _ _ Hslot)).
    rewrite Hc. cbn [deref]. rewrite bind_assoc, !bind_ret.
    change (to_int SPDK_NVME_GLOBAL_NS_TAG) with (-1).
    destruct (ctrlr_get_ns c 1); reflexivity. }
  split; [|split].
  - intros ch w2 H. rewrite Hchoose in H.
    destruct (ctrlr_get_ns c 1) as [ns|].
    + cbv zeta in H. rewrite !bind_printf in H.
      apply bind_inv_ret in H. destruct H as [u [w3 [_ H]]].
      apply bind_inv_ret in H. destruct H as [r [w4 [_ H]]].
      destruct (scanf_failed r).
      * rewrite bind_printf in H.
        apply bind_inv_ret in H. destruct H as [u' [w5 [_ H]]]. discriminate.
      * apply bind_inv_ret in H. destruct H as [lbaf [w5 [_ H]]].
        destruct (lbaf <? 0).
        -- rewrite bind_printf in H. discriminate.
        -- inversion H. subst. cbn. split; [reflexivity|].
           exists ns. auto.
    + rewrite bind_printf in H.
      apply bind_inv_ret in H. destruct H as [u' [w5 [_ H]]]. discriminate.
  - intros Hnone. unfold format_nvm in Hrun.
    unfold bind at 1 in Hrun. rewrite Hchoose, Hnone in Hrun.
    rewrite bind_printf in Hrun. unfold bind at 1, discard_line in Hrun.
    cbn [stdin add_output] in Hrun.
    destruct (drop_line (stdin w1)); cbn in Hrun; inversion Hrun;
      unfold last_output; cbn; rewrite rev_app_distr; reflexivity.
  - unfold format_nvm in Hrun.
    destruct (bind_world_inv _ _ _ _ Hrun) as [[ch [w2 [E1 E2]]]|[E1 _]].
    + pose proof (silent_issued _ _ _ (silent_format_nvm_choose parse)
                    ltac:(rewrite E1; reflexivity)) as Hsame.
      destruct ch as [ch|].
      * assert (Hid : fc_ns_id ch = -1).
        { rewrite Hchoose in E1.
          destruct (ctrlr_get_ns c 1) as [ns|].
          - cbv zeta in E1. rewrite !bind_printf in E1.
            apply bind_inv_ret in E1. destruct E1 as [u [w3 [_ H]]].
            apply bind_inv_ret in H. destruct H as [r [w4 [_ H]]].
            destruct (scanf_failed r).
            + rewrite bind_printf in H.
              apply bind_inv_ret in H. destruct H as [u' [w5 [_ H]]].
              discriminate.
            + apply bind_inv_ret in H. destruct H as [lbaf [w5 [_ H]]].
              destruct (lbaf <? 0).
              * rewrite bind_printf in H. discriminate.
              * inversion H. reflexivity.
          - rewrite bind_printf in E1.
            apply bind_inv_ret in E1. destruct E1 as [u' [w5 [_ H]]].
            discriminate. }
        assert (Hrest :
                  issues (fun call => exists id f,
                              call = CallFormat id SPDK_NVME_GLOBAL_NS_TAG f)
                    (bind (format_nvm_protection (fc_nsdata ch) (fc_lbaf ch))
                       (fun prot =>
                          match prot with
                          | None => ret tt
                          | Some (pi, pil, ms) =>
                              format_nvm_confirm (fc_dev ch) (fc_ns_id ch)
                                (fc_ses ch) pi pil ms (fc_lbaf ch)
                          end))).
        { apply issues_bind.
          - apply silent_issues. apply silent_format_nvm_protection.
          - intros [[[pi pil] ms]|]; [|apply issues_ret].
            rewrite Hid.
            exact (issues_format_nvm_confirm_id _ (-1) _ _ _ _ _). }
        destruct (Hrest w2 w' E2) as [l [Hl Fl]].
        exists l. rewrite Hl, Hsame. auto.
      * inversion E2. subst. exists []. rewrite app_nil_r. auto.
    + exists []. rewrite app_nil_r. split; [|constructor].
      exact (silent_issued _ _ _ (silent_format_nvm_choose parse) E1).
Qed.

End FormatDialogue.

(** * Firmware update: every failure is reported *)

Definition firmware_refusals : list output_event :=
  map (fun report => Print (fst report) (snd report) [])
    [ (Stdout, "Invalid controller PCI BDF.\n");
      (Stdout, "Controller does not support firmware download and commit command\n");
      (Stdout, "Invalid path setting\n");
      (Stderr, "Open file failed");
      (Stdout, "Fstat failed\n");
      (Stdout, "Firmware image size is not multiple of 4\n");
      (Stdout, "Allocation error\n");
      (Stdout, "Read firmware image failed\n");
      (Stdout, "Invalid Slot\n") ].

Lemma last_output_set_stdin (s : string) (w : world) :
  last_output (set_stdin s w) = last_output w.
Proof. reflexivity. Qed.

Lemma discard_line_last_output (w w' : world) (u : unit) :
  discard_line w = Ret u w' -> last_output w' = last_output w.
Proof.
  unfold discard_line. destruct (drop_line (stdin w)); intros H;
    inversion H. reflexivity.
Qed.

Section FirmwareFailures.

Variable parse : string -> option spdk_pci_addr.

Lemma update_firmware_image_open_refusal (w w1 : world) :
  update_firmware_image_open parse w = Ret None w1 ->
  exists e, last_output w1 = Some e /\ In e firmware_refusals.
Proof.
  unfold update_firmware_image_open. intros H.
  apply bind_inv_ret in H. destruct H as [sel [w2 [_ H]]].
  destruct sel as [p|].
  2: { rewrite bind_printf in H. inversion H.
       eexists. split; [apply last_output_add | simpl; auto 12]. }
  apply bind_inv_ret in H. destruct H as [cd [w3 [_ H]]].
  apply bind_inv_ret in H. destruct H as [cd' [w4 [_ H]]].
  destruct (negb (oacs_firmware cd')).
  { rewrite bind_printf in H. inversion H.
    eexists. split; [apply last_output_add | simpl; auto 12]. }
  rewrite bind_printf in H.
  apply bind_inv_ret in H. destruct H as [l [w5 [_ H]]].
  destruct l as [path|].
  2: { rewrite bind_printf in H.
       apply bind_inv_ret in H. destruct H as [u [w6 [Hd H]]].
       inversion H. subst. apply discard_line_last_output in Hd.
       rewrite Hd. eexists. split; [apply last_output_add | simpl; auto 12]. }
  destruct (Nat.eqb (String.length (c_string path)) 0); [discriminate|].
  rewrite bind_gets in H.
  destruct (fs w5 (drop_last (c_string path))) as [f|].
  - destruct (fstat_rc f <? 0); [|discriminate].
    rewrite bind_printf in H. inversion H.
    eexists. split; [apply last_output_add | simpl; auto 12].
  - unfold perror in H. rewrite bind_fprintf in H. inversion H.
    eexists. split; [apply last_output_add | simpl; auto 12].
Qed.

(** X13: a firmware update that returns to the menu has either handed the
    driver nothing and reported why (no such controller, no firmware
    support, no path, the image cannot be opened or examined, its size is
    no multiple of 4, no buffer, a short read, no slot), or handed the driver
    exactly one update command, for a size that is a multiple of 4 and
    fits 32 bits, and reported what the driver returned. *)
Theorem firmware_update_failures (w w' : world) :
  update_firmware_image parse w = Ret tt w' ->
  (issued w' = issued w
   /\ exists e, last_output w' = Some e /\ In e firmware_refusals)
  \/ (exists id size slot_,
         issued w' = issued w ++ [CallUpdateFirmware id size slot_]
         /\ size mod 4 = 0
         /\ 0 <= size < 2 ^ 32
         /\ (last_output w'
             = Some (Print Stdout "spdk_nvme_ctrlr_update_firmware success\n" [])
             \/ last_output w'
                = Some (Print Stdout "spdk_nvme_ctrlr_update_firmware failed\n" []))).
Proof.
  intros H.
  assert (Hsilent : forall m : M unit,
             m w = Ret tt w' -> silent m -> issued w' = issued w).
  { intros m Hm Sm. apply (silent_issued m); [exact Sm|].
    rewrite Hm. reflexivity. }
  unfold update_firmware_image in H.
  apply bind_inv_ret in H. destruct H as [opened [w1 [Hopen H]]].
  pose proof (silent_issued _ _ _ (silent_update_firmware_image_open parse)
                ltac:(rewrite Hopen; reflexivity)) as Hiss1.
  destruct opened as [[p f]|].
  2: { inversion H. subst. left. split; [exact Hiss1|].
       exact (update_firmware_image_open_refusal _ _ Hopen). }
  destruct (negb (Z.rem (st_size f) 4 =? 0)) eqn:Erem.
  { inversion H. left. split; [exact Hiss1|].
    eexists. split; [apply last_output_add | simpl; auto 12]. }
  cbv zeta in H.
  apply bind_inv_ret in H. destruct H as [buf [w2 [Hbuf H]]].
  assert (Hiss2 : issued w2 = issued w1).
  { apply (silent_issued spdk_zmalloc).
    - unfold silent. apply issues_spdk_zmalloc.
    - rewrite Hbuf. reflexivity. }
  destruct (negb buf).
  { inversion H. left. split; [cbn; congruence|].
    eexists. split; [apply last_output_add | simpl; auto 12]. }
  destruct (negb (read_rc f (to_uint32 (st_size f)) =? to_uint32 (st_size f))).
  { inversion H. left. split; [cbn; congruence|].
    eexists. split; [apply last_output_add | simpl; auto 12]. }
  rewrite bind_printf in H.
  apply bind_inv_ret in H. destruct H as [r [w3 [Hscan H]]].
  assert (Hiss3 : issued w3 = issued w2).
  { unfold scanf_d, scan in Hscan.
    destruct (scan_integer decimal to_int _). inversion Hscan. reflexivity. }
  destruct (scanf_failed r).
  { rewrite bind_printf in H.
    apply (discard_line_last_output _ _ tt) in H as Hlast.
    left. split.
    - unfold discard_line in H. cbn [stdin add_output] in H.
      destruct (drop_line (stdin w3)); inversion H. cbn. congruence.
    - rewrite Hlast. eexists. split; [apply last_output_add | simpl; auto 12]. }
  apply bind_inv_ret in H. destruct H as [slot_ [w4 [Hinit H]]].
  assert (w4 = w3).
  { destruct (after_scanf None r); inversion Hinit. reflexivity. }
  subst w4.
  apply bind_inv_ret in H. destruct H as [c0 [w5 [Hload H]]].
  assert (w5 = w3).
  { unfold load in Hload. destruct (slot p w3); inversion Hload. reflexivity. }
  subst w5.
  apply bind_inv_ret in H. destruct H as [c [w6 [Hderef H]]].
  assert (w6 = w3).
  { destruct c0; inversion Hderef. reflexivity. }
  subst w6.
  unfold spdk_nvme_ctrlr_update_firmware, driver_command in H.
  rewrite !bind_assoc, bind_modify in H. unfold bind at 1 in H.
  right. exists (ctrlr_id c), (to_uint32 (st_size f)), slot_.
  assert (Hsize : to_uint32 (st_size f) mod 4 = 0
                  /\ 0 <= to_uint32 (st_size f) < 2 ^ 32).
  { apply negb_false_iff, Z.eqb_eq in Erem.
    apply Z.rem_divide in Erem; [|lia]. destruct Erem as [k Hk].
    unfold to_uint32, to_unsigned. split; [|apply Z.mod_pos_bound; lia].
    rewrite Hk.
    change (2 ^ 32) with (1073741824 * 4).
    rewrite Zmult_mod_distr_r, Z.mod_mul by lia. reflexivity. }
  destruct (command_script _) as [|rc l].
  - cbn in H. inversion H. cbn.
    split; [congruence|]. split; [apply Hsize|]. split; [apply Hsize|].
    left. apply last_output_add.
  - destruct (negb (rc =? 0)); cbn in H; inversion H; cbn.
    + split; [congruence|]. split; [apply Hsize|]. split; [apply Hsize|].
      right. apply last_output_add.
    + split; [congruence|]. split; [apply Hsize|]. split; [apply Hsize|].
      left. apply last_output_add.
Qed.

End FirmwareFailures.

(** * The list of allocated namespaces *)

(** The entries before the first zero: what [get_allocated_nsid] shows. *)
Fixpoint listed (l : list Z) : list Z :=
  match l with
  | [] => []
  | x :: l' => if x =? 0 then [] else x :: listed l'
  end.

(** The world with [l] printed after what was printed before. *)
Definition with_output (l : list output_event) (w : world) : world :=
  {| devs := devs w; num_devs := num_devs w; ns_list := ns_list w;
     stdin := stdin w; output := output w ++ l;
     zmalloc_script := zmalloc_script w;
     admin_raw_script := admin_raw_script w;
     command_script := command_script w; pending := pending w;
     issued := issued w; fs := fs w; bus_scan := bus_scan w;
     rte_eal_init_rc := rte_eal_init_rc w;
     spdk_nvme_probe_rc := spdk_nvme_probe_rc w |}.

Lemma print_ns_list_listed (l : list Z) :
  forall w,
    print_ns_list l w
    = Ret tt (with_output
                (map (fun x => Print Stdout "%u\n" [AInt x]) (listed l)) w).
Proof.
  induction l as [|x l IH]; intros w; cbn [print_ns_list listed].
  - unfold with_output. cbn. rewrite app_nil_r. destruct w; reflexivity.
  - destruct (x =? 0).
    + unfold with_output. cbn. rewrite app_nil_r. destruct w; reflexivity.
    + rewrite bind_printf, IH. unfold with_output. cbn.
      rewrite <- app_assoc. reflexivity.
Qed.



(** What the completion of that command leaves: the list filled on
    success, as it was otherwise, the counter at zero, nothing queued. *)
Definition completed_allocated (p sc : Z) (c : spdk_nvme_ctrlr) (d : dev)
           (w : world) : world :=
  set_pending []
    (put p (set_outstanding_admin_cmds 0 d)
       (set_ns_list
          (if sc =? SPDK_NVME_SC_SUCCESS
           then option_map (fun _ => ns_list_of (identify_allocated_ns c))
                           (ns_list w)
           else ns_list w) w)).


Lemma stdin_completed_allocated (p sc : Z) (c : spdk_nvme_ctrlr) (d : dev)
      (w : world) :
  stdin (completed_allocated p sc c d w) = stdin w.
Proof. reflexivity. Qed.



(** * The menu leaves the registered controllers as they are *)

(** Who is registered where: the number of controllers and, for each slot
    of [devs], the address, the handle and the identify data. *)
Definition identities (w : world)
  : Z * list (spdk_pci_addr * option spdk_nvme_ctrlr
              * option spdk_nvme_ctrlr_data) :=
  (num_devs w, map (fun d => (pci_addr d, ctrlr d, cdata d)) (devs w)).

Definition keeps_identities {A : Type} (m : M A) : Prop :=
  forall w w', world_of (m w) = Some w' -> identities w' = identities w.

Lemma identities_by {A : Type} (m : M A) :
  (forall w, match m w with
             | Ret _ w' | Exit _ w' | Undefined _ w' | Hang w' =>
                 identities w' = identities w
             | OutOfFuel => True
             end) ->
  keeps_identities m.
Proof.
  intros H w w' E. specialize (H w).
  destruct (m w); simpl in E; inversion E; subst; exact H.
Qed.

Lemma identities_registry {A : Type} (m : M A) :
  keeps_registry m -> keeps_identities m.
Proof.
  intros H w w' E. destruct (H w w' E) as [D N].
  unfold identities. rewrite D, N. reflexivity.
Qed.

Lemma identities_bind {A B : Type} (m : M A) (k : A -> M B) :
  keeps_identities m -> (forall a, keeps_identities (k a)) ->
  keeps_identities (bind m k).
Proof.
  intros Hm Hk w w' E.
  destruct (bind_world_inv m k w w' E) as [[a [w1 [E1 E2]]]|[E1 _]].
  - rewrite (Hk a w1 w' E2). apply (Hm w w1). rewrite E1. reflexivity.
  - exact (Hm w w' E1).
Qed.

Lemma map_list_update_same {A B : Type} (h : A -> B) (l : list A) (k : nat)
      (x y : A) :
  nth_error l k = Some y -> h x = h y ->
  map h (list_update l k x) = map h l.
Proof.
  revert k. induction l as [|a t IH]; intros [|k] Hn Hh; simpl in *;
    try discriminate; try reflexivity.
  - inversion Hn. subst. rewrite Hh. reflexivity.
  - rewrite (IH k Hn Hh). reflexivity.
Qed.

(** A store that changes only the counter or the common namespace data. *)
Lemma identities_store (p : Z) (g : dev -> dev) :
  (forall d, pci_addr (g d) = pci_addr d /\ ctrlr (g d) = ctrlr d
             /\ cdata (g d) = cdata d) ->
  keeps_identities (store p g).
Proof.
  intros Hg. apply identities_by. intros w. unfold store.
  destruct (slot p w) as [d|] eqn:Hs; [|reflexivity].
  unfold identities. cbn. f_equal.
  unfold slot in Hs. destruct (p <? 0); [discriminate|].
  apply (map_list_update_same _ _ _ _ d Hs).
  destruct (Hg d) as [H1 [H2 H3]]. rewrite H1, H2, H3. reflexivity.
Qed.

Lemma identities_for_loop (body : Z -> M unit) (count : nat) :
  (forall i, keeps_identities (body i)) ->
  forall lo, keeps_identities (for_loop lo count body).
Proof.
  intros Hb. induction count as [|n IH]; intros lo; simpl.
  - apply identities_by. intros w. reflexivity.
  - apply identities_bind; [apply Hb | intros _; apply IH].
Qed.

Lemma identities_ret {A : Type} (a : A) : keeps_identities (ret a).
Proof. apply identities_by. intros w. reflexivity. Qed.

Lemma identities_gets {A : Type} (f : world -> A) :
  keeps_identities (gets f).
Proof. apply identities_by. intros w. reflexivity. Qed.

Lemma identities_exit {A : Type} (c : Z) : keeps_identities (@exit A c).
Proof. apply identities_by. intros w. reflexivity. Qed.

Lemma identities_undefined {A : Type} (f : fault) :
  keeps_identities (@undefined A f).
Proof. apply identities_by. intros w. reflexivity. Qed.

(** A change of the world that does not write to [devs] or [num_devs]. *)
Lemma identities_modify (f : world -> world) :
  (forall w, identities (f w) = identities w) ->
  keeps_identities (modify f).
Proof. intros H. apply identities_by. intros w. apply H. Qed.

Lemma identities_fprintf (s : stream) (fmt : string) (args : list arg) :
  keeps_identities (fprintf s fmt args).
Proof. apply identities_modify. reflexivity. Qed.

Lemma identities_load {A : Type} (p : Z) (field : dev -> A) :
  keeps_identities (load p field).
Proof. apply identities_registry. apply keeps_load. Qed.

Lemma identities_deref {A : Type} (o : option A) :
  keeps_identities (deref o).
Proof. destruct o; [apply identities_ret | apply identities_undefined]. Qed.

Lemma identities_initialized (o : option Z) :
  keeps_identities (initialized o).
Proof. destruct o; [apply identities_ret | apply identities_undefined]. Qed.

Lemma identities_scan (f : string -> scanned * string) :
  keeps_identities (scan f).
Proof.
  apply identities_by. intros w. unfold scan.
  destruct (f (stdin w)). reflexivity.
Qed.

Lemma identities_fgets (size : nat) : keeps_identities (fgets size).
Proof. apply identities_registry. apply keeps_fgets. Qed.

Lemma identities_discard_line : keeps_identities discard_line.
Proof.
  apply identities_by. intros w. unfold discard_line.
  destruct (drop_line _); reflexivity.
Qed.

Lemma identities_spdk_zmalloc : keeps_identities spdk_zmalloc.
Proof.
  apply identities_by. intros w. unfold spdk_zmalloc.
  destruct (zmalloc_script w); reflexivity.
Qed.

Lemma identities_driver_command (call : driver_call) :
  keeps_identities (driver_command call).
Proof.
  apply identities_by. intros w. unfold driver_command, bind, modify.
  destruct (command_script _); reflexivity.
Qed.

Ltac identities_prim :=
  first
    [ apply identities_ret | apply identities_fprintf
    | apply identities_load | apply identities_deref
    | apply identities_initialized | apply identities_scan
    | apply identities_fgets | apply identities_discard_line
    | apply identities_spdk_zmalloc | apply identities_driver_command
    | apply identities_gets | apply identities_exit
    | apply identities_undefined
    | (apply identities_modify; reflexivity) ].

Ltac identities_walk solve_leaf :=
  repeat
    match goal with
    | |- keeps_identities (bind _ _) => apply identities_bind; [ | intro ]
    | |- keeps_identities (if ?b then _ else _) => destruct b
    | |- keeps_identities (match ?x with _ => _ end) => destruct x
    | |- keeps_identities (for_loop _ _ _) =>
        apply identities_for_loop; intro
    | |- keeps_identities (foreach_dev _) => unfold foreach_dev
    | |- keeps_identities (when _ _) => unfold when
    | |- keeps_identities (store _ _) =>
        apply identities_store; intro; repeat split
    | |- keeps_identities _ => first [ identities_prim | solve_leaf ]
    | |- keeps_identities _ => progress cbv zeta
    end.

Lemma identities_cmd_admin_raw (c : spdk_nvme_ctrlr) (cmd : spdk_nvme_cmd)
      (cb : admin_cb) (p : Z) :
  keeps_identities (spdk_nvme_ctrlr_cmd_admin_raw c cmd cb p).
Proof.
  apply identities_by. intros w. rewrite cmd_admin_raw_eq. cbv zeta.
  destruct (raw_rc _ =? 0); reflexivity.
Qed.

Lemma identities_complete_ready (cid : Z) (q : list admin_req) :
  keeps_identities (complete_ready cid q).
Proof.
  induction q as [|r q IH]; cbn [complete_ready].
  - apply identities_ret.
  - unfold deliver, run_callback, identify_common_ns_cb,
      identify_allocated_ns_cb.
    identities_walk ltac:(exact IH).
Qed.

Lemma identities_while_outstanding (fuel : nat) (p : Z) (body : M unit) :
  keeps_identities body -> keeps_identities (while_outstanding fuel p body).
Proof.
  intros Hb. induction fuel as [|k IH]; cbn [while_outstanding].
  - intros w w' E. discriminate.
  - identities_walk ltac:(first [exact Hb | exact IH]).
Qed.

Section MenuIdentities.

Variable parse : string -> option spdk_pci_addr.

Lemma identities_get_controller : keeps_identities (get_controller parse).
Proof. apply identities_registry. apply keeps_get_controller. Qed.

Lemma identities_get_allocated_nsid (fuel : nat) (p : Z) :
  keeps_identities (get_allocated_nsid fuel p).
Proof.
  unfold get_allocated_nsid, spdk_nvme_ctrlr_process_admin_completions.
  identities_walk ltac:(first
    [ apply identities_cmd_admin_raw
    | apply identities_while_outstanding
    | apply identities_complete_ready
    | apply identities_registry; apply keeps_prim; intros w;
      rewrite print_ns_list_listed; split; reflexivity ]).
Qed.

Lemma identities_dispatch (fuel : nat) (cmd : Z) :
  keeps_identities (dispatch parse fuel cmd).
Proof.
  unfold dispatch, add_ns, delete_ns, attach_and_detach_ns, format_nvm,
    update_firmware_image, format_nvm_choose, format_nvm_protection,
    format_nvm_confirm, update_firmware_image_open, ns_attach,
    ns_manage_add, ns_manage_delete, nvme_manage_format, get_lba_format,
    lbaf_at, spdk_nvme_ctrlr_attach_ns, spdk_nvme_ctrlr_detach_ns,
    spdk_nvme_ctrlr_create_ns, spdk_nvme_ctrlr_delete_ns,
    spdk_nvme_ctrlr_format, spdk_nvme_ctrlr_update_firmware.
  identities_walk ltac:(first
    [ apply identities_get_controller
    | apply identities_get_allocated_nsid
    | apply identities_registry; apply keeps_display_controller_list ]).
Qed.

(** X15: no menu command registers, forgets, moves or re-identifies a
    controller: however the menu loop ends, [num_devs] and, slot by slot,
    the address, the handle and the identify data in [devs] are what they
    were when the loop was entered.  Only the in-flight counter and the
    common namespace data of a slot are ever written after discovery. *)
Theorem menu_keeps_identities (fuel iterations : nat) (w w' : world) :
  world_of (command_loop parse fuel iterations w) = Some w' ->
  num_devs w' = num_devs w
  /\ map (fun d => (pci_addr d, ctrlr d, cdata d)) (devs w')
     = map (fun d => (pci_addr d, ctrlr d, cdata d)) (devs w).
Proof.
  intros H.
  assert (K : keeps_identities (command_loop parse fuel iterations)).
  { clear. induction iterations as [|k IH]; cbn [command_loop].
    - intros w w' E. discriminate.
    - unfold usage.
      identities_walk ltac:(first [apply identities_dispatch | exact IH]). }
  pose proof (K w w' H) as E. unfold identities in E.
  inversion E. auto.
Qed.

End MenuIdentities.

(** * Create *)


Section Create.

Variable parse : string -> option spdk_pci_addr.


End Create.

(** * Memory safety of the menu

    The two kinds of undefined behaviour that the program does not guard
    against: a variable that [scanf] left unset at end of file is read,
    and [path[strlen(path) - 1]] is written for an empty path. *)

Definition unguarded (f : fault) : Prop :=
  f = Uninitialized \/ f = OutOfBounds (-1).

(** Namespace data whose number of LBA formats stays within the table. *)
Definition good_ns (nd : spdk_nvme_ns_data) : Prop :=
  0 <= nlbaf nd < Z.of_nat (List.length (lbaf nd)).

(** A controller handle: the namespaces 1 to [num_ns] exist, and all
    namespace data it gives out is good. *)
Definition good_ctrlr (c : spdk_nvme_ctrlr) : Prop :=
  (forall i, 1 <= i < 1 + Z.of_nat (Z.to_nat (ctrlr_get_num_ns c)) ->
             ctrlr_get_ns c i <> None)
  /\ (forall i ns, ctrlr_get_ns c i = Some ns -> good_ns (ns_get_data ns))
  /\ good_ns (identify_common_ns c).

(** A slot as discovery leaves it. *)
Definition good_dev (d : dev) : Prop :=
  (exists c, ctrlr d = Some c /\ good_ctrlr c)
  /\ cdata d <> None
  /\ (forall nd, common_ns_data d = Some nd -> good_ns nd).

Definition good_req (n : Z) (r : admin_req) : Prop :=
  0 <= req_arg r < n /\ good_ctrlr (req_ctrlr r).

(** The invariant of the menu: [n] controllers are registered, their slots
    are good, the queued admin commands point at registered slots, and,
    when [listing] is set, the buffer for the list of allocated namespaces
    is there. *)
Record inv (n : Z) (listing : bool) (w : world) : Prop := {
  inv_num : num_devs w = n;
  inv_fit : 0 <= n <= Z.of_nat (List.length (devs w));
  inv_devs : Forall good_dev (firstn (Z.to_nat n) (devs w));
  inv_pending : Forall (good_req n) (pending w);
  inv_listing : listing = true -> ns_list w <> None
}.

(** [safe n b b' m Q]: from a world where the invariant holds, [m] runs
    into no undefined behaviour other than the unguarded kinds; when it
    returns the invariant holds again and the result satisfies [Q]. *)
Definition safe (n : Z) (b b' : bool) {A : Type} (m : M A) (Q : A -> Prop)
  : Prop :=
  forall w, inv n b w ->
            match m w with
            | Ret a w' => inv n b' w' /\ Q a
            | Undefined f _ => unguarded f
            | _ => True
            end.



Lemma safe_ret (n : Z) (b : bool) {A : Type} (a : A) (Q : A -> Prop) :
  Q a -> safe n b b (ret a) Q.
Proof. intros H w I. simpl. auto. Qed.



Lemma safe_forget (n : Z) (b : bool) {A : Type} (m : M A) (Q : A -> Prop) :
  safe n b true m Q -> safe n b false m Q.
Proof.
  intros Hm w I. specialize (Hm w I).
  destruct (m w); auto. destruct Hm as [[H1 H2 H3 H4 H5] Qa].
  split; [|exact Qa]. constructor; auto.
Qed.



















Lemma safe_deref_some (n : Z) (b : bool) {A : Type} (a : A) :
  safe n b b (deref (Some a)) (fun v => v = a).
Proof. apply safe_ret. reflexivity. Qed.












Section SafeSelection.

Variable parse : string -> option spdk_pci_addr.
Variables (n : Z) (b : bool).






End SafeSelection.


Section SafeCompletions.

Variable n : Z.













End SafeCompletions.

Section SafeOperations.

Variable parse : string -> option spdk_pci_addr.
Variable n : Z.



















End SafeOperations.



Section MemorySafety.

Variable parse : string -> option spdk_pci_addr.




End MemorySafety.

Section MenuSafety.

Variable parse : string -> option spdk_pci_addr.


End MenuSafety.

(** * What the listing shows *)


Definition bdf (a : spdk_pci_addr) : list arg :=
  [AInt (domain a); AInt (bus a); AInt (pci_dev a); AInt (func a)].

Section ListingShows.

(** The registry during the listing. *)
Variables (ds : list dev) (n : Z).















End ListingShows.


(** * Concrete runs *)

Module Examples.

(** A reading of [domain:bus:dev.func] in hexadecimal, standing in for
    [spdk_pci_addr_parse] in the runs below. *)
Definition parse_bdf (s : string) : option spdk_pci_addr :=
  match take_digits 16 s None with
  | (Some d, String ":" s1) =>
      match take_digits 16 s1 None with
      | (Some b, String ":" s2) =>
          match take_digits 16 s2 None with
          | (Some dv, String "." s3) =>
              match take_digits 16 s3 None with
              | (Some f, _) =>
                  Some {| domain := d; bus := b; pci_dev := dv; func := f |}
              | _ => None
              end
          | _ => None
          end
      | _ => None
      end
  | _ => None
  end.

(** The text of the given lines, each ended by a newline. *)
Definition lines (l : list string) : string :=
  fold_right (fun s acc => (s ++ String newline acc)%string) EmptyString l.

Definition addr (b : Z) : spdk_pci_addr :=
  {| domain := 0; bus := b; pci_dev := 0; func := 0 |}.

Definition info (b : Z) : spdk_nvme_probe_info :=
  {| probe_pci_addr := addr b |}.

(** Namespace data with two LBA formats: 512 bytes without metadata and
    4096 bytes with 8 bytes of metadata. *)
Definition nsdata : spdk_nvme_ns_data := {|
  nsze := 1000; ncap := 1000; nuse := 0; nlbaf := 1; flbas_format := 0;
  fpi_supported := false; fpi_percentage_remaining := 0;
  lbaf := [{| lbaf_ms := 0; lbaf_lbads := 9 |};
           {| lbaf_ms := 8; lbaf_lbads := 12 |}]
          ++ repeat {| lbaf_ms := 0; lbaf_lbads := 0 |} 14;
  dpc_pit1 := false; dpc_pit2 := false; dpc_pit3 := false;
  dpc_md_start := false; dpc_md_end := false;
  dps_pit := 0; dps_md_start := 0; nmic_can_share := 0 |}.

(** Identify data of a controller with every optional admin command. *)
Definition capable : spdk_nvme_ctrlr_data := {|
  mn := "model"; sn := "serial"; cntlid := 7; nn := 4;
  oacs_format := true; oacs_firmware := true; oacs_ns_manage := true;
  fna_format_all_ns := false; fna_crypto_erase_supported := false |}.

(** Identify data of a controller with none of them. *)
Definition incapable : spdk_nvme_ctrlr_data := {|
  mn := "model"; sn := "serial"; cntlid := 7; nn := 4;
  oacs_format := false; oacs_firmware := false; oacs_ns_manage := false;
  fna_format_all_ns := false; fna_crypto_erase_supported := false |}.

(** A controller with one namespace, of id 1. *)
Definition controller (id : Z) (cd : spdk_nvme_ctrlr_data)
  : spdk_nvme_ctrlr := {|
  ctrlr_id := id; ctrlr_get_data := cd; ctrlr_get_num_ns := 1;
  ctrlr_get_ns :=
    fun i => if i =? 1
             then Some {| ns_get_id := 1; ns_get_data := nsdata |}
             else None;
  identify_common_ns := nsdata; identify_allocated_ns := [1] |}.

Definition no_files : string -> option file := fun _ => None.

(** An image of the given size under the name [fw.bin]. *)
Definition firmware (size : Z) : string -> option file :=
  fun path =>
    if String.eqb path "fw.bin"
    then Some {| fstat_rc := 0; st_size := size;
                 read_rc := fun n => Z.min n size |}
    else None.

(** The registry as discovery leaves it, at the menu. *)
Definition at_menu (registered : list dev) (input : list string)
           (zmalloc_answers : list bool) (raw_answers : list raw_answer)
           (files : string -> option file) : world :=
  {| devs := registered
             ++ repeat dev_zero
                  (Z.to_nat MAX_DEVS - List.length registered);
     num_devs := Z.of_nat (List.length registered);
     ns_list := None; stdin := lines input; output := [];
     zmalloc_script := zmalloc_answers;
     admin_raw_script := raw_answers; command_script := [];
     pending := []; issued := []; fs := files; bus_scan := [];
     rte_eal_init_rc := 0; spdk_nvme_probe_rc := 0 |}.

(** A registered controller; [common] is its common namespace data. *)
Definition registered_dev (b : Z) (c : spdk_nvme_ctrlr)
           (common : option spdk_nvme_ns_data) : dev :=
  {| pci_addr := addr b; ctrlr := Some c;
     cdata := Some (ctrlr_get_data c); common_ns_data := common;
     outstanding_admin_cmds := 0 |}.

Definition printed (fmt : string) (w : world) : bool :=
  existsb (fun e => match e with Print _ f _ => String.eqb f fmt end)
          (output w).

(** The world a run ends in, for evaluating concrete runs. *)
Definition final {A : Type} (o : outcome A) (otherwise : world) : world :=
  match world_of o with
  | Some w => w
  | None => otherwise
  end.

End Examples.

Module Runs.

Import Examples.

(** ** The capability gates (C10) *)

(** At the menu with one controller that supports none of the optional
    admin commands; the operator selects it. *)
Definition gated : world :=
  at_menu [registered_dev 1 (controller 100 incapable) None]
          ["2"; "0:1:0.0"] [] [] no_files.

Definition gated_selected : world :=
  final (get_controller parse_bdf gated) gated.

Lemma capability_gates_witness :
  let refused fmt := Ret tt (add_output (Print Stdout fmt []) gated_selected) in
  add_ns parse_bdf gated
  = refused "Controller does not support ns management\n"
  /\ delete_ns parse_bdf gated
     = refused "Controller does not support ns management\n"
  /\ attach_and_detach_ns parse_bdf 3 SPDK_NVME_NS_CTRLR_ATTACH gated
     = refused "Controller does not support ns management\n"
  /\ format_nvm parse_bdf gated
     = refused "Controller does not support Format NVM command\n"
  /\ update_firmware_image parse_bdf gated
     = refused "Controller does not support firmware download and commit command\n"
  /\ issued gated_selected = [].
Proof.
  intros refused.
  destruct (capability_gates parse_bdf 3 SPDK_NVME_NS_CTRLR_ATTACH
              gated gated_selected 0
              (registered_dev 1 (controller 100 incapable) None)
              incapable
              ltac:(vm_compute; reflexivity)
              ltac:(vm_compute; reflexivity)
              ltac:(reflexivity))
    as [Hissued [Hmanage [Hformat Hfirmware]]].
  destruct (Hmanage eq_refl) as [Hadd [Hdelete Hattach]].
  split; [exact Hadd|]. split; [exact Hdelete|]. split; [exact Hattach|].
  split; [exact (Hformat eq_refl)|]. split; [exact (Hfirmware eq_refl)|].
  exact Hissued.
Defined.

(** ** The completion callbacks (C7) *)

(** One controller with an identify command in flight. *)
Definition in_flight : world :=
  at_menu [{| pci_addr := addr 1; ctrlr := Some (controller 100 capable);
              cdata := Some capable; common_ns_data := Some ns_data_zero;
              outstanding_admin_cmds := 1 |}]
          [] [] [] no_files.

Lemma completion_callbacks_decrement_once_witness :
  (exists w' d',
      identify_common_ns_cb 0 {| status_sc := 2 |} in_flight = Ret tt w'
      /\ slot 0 w' = Some d'
      /\ outstanding_admin_cmds d' = 1 - 1
      /\ common_ns_data d' = None
      /\ pci_addr d' = addr 1
      /\ ctrlr d' = Some (controller 100 capable)
      /\ cdata d' = Some capable)
  /\ option_map (fun w => option_map outstanding_admin_cmds (slot 0 w))
       (world_of (identify_allocated_ns_cb 0 {| status_sc := 2 |} in_flight))
     = Some (Some 0).
Proof.
  destruct (completion_callbacks_decrement_once 0 {| status_sc := 2 |}
              in_flight
              {| pci_addr := addr 1; ctrlr := Some (controller 100 capable);
                 cdata := Some capable;
                 common_ns_data := Some ns_data_zero;
                 outstanding_admin_cmds := 1 |}
              ltac:(reflexivity)
              ltac:(unfold INT_MIN, INT_MAX; simpl; lia))
    as [Hcommon Hallocated].
  split; [exact Hcommon|].
  rewrite Hallocated. reflexivity.
Defined.

(** ** Format (C5, C8) *)

(** At the menu with one capable controller whose common namespace data
    was fetched; the operator formats namespace 1 with LBA format 0, which
    has no metadata, and confirms. *)
Definition menu_with_capable (input : list string) : world :=
  at_menu [registered_dev 1 (controller 100 capable) (Some nsdata)]
          input [] [] no_files.

Definition formatting : world :=
  menu_with_capable ["6"; "0:1:0.0"; "1"; "0"; "0"; "Y"].

Definition format_chosen : format_choice :=
  {| fc_dev := 0; fc_ns_id := 1; fc_nsdata := nsdata; fc_ses := Some 0;
     fc_lbaf := 0 |}.

Definition formatting_chosen : world :=
  final (format_nvm_choose parse_bdf formatting) formatting.

Definition formatted : world :=
  final (format_nvm parse_bdf formatting) formatting.

Lemma format_without_metadata_witness :
  format_nvm_protection nsdata 0 formatting_chosen
  = Ret (Some (Some 0, Some 0, Some 0)) formatting_chosen
  /\ issued formatted
     = [CallFormat 100 1 {| fmt_lbaf := 0; fmt_ms := 0; fmt_pi := 0;
                            fmt_pil := 0; fmt_ses := 0 |}]
  /\ exists l, issued formatted = issued formatting ++ l
               /\ Forall format_without_protection l.
Proof.
  destruct (format_without_metadata parse_bdf formatting formatting_chosen
              format_chosen {| lbaf_ms := 0; lbaf_lbads := 9 |}
              ltac:(vm_compute; reflexivity)
              ltac:(vm_compute; reflexivity)
              ltac:(reflexivity))
    as [Hprotection [_ Hcalls]].
  split; [exact Hprotection|]. split; [vm_compute; reflexivity|].
  apply Hcalls. vm_compute. reflexivity.
Defined.

Lemma format_issues_only_format_witness :
  (exists l, issued formatted = issued formatting ++ l /\ Forall is_format l)
  /\ (exists l,
         issued (final (get_allocated_nsid 3 0 formatting) formatting)
         = issued formatting ++ l
         /\ Forall is_identify_allocated_ns_list l).
Proof.
  split.
  - apply (proj1 (format_issues_only_format parse_bdf 3 0 formatting
                    formatted)).
    vm_compute. reflexivity.
  - apply (proj2 (format_issues_only_format parse_bdf 3 0 formatting
                    (final (get_allocated_nsid 3 0 formatting) formatting))).
    vm_compute. reflexivity.
Defined.

(** A whole session: one controller without "format applies to all
    namespaces" is discovered, the operator formats namespace 1 and quits.
    The format command goes to the driver, and no identify command for
    the allocated-namespace list ever does. *)
Definition format_session : world :=
  initial_world (lines ["6"; "0:1:0.0"; "1"; "0"; "0"; "Y"; ""; "8"])
    [] [] [] no_files [(info 1, controller 100 capable)] 0 0.

Lemma format_without_allocated_ns_list :
  fna_format_all_ns capable = false
  /\ exists w',
      main parse_bdf 3 format_session = Ret 0 w'
      /\ In (CallFormat 100 1 {| fmt_lbaf := 0; fmt_ms := 0; fmt_pi := 0;
                                 fmt_pil := 0; fmt_ses := 0 |}) (issued w')
      /\ Forall (fun c => ~ is_identify_allocated_ns_list c) (issued w').
Proof.
  split; [reflexivity|]. eexists. split; [vm_compute; reflexivity|].
  split.
  - simpl. auto.
  - repeat constructor; simpl; intros H; try exact H;
      destruct H as [_ H]; discriminate H.
Qed.

(** ** Firmware update (C9) *)

(** At the menu with one capable controller; the operator gives the image
    [fw.bin] of the given size and slot 3. *)
Definition flashing (size : Z) : world :=
  at_menu [registered_dev 1 (controller 100 capable) (Some nsdata)]
          ["7"; "0:1:0.0"; "fw.bin"; "3"] [] [] (firmware size).

Definition image (size : Z) : file :=
  {| fstat_rc := 0; st_size := size; read_rc := fun n => Z.min n size |}.

Definition flashing_opened (size : Z) : world :=
  final (update_firmware_image_open parse_bdf (flashing size)) (flashing size).

Definition flashing_slot_read : world :=
  final (scanf_d (add_output (Print Stdout "Please Input Slot(0 - 7): \n" [])
                    (flashing_opened 4096)))
        (flashing 4096).

Lemma firmware_image_alignment_witness :
  (update_firmware_image parse_bdf (flashing 4097)
   = Ret tt (add_output
               (Print Stdout "Firmware image size is not multiple of 4\n" [])
               (flashing_opened 4097))
   /\ issued (flashing_opened 4097) = [])
  /\ exists (rc : Z) (w4 : world) (report : string),
      spdk_nvme_ctrlr_update_firmware (controller 100 capable) 4096 3
        flashing_slot_read = Ret rc w4
      /\ update_firmware_image parse_bdf (flashing 4096)
         = Ret tt (add_output (Print Stdout report []) w4)
      /\ issued (add_output (Print Stdout report []) w4)
         = [CallUpdateFirmware 100 4096 3].
Proof.
  split.
  - destruct (firmware_image_alignment parse_bdf (flashing 4097)
                (flashing_opened 4097) 0 (image 4097)
                ltac:(vm_compute; reflexivity))
      as [Hissued [Hrejected _]].
    split; [apply Hrejected; vm_compute; discriminate | exact Hissued].
  - destruct (firmware_image_alignment parse_bdf (flashing 4096)
                (flashing_opened 4096) 0 (image 4096)
                ltac:(vm_compute; reflexivity))
      as [_ [_ Haccepted]].
    exact (Haccepted ltac:(reflexivity)
             (flashing_opened 4096) flashing_slot_read 3
             (registered_dev 1 (controller 100 capable) (Some nsdata))
             (controller 100 capable)
             ltac:(vm_compute; reflexivity)
             ltac:(vm_compute; reflexivity)
             ltac:(vm_compute; reflexivity)
             ltac:(vm_compute; reflexivity)
             ltac:(reflexivity)).
Defined.

(** ** The end of the process (C6) *)

(** A whole session: one capable controller is discovered, the operator
    creates a namespace, and the allocation of the namespace data fails
    (the first allocation, of the common namespace buffer, succeeds). *)
Definition create_session : world :=
  initial_world (lines ["2"; "0:1:0.0"; "0"; "100"; "100"; "0"; "0"])
    [true; false] [] [] no_files [(info 1, controller 100 capable)] 0 0.

Lemma create_allocation_failure_ends_process :
  rte_eal_init_rc create_session = 0
  /\ exists w',
      main parse_bdf 3 create_session = Exit 1 w'
      /\ last_output w' = Some namespace_data_failure
      /\ last_output w' <> Some controller_list_failure.
Proof.
  split; [reflexivity|]. eexists. split; [vm_compute; reflexivity|].
  split; [reflexivity | discriminate].
Qed.

(** A whole session in which the operator quits at once. *)
Definition quit_session : world :=
  initial_world (lines ["8"]) [] [] [] no_files
    [(info 1, controller 100 capable)] 0 0.

Definition create_session_end : world :=
  final (main parse_bdf 3 create_session) create_session.

Definition quit_session_end : world :=
  final (main parse_bdf 3 quit_session) quit_session.

Lemma process_end_conditions_witness :
  (1 = 1
   /\ (last_output create_session_end = Some dpdk_failure
       \/ last_output create_session_end = Some controller_list_failure
       \/ last_output create_session_end = Some namespace_data_failure))
  /\ ((0 = 1
       /\ last_output quit_session_end
          = Some (Print Stderr "spdk_nvme_probe() failed\n" []))
      \/ (0 = 0
          /\ last_output quit_session_end
             = Some (Print Stdout "Invalid Command\n" []))
      \/ (0 = rte_eal_init_rc quit_session /\ 0 <= 0
          /\ last_output quit_session_end
             = Some (Print Stdout "Cleaning up...\n" []))).
Proof.
  split.
  - apply (proj1 (process_end_conditions parse_bdf 3 create_session
                    create_session_end 1)).
    vm_compute. reflexivity.
  - apply (proj2 (process_end_conditions parse_bdf 3 quit_session
                    quit_session_end 0)).
    vm_compute. reflexivity.
Defined.

(** ** Operations without common namespace data (C4) *)

(** A whole session: the identify command for the common namespace data
    completes with an error status, so the controller is registered
    without that data; the operator then asks to create a namespace. *)
Definition uncommon_session : world :=
  initial_world (lines ["2"; "0:1:0.0"; ""; ""; "8"])
    [] [{| raw_rc := 0; raw_delay := 1; raw_sc := 2 |}] [] no_files
    [(info 1, controller 100 capable)] 0 0.

Lemma create_refused_without_common_ns_data :
  oacs_ns_manage capable = true
  /\ exists w',
      main parse_bdf 3 uncommon_session = Ret 0 w'
      /\ option_map common_ns_data (slot 0 w') = Some None
      /\ printed "Controller did not return common namespace capabilities\n"
                 w' = true
      /\ issued w'
         = [CallAdminRaw 100 {| opc := SPDK_NVME_OPC_IDENTIFY; cdw10 := 0;
                                nsid := SPDK_NVME_GLOBAL_NS_TAG |};
            CallDetach 100].
Proof.
  split; [reflexivity|]. eexists. split; [vm_compute; reflexivity|].
  split; [reflexivity|]. split; reflexivity.
Qed.

(** At the menu with one capable controller that has no common namespace
    data; the operator selects it. *)
Definition uncommon : world :=
  at_menu [registered_dev 1 (controller 100 capable) None]
          ["2"; "0:1:0.0"; "1"] [] [] no_files.

Definition uncommon_selected : world :=
  final (get_controller parse_bdf uncommon) uncommon.

Lemma operations_without_common_ns_data_witness :
  delete_ns parse_bdf (forget_common_ns_data (menu_with_capable
                                                ["3"; "0:1:0.0"; "1"]))
  = outcome_map forget_common_ns_data
      (delete_ns parse_bdf (menu_with_capable ["3"; "0:1:0.0"; "1"]))
  /\ add_ns parse_bdf uncommon
     = Ret tt (add_output
                 (Print Stdout
                    "Controller did not return common namespace capabilities\n"
                    [])
                 uncommon_selected)
  /\ issued uncommon_selected = [].
Proof.
  split.
  - exact (proj1 (operations_without_common_ns_data parse_bdf 3
                    SPDK_NVME_NS_CTRLR_ATTACH
                    (menu_with_capable ["3"; "0:1:0.0"; "1"]))).
  - destruct (operations_without_common_ns_data parse_bdf 3
                SPDK_NVME_NS_CTRLR_ATTACH uncommon)
      as [_ [_ [_ [_ Hcreate]]]].
    exact (Hcreate uncommon_selected 0
             (registered_dev 1 (controller 100 capable) None) capable
             ltac:(vm_compute; reflexivity)
             ltac:(vm_compute; reflexivity)
             ltac:(reflexivity) ltac:(reflexivity) ltac:(reflexivity)).
Defined.

(** ** The order of the registry (C3) *)

(** A whole session: the bus shows the controller at 0000:02:00.0 before
    the one at 0000:01:00.0, and the operator quits at once. *)
Definition two_controllers : world :=
  initial_world (lines ["8"]) [] [] [] no_files
    [(info 2, controller 100 capable); (info 1, controller 200 capable)] 0 0.

Lemma sort_changes_registration_order :
  discovered_addresses (bus_scan two_controllers) = [addr 2; addr 1]
  /\ exists w',
      main parse_bdf 3 two_controllers = Ret 0 w'
      /\ map pci_addr (registry w') = [addr 1; addr 2]
      /\ map pci_addr (registry w')
         <> discovered_addresses (bus_scan two_controllers).
Proof.
  split; [reflexivity|]. eexists. split; [vm_compute; reflexivity|].
  split; [reflexivity | discriminate].
Qed.

Lemma registry_order_witness :
  exists w1 w2 : world,
    spdk_nvme_probe 2 two_controllers = Ret (spdk_nvme_probe_rc w1) w1
    /\ num_devs w1 = 2
    /\ map pci_addr (registry w1) = [addr 2; addr 1]
    /\ qsort_devs w1 = Ret tt w2
    /\ num_devs w2 = num_devs w1
    /\ Permutation (registry w2) (registry w1)
    /\ Sorted (fun a b => cmp_devs a b <= 0) (registry w2).
Proof.
  assert (Hready : ready 2 two_controllers).
  { apply initial_world_ready; [lia | constructor]. }
  exact (proj1 (registry_order parse_bdf 2 two_controllers Hready
                  ltac:(reflexivity) ltac:(simpl; lia))).
Defined.

(** ** The capacity of the registry (C2) *)

(** [n] controllers on the bus, at 0000:00:00.0, 0000:01:00.0 and so on. *)
Definition crowd (n : nat) : list (spdk_nvme_probe_info * spdk_nvme_ctrlr) :=
  map (fun i => (info (Z.of_nat i), controller (Z.of_nat i) capable))
      (seq 0 n).

Definition crowded (n : nat) : world :=
  initial_world (lines ["8"]) [] [] [] no_files (crowd n) 0 0.

(** The registry after the discovery of 64 controllers. *)
Definition full : world :=
  final (probe_devices 2 (crowd 64) (crowded 64)) (crowded 64).

Lemma attach_cb_beyond_capacity_witness :
  num_devs full = MAX_DEVS
  /\ attach_cb 2 (info 64) (controller 64 capable) full
     = Undefined (OutOfBounds MAX_DEVS) (set_num_devs (MAX_DEVS + 1) full).
Proof.
  assert (Hnum : num_devs full = MAX_DEVS) by (vm_compute; reflexivity).
  split; [exact Hnum|].
  apply (attach_cb_beyond_capacity 2 (info 64) (controller 64 capable) full
           Hnum).
  vm_compute. reflexivity.
Defined.

(** A whole session with 65 controllers on the bus: the 65th registration
    writes outside the array. *)
Lemma discovery_of_65_controllers :
  exists w',
    main parse_bdf 2 (crowded 65) = Undefined (OutOfBounds MAX_DEVS) w'
    /\ num_devs w' = MAX_DEVS + 1
    /\ List.length (devs w') = Z.to_nat MAX_DEVS
    /\ output w' = [].
Proof.
  eexists. split; [vm_compute; reflexivity|].
  split; [reflexivity|]. split; reflexivity.
Qed.

(** ** The in-flight counter of attach and detach (C1) *)

(** At the menu with one capable controller; the driver will refuse the
    next admin command. *)
Definition refusing : world :=
  at_menu [registered_dev 1 (controller 100 capable) (Some nsdata)]
          ["4"; "0:1:0.0"] []
          [{| raw_rc := -12; raw_delay := O; raw_sc := 0 |}] no_files.

Lemma get_allocated_nsid_submission_failure_witness :
  exists (w' : world) (d' : dev),
    get_allocated_nsid 3 0 refusing = Ret 0 w'
    /\ slot 0 w' = Some d'
    /\ outstanding_admin_cmds d' = 0 + 1
    /\ pending w' = []
    /\ last_output w' = Some (Print Stdout "Identify command failed\n" []).
Proof.
  exact (get_allocated_nsid_submission_failure 3 0 refusing
           (registered_dev 1 (controller 100 capable) (Some nsdata))
           (controller 100 capable)
           {| raw_rc := -12; raw_delay := O; raw_sc := 0 |} []
           ltac:(reflexivity) ltac:(reflexivity) ltac:(reflexivity)
           ltac:(reflexivity) ltac:(discriminate)
           ltac:(unfold INT_MIN, INT_MAX; simpl; lia)).
Defined.

(** A whole session: the operator asks to attach a namespace, the driver
    refuses the identify command, and the operator quits.  The counter of
    the controller is left at 1. *)
Definition refused_session : world :=
  initial_world (lines ["4"; "0:1:0.0"; ""; ""; "8"]) []
    [{| raw_rc := 0; raw_delay := O; raw_sc := 0 |};
     {| raw_rc := -12; raw_delay := O; raw_sc := 0 |}]
    [] no_files [(info 1, controller 100 capable)] 0 0.

Lemma refused_identify_leaves_counter :
  exists w',
    main parse_bdf 3 refused_session = Ret 0 w'
    /\ printed "Identify command failed\n" w' = true
    /\ option_map outstanding_admin_cmds (slot 0 w') = Some 1
    /\ pending w' = [].
Proof.
  eexists. split; [vm_compute; reflexivity|].
  split; [reflexivity|]. split; reflexivity.
Qed.

(** The registry after that refusal: the counter of the controller is 1.
    The operator asks again, and this time the driver takes the command
    and completes it: the poll loop never ends. *)
Definition leaked : world :=
  final (get_allocated_nsid 3 0 refusing) refusing.

Lemma next_identify_never_returns :
  option_map outstanding_admin_cmds (slot 0 leaked) = Some 1
  /\ forall fuel : nat, get_allocated_nsid fuel 0 leaked = OutOfFuel.
Proof.
  split; [reflexivity|].
  apply (get_allocated_nsid_after_leak 0 leaked
           {| pci_addr := addr 1; ctrlr := Some (controller 100 capable);
              cdata := Some capable; common_ns_data := Some nsdata;
              outstanding_admin_cmds := 1 |}
           (controller 100 capable)).
  - reflexivity.
  - reflexivity.
  - unfold INT_MAX. simpl. lia.
  - reflexivity.
  - reflexivity.
  - reflexivity.
Qed.

(** ** Listing and selection *)

(** At the menu with one capable controller; the operator lists the
    controllers. *)
Definition listing : world := menu_with_capable ["1"].

Lemma listing_only_prints_witness :
  quiet (final (display_controller_list listing) listing) = quiet listing
  /\ exists l,
      output (final (display_controller_list listing) listing)
      = output listing ++ l.
Proof.
  apply (listing_only_prints listing
           (final (display_controller_list listing) listing)).
  left. vm_compute. reflexivity.
Defined.

(** The operator selects the controller at 0000:01:00.0. *)
Definition selecting : world := menu_with_capable ["4"; "0:1:0.0"; "1"].

Definition selected : world :=
  final (get_controller parse_bdf selecting) selecting.

Lemma get_controller_selects_witness :
  get_controller parse_bdf selecting = Ret (Some 0) selected
  /\ stdin selected = lines ["1"]
  /\ exists d, slot 0 selecting = Some d
               /\ spdk_pci_addr_compare (addr 1) (pci_addr d) = 0.
Proof.
  assert (Hrun : get_controller parse_bdf selecting = Ret (Some 0) selected)
    by (vm_compute; reflexivity).
  split; [exact Hrun|].
  pose proof (get_controller_selects parse_bdf selecting selected (Some 0)
                Hrun) as [_ H].
  assert (Eline : address_line (stdin selecting)
                  = Some (lines ["0:1:0.0"], lines ["1"]))
    by (vm_compute; reflexivity).
  rewrite Eline in H. destruct H as [Hrest H]. split; [exact Hrest|].
  assert (Eparse : parse_bdf (skip_space (c_string (lines ["0:1:0.0"])))
                   = Some (addr 1)) by (vm_compute; reflexivity).
  rewrite Eparse in H. destruct H as [_ [Hd _]]. exact Hd.
Defined.

(** The operator gives an address that no registered controller has. *)
Definition mistaken : world := menu_with_capable ["3"; "0:9:0.0"; "1"].

Definition mistaken_read : world :=
  final (get_controller parse_bdf mistaken) mistaken.

Lemma unknown_controller_cancels_witness :
  let cancelled fmt := Ret tt (add_output (Print Stdout fmt []) mistaken_read) in
  add_ns parse_bdf mistaken = cancelled "Invalid controller PCI Address.\n"
  /\ delete_ns parse_bdf mistaken
     = cancelled "Invalid controller PCI Address.\n"
  /\ attach_and_detach_ns parse_bdf 3 SPDK_NVME_NS_CTRLR_DETACH mistaken
     = cancelled "Invalid controller PCI Address.\n"
  /\ format_nvm parse_bdf mistaken = cancelled "Invalid controller PCI BDF.\n"
  /\ update_firmware_image parse_bdf mistaken
     = cancelled "Invalid controller PCI BDF.\n"
  /\ issued mistaken_read = issued mistaken.
Proof.
  exact (unknown_controller_cancels parse_bdf 3 SPDK_NVME_NS_CTRLR_DETACH
           mistaken mistaken_read ltac:(vm_compute; reflexivity)).
Defined.

(** ** The LBA format *)



(** ** Attach, detach and delete *)

Definition attaching : world := menu_with_capable ["4"; "0:1:0.0"; "1"].

Lemma attach_and_detach_calls_witness :
  exists l,
    issued (final (attach_and_detach_ns parse_bdf 3 SPDK_NVME_NS_CTRLR_ATTACH
                     attaching) attaching)
    = issued attaching ++ l
    /\ Forall (fun c => is_identify_allocated_ns_list c
                        \/ is_attachment SPDK_NVME_NS_CTRLR_ATTACH c) l.
Proof.
  apply (attach_and_detach_calls parse_bdf 3 SPDK_NVME_NS_CTRLR_ATTACH
           attaching).
  vm_compute. reflexivity.
Defined.





(** ** The end of the input *)

(** The input has ended at the menu; and the input ends right after the
    command that lists the controllers. *)
Definition silence : world := menu_with_capable [].

Definition last_command : world := menu_with_capable ["1"].

Lemma menu_at_end_of_input_witness :
  command_loop parse_bdf 3 1 silence
  = Undefined Uninitialized (set_stdin EmptyString silence)
  /\ exists w', command_loop parse_bdf 3 1 last_command = Hang w'
                /\ stdin w' = EmptyString.
Proof.
  destruct (menu_at_end_of_input parse_bdf 3 0 silence) as [Hend _].
  destruct (menu_at_end_of_input parse_bdf 3 0 last_command) as [_ Hhang].
  split; [exact (Hend eq_refl)|].
  apply (Hhang 1 (final (scanf_d last_command) last_command)
           (final (dispatch parse_bdf 3 1
                     (final (scanf_d last_command) last_command))
                  last_command)).
  - vm_compute. reflexivity.
  - vm_compute. reflexivity.
  - intros r Hr. vm_compute in Hr. inversion Hr. reflexivity.
Defined.

(** ** Discovery *)

(** Before discovery, with one controller on the bus whose identify
    command the driver completes with an error after one poll. *)
Definition failing_identify : world :=
  initial_world (lines ["8"]) []
    [{| raw_rc := 0; raw_delay := 1%nat; raw_sc := 2 |}] [] no_files
    [(info 1, controller 100 capable)] 0 0.

Lemma attach_cb_outcome_witness :
  exists w' : world,
    attach_cb 3 (info 1) (controller 100 capable) failing_identify = Ret tt w'
    /\ slot 0 w'
       = Some {| pci_addr := addr 1; ctrlr := Some (controller 100 capable);
                 cdata := Some capable; common_ns_data := None;
                 outstanding_admin_cmds := 0 |}
    /\ num_devs w' = 1
    /\ pending w' = []
    /\ output w' = []
    /\ issued w' = [CallAdminRaw 100 identify_common_ns_cmd].
Proof.
  destruct (attach_cb_outcome 3 (info 1) (controller 100 capable)
              failing_identify dev_zero
              ltac:(reflexivity) ltac:(reflexivity) ltac:(reflexivity)
              ltac:(unfold INT_MAX; simpl; lia) ltac:(simpl; lia))
    as [w' [Hrun [Hdevs [Hnum [Hpend [_ [Hout [Hiss _]]]]]]]].
  exists w'. split; [exact Hrun|].
  split; [unfold slot; rewrite Hdevs; reflexivity|].
  split; [exact Hnum|]. split; [exact Hpend|].
  split; [exact Hout | exact Hiss].
Defined.

Lemma discovery_registers_controllers_witness :
  exists w',
    spdk_nvme_probe 2 two_controllers = Ret 0 w'
    /\ num_devs w' = 2
    /\ (exists ds, registry w' = ds
                   /\ Forall2 holds ds (bus_scan two_controllers))
    /\ pending w' = []
    /\ stdin w' = lines ["8"]
    /\ (exists li, issued w' = li
                   /\ Forall is_identify_common_ns li
                   /\ (List.length li <= 2)%nat).
Proof.
  assert (Hready : ready 2 two_controllers).
  { apply initial_world_ready; [lia | constructor]. }
  destruct (discovery_registers_controllers 2 two_controllers Hready
              ltac:(simpl; lia))
    as [w' [Hrun [Hnum [Hreg [Hpend [Hin [_ [_ [_ Hiss]]]]]]]]].
  exists w'. split; [exact Hrun|]. split; [exact Hnum|].
  split; [exact Hreg|]. split; [exact Hpend|]. split; [exact Hin|].
  exact Hiss.
Defined.

(** ** Quit *)

Lemma quit_detaches_every_controller_witness :
  exists (w' : world) (li : list driver_call)
         (sorted : list (spdk_nvme_probe_info * spdk_nvme_ctrlr)),
    main parse_bdf 2 two_controllers = Ret 0 w'
    /\ issued w'
       = li ++ map (fun x => CallDetach (ctrlr_id (snd x))) sorted
    /\ Forall is_identify_common_ns li
    /\ Permutation sorted (bus_scan two_controllers)
    /\ Sorted (fun x y => cmp_bus x y <= 0) sorted
    /\ stdin w' = String newline EmptyString.
Proof.
  assert (Hready : ready 2 two_controllers).
  { apply initial_world_ready; [lia | constructor]. }
  exact (quit_detaches_every_controller parse_bdf 2 two_controllers
           (String newline EmptyString) Hready
           ltac:(reflexivity) ltac:(simpl; lia) ltac:(simpl; lia)
           ltac:(reflexivity) ltac:(vm_compute; reflexivity)).
Defined.

(** ** Format: confirmation and namespace id *)

(** After the warning, the operator answers [n]; and the operator
    confirms. *)
Definition declining : world := menu_with_capable ["0"; "n"].

Definition confirming : world := menu_with_capable ["0"; "Y"].

Lemma format_needs_confirmation_witness :
  issued (final (format_nvm_confirm 0 1 (Some 0) (Some 0) (Some 0) (Some 0) 0
                   declining) declining)
  = issued declining
  /\ exists (c : ascii) (rest : string) (id : Z) (f : spdk_nvme_format),
      drop_line (stdin confirming) = Some (String c rest)
      /\ (c = "y"%char \/ c = "Y"%char)
      /\ issued (final (format_nvm_confirm 0 1 (Some 0) (Some 0) (Some 0)
                          (Some 0) 0 confirming) confirming)
         = issued confirming ++ [CallFormat id (to_uint32 1) f].
Proof.
  split.
  - destruct (format_needs_confirmation 0 1 (Some 0) (Some 0) (Some 0)
                (Some 0) 0 declining
                (final (format_nvm_confirm 0 1 (Some 0) (Some 0) (Some 0)
                          (Some 0) 0 declining) declining)
                ltac:(vm_compute; reflexivity)) as [H|H].
    + exact H.
    + reflexivity.
  - destruct (format_needs_confirmation 0 1 (Some 0) (Some 0) (Some 0)
                (Some 0) 0 confirming
                (final (format_nvm_confirm 0 1 (Some 0) (Some 0) (Some 0)
                          (Some 0) 0 confirming) confirming)
                ltac:(vm_compute; reflexivity)) as [H|H].
    + vm_compute in H. discriminate H.
    + exact H.
Defined.

(** Identify data of a controller on which a format applies to all
    namespaces. *)
Definition formats_all : spdk_nvme_ctrlr_data := {|
  mn := "model"; sn := "serial"; cntlid := 7; nn := 4;
  oacs_format := true; oacs_firmware := true; oacs_ns_manage := true;
  fna_format_all_ns := true; fna_crypto_erase_supported := false |}.

(** The operator formats on such a controller: no namespace id is asked
    for. *)
Definition formatting_all : world :=
  at_menu [registered_dev 1 (controller 100 formats_all) (Some nsdata)]
          ["6"; "0:1:0.0"; "0"; "0"; "Y"] [] [] no_files.

Definition formatted_all : world :=
  final (format_nvm parse_bdf formatting_all) formatting_all.

Lemma format_of_all_namespaces_witness :
  issued formatted_all
  = [CallFormat 100 SPDK_NVME_GLOBAL_NS_TAG
       {| fmt_lbaf := 0; fmt_ms := 0; fmt_pi := 0; fmt_pil := 0;
          fmt_ses := 0 |}]
  /\ exists l,
      issued formatted_all = issued formatting_all ++ l
      /\ Forall (fun call => exists id f,
                     call = CallFormat id SPDK_NVME_GLOBAL_NS_TAG f) l.
Proof.
  split; [vm_compute; reflexivity|].
  exact (proj2 (proj2
           (format_of_all_namespaces parse_bdf formatting_all
              (final (get_controller parse_bdf formatting_all) formatting_all)
              formatted_all 0
              (registered_dev 1 (controller 100 formats_all) (Some nsdata))
              (controller 100 formats_all) formats_all
              ltac:(vm_compute; reflexivity) ltac:(vm_compute; reflexivity)
              ltac:(reflexivity) ltac:(reflexivity) ltac:(reflexivity)
              ltac:(reflexivity) ltac:(vm_compute; reflexivity)))).
Defined.

(** ** Firmware update *)

(** The operator names an image that does not exist; and the image of
    4096 bytes. *)
Definition missing_image : world :=
  at_menu [registered_dev 1 (controller 100 capable) (Some nsdata)]
          ["7"; "0:1:0.0"; "none.bin"; "3"] [] [] (firmware 4096).

Lemma firmware_update_failures_witness :
  (issued (final (update_firmware_image parse_bdf missing_image) missing_image)
   = issued missing_image
   /\ last_output (final (update_firmware_image parse_bdf missing_image)
                     missing_image)
      = Some (Print Stderr "Open file failed" []))
  /\ exists id size slot_,
      issued (final (update_firmware_image parse_bdf (flashing 4096))
                (flashing 4096))
      = issued (flashing 4096) ++ [CallUpdateFirmware id size slot_]
      /\ size mod 4 = 0.
Proof.
  split.
  - destruct (firmware_update_failures parse_bdf missing_image
                (final (update_firmware_image parse_bdf missing_image)
                   missing_image)
                ltac:(vm_compute; reflexivity)) as [[H _]|H].
    + split; [exact H | vm_compute; reflexivity].
    + split; vm_compute; reflexivity.
  - destruct (firmware_update_failures parse_bdf (flashing 4096)
                (final (update_firmware_image parse_bdf (flashing 4096))
                   (flashing 4096))
                ltac:(vm_compute; reflexivity)) as [[H _]|H].
    + vm_compute in H. discriminate H.
    + destruct H as [id [size [slot_ [H1 [H2 _]]]]].
      exists id, size, slot_. split; assumption.
Defined.

(** ** The list of allocated namespaces *)



(** ** The registry under the menu *)

(** A session at the menu: the operator attaches namespace 1 and quits. *)
Definition attach_then_quit : world :=
  menu_with_capable ["4"; "0:1:0.0"; "1"; ""; "8"].

Lemma menu_keeps_identities_witness :
  num_devs (final (command_loop parse_bdf 3 3 attach_then_quit)
              attach_then_quit) = 1
  /\ map (fun d => (pci_addr d, ctrlr d, cdata d))
       (devs (final (command_loop parse_bdf 3 3 attach_then_quit)
                attach_then_quit))
     = map (fun d => (pci_addr d, ctrlr d, cdata d)) (devs attach_then_quit).
Proof.
  apply (menu_keeps_identities parse_bdf 3 3 attach_then_quit
           (final (command_loop parse_bdf 3 3 attach_then_quit)
              attach_then_quit)).
  vm_compute. reflexivity.
Defined.

(** ** Memory safety *)





(** ** Create *)




(** ** What the listing shows *)



End Runs.
